(** * Streamlit DataFrame widget: cell mapping and editing overlay

    A shallow embedding of
    [frontend/src/components/widgets/DataFrame/DataFrameCells.tsx] and
    [frontend/src/components/widgets/DataFrame/DataFrame.tsx].

    JavaScript numbers are IEEE 754 binary64 values, which is what Rocq's
    primitive [float] is, so arithmetic, comparisons and NaN behave in the
    model as they do in the browser.  JavaScript strings are modelled by
    [string] restricted to the ASCII range.

    The code is embedded twice.  In the first embedding objects and
    arrays are values: records, lists and trees without identity, which
    is all the properties of what a function returns need.  In the
    second, module [Heap], they are objects of a store that are
    allocated, referred to and written in place, which is what the
    properties of what a function leaves unchanged need. *)

From Stdlib Require Import ZArith Floats String Ascii List Bool Lia DecimalString.
From Stdlib Require DecimalN DecimalPos.
From stdpp Require Import base option list gmap strings.

(** ** ECMAScript numbers *)

Module JsNumber.

Local Open Scope Z_scope.

(** The double nearest to an integer (ties to even). *)
Definition of_Z (z : Z) : float :=
  SF2Prim (binary_normalize prec emax z 0 false).

(** The double nearest to [num / den], for [den > 0]. *)
Definition of_ratio (num den : Z) : float :=
  match num, den with
  | Z0, _ => PrimFloat.zero
  | Zpos n, Zpos d =>
      SF2Prim (SFdiv prec emax (S754_finite false n 0) (S754_finite false d 0))
  | Zneg n, Zpos d =>
      SF2Prim (SFdiv prec emax (S754_finite true n 0) (S754_finite false d 0))
  | _, _ => nan
  end.

(** [Number.isNaN] *)
Definition isNaN (x : float) : bool := is_nan x.

(** The relational operators [x < y] and [x > y]; both are false as soon as
    one side is NaN. *)
Definition lt (x y : float) : bool := (x <? y)%float.
Definition gt (x y : float) : bool := (y <? x)%float.

(** [Math.min] and [Math.max] on two arguments: NaN is contagious and
    [-0] is smaller than [+0]. *)
Definition Math_min (a b : float) : float :=
  if is_nan a || is_nan b then nan
  else if lt a b then a
  else if lt b a then b
  else match classify a with NZero => a | _ => b end.

Definition Math_max (a b : float) : float :=
  if is_nan a || is_nan b then nan
  else if gt a b then a
  else if gt b a then b
  else match classify a with PZero => a | _ => b end.

(** [Math.round]: the nearest integer, a tie going towards +infinity;
    the sign of a zero result is the sign of the argument. *)
Definition Math_round (x : float) : float :=
  match Prim2SF x with
  | S754_finite s m e =>
      if 0 <=? e then x
      else
        let num := (if s then Zneg m else Zpos m) * 2 + 2 ^ (- e) in
        let r := num / 2 ^ (1 - e) in
        if r =? 0 then (if s then neg_zero else PrimFloat.zero) else of_Z r
  | _ => x
  end.

(** *** Number::toString, radix 10 *)

(** Non-negative rationals as pairs numerator, denominator. *)
Definition qlt (a b : Z * Z) : bool := fst a * snd b <? fst b * snd a.
Definition qle (a b : Z * Z) : bool := fst a * snd b <=? fst b * snd a.

(** [z * 2 ^ e] and [z * 10 ^ e] as rationals. *)
Definition scale2 (z e : Z) : Z * Z :=
  if 0 <=? e then (z * 2 ^ e, 1) else (z, 2 ^ (- e)).
Definition scale10 (z e : Z) : Z * Z :=
  if 0 <=? e then (z * 10 ^ e, 1) else (z, 10 ^ (- e)).

Definition decimal (z : Z) : string :=
  NilZero.string_of_uint (N.to_uint (Z.to_N z)).

Fixpoint zeros (n : nat) : string :=
  match n with O => EmptyString | S n => String "0" (zeros n) end.

(** The least [n] from [n0] on with [x < 10 ^ n]. *)
Fixpoint magnitude (fuel : nat) (x : Z * Z) (n0 : Z) : Z :=
  match fuel with
  | O => n0
  | S fuel => if qlt x (scale10 1 n0) then n0 else magnitude fuel x (n0 + 1)
  end.

Definition decimal_exponent (m e : Z) : Z :=
  let b := Z.log2 m + e in
  magnitude 8 (scale2 m e) ((b * 30103) / 100000 - 2).

(** Does [s * 10 ^ p] round to the double [m * 2 ^ e]?  The doubles that
    round to it lie between the midpoints to its two neighbours, the
    midpoints included when [m] is even. *)
Definition rounds_to (m e s p : Z) : bool :=
  let v := scale10 s p in
  let lo := if (m =? 2 ^ 52) && (-1074 <? e)
            then scale2 (4 * m - 1) (e - 2) else scale2 (4 * m - 2) (e - 2) in
  let hi := scale2 (4 * m + 2) (e - 2) in
  if Z.even m then qle lo v && qle v hi else qlt lo v && qlt v hi.

(** Twice the distance between [s * 10 ^ p] and [m * 2 ^ e], as a rational
    over the common denominator. *)
Definition distance (m e s p : Z) : Z :=
  let v := scale10 s p in
  let x := scale2 m e in
  Z.abs (fst v * snd x - fst x * snd v).

(** The digits [s], their number [k] and the exponent [n] of the shortest
    decimal [s * 10 ^ (n - k)] that rounds to [m * 2 ^ e]. *)
Fixpoint shortest (fuel : nat) (m e n k : Z) : Z * Z * Z :=
  let p := n - k in
  let x := scale2 m e in
  let pw := scale10 1 p in
  let s0 := (fst x * snd pw) / (snd x * fst pw) in
  let ok0 := (10 ^ (k - 1) <=? s0) && rounds_to m e s0 p in
  let ok1 := rounds_to m e (s0 + 1) p in
  let up := if s0 + 1 =? 10 ^ k then (10 ^ (k - 1), k, n + 1) else (s0 + 1, k, n) in
  match fuel with
  | O => (s0, k, n)
  | S fuel =>
      if ok0 && ok1 then
        match distance m e s0 p ?= distance m e (s0 + 1) p with
        | Lt => (s0, k, n)
        | Gt => up
        | Eq => if Z.even s0 then (s0, k, n) else up
        end
      else if ok0 then (s0, k, n)
      else if ok1 then up
      else shortest fuel m e n (k + 1)
  end.

Definition format_digits (s k n : Z) : string :=
  let d := decimal s in
  if (k <=? n) && (n <=? 21) then
    d +:+ zeros (Z.to_nat (n - k))
  else if (0 <? n) && (n <=? 21) then
    substring 0 (Z.to_nat n) d +:+ "." +:+ substring (Z.to_nat n) (Z.to_nat (k - n)) d
  else if (-6 <? n) && (n <=? 0) then
    "0." +:+ zeros (Z.to_nat (- n)) +:+ d
  else
    let ex := (if n - 1 <? 0 then "-" else "+") +:+ decimal (Z.abs (n - 1)) in
    if k =? 1 then d +:+ "e" +:+ ex
    else substring 0 1 d +:+ "." +:+ substring 1 (Z.to_nat (k - 1)) d +:+ "e" +:+ ex.

Definition toString (x : float) : string :=
  match Prim2SF x with
  | S754_nan => "NaN"
  | S754_zero _ => "0"
  | S754_infinity s => if s then "-Infinity" else "Infinity"
  | S754_finite sg m e =>
      let '(s, k, n) := shortest 17 (Zpos m) e (decimal_exponent (Zpos m) e) 1 in
      (if sg then "-" else "") +:+ format_digits s k n
  end.

End JsNumber.

(** ** ECMAScript strings *)

Module JsString.

Local Open Scope Z_scope.

Definition code (c : ascii) : Z := Z.of_N (N_of_ascii c).

(** The strings of this model are strings of the ASCII range: a code
    below 128 stands for the code unit of that value.  What is said of
    [trim], [toLowerCase] and [StringToNumber] below is said of such
    strings; the white space and the letters ECMAScript knows beyond that
    range (U+00A0 and U+FEFF among them) are not modelled, and the
    statements that go through these functions carry [isAscii] as a
    hypothesis. *)
Definition isAscii (s : string) : bool :=
  forallb (fun c => code c <? 128) (list_ascii_of_string s).

(** White space and line terminators of the ASCII range. *)
Definition isWhiteSpace (c : ascii) : bool :=
  ((9 <=? code c) && (code c <=? 13)) || (code c =? 32).

Fixpoint trimStart (s : string) : string :=
  match s with
  | String c s' => if isWhiteSpace c then trimStart s' else s
  | EmptyString => EmptyString
  end.

Fixpoint trimEnd (s : string) : string :=
  match s with
  | String c s' =>
      match trimEnd s' with
      | EmptyString => if isWhiteSpace c then EmptyString else String c EmptyString
      | t => String c t
      end
  | EmptyString => EmptyString
  end.

(** [String.prototype.trim] *)
Definition trim (s : string) : string := trimEnd (trimStart s).

Definition lower (c : ascii) : ascii :=
  if (65 <=? code c) && (code c <=? 90)
  then ascii_of_N (N_of_ascii c + 32) else c.

(** [String.prototype.toLowerCase] *)
Fixpoint toLowerCase (s : string) : string :=
  match s with
  | String c s' => String (lower c) (toLowerCase s')
  | EmptyString => EmptyString
  end.

(** [String.prototype.startsWith] *)
Definition startsWith (s p : string) : bool := String.prefix p s.

(** [Array.prototype.join] on strings. *)
Fixpoint join (sep : string) (l : list string) : string :=
  match l with
  | [] => EmptyString
  | [x] => x
  | x :: l' => x +:+ sep +:+ join sep l'
  end.

(** [String.prototype.replace(/(\r\n|\n|\r)/gm, " ")]: every line break,
    a carriage return followed by a line feed counting as one, becomes a
    space. *)
Fixpoint replaceLineBreaks (s : string) : string :=
  match s with
  | String c s' =>
      if code c =? 13 then
        match s' with
        | String d s'' =>
            if code d =? 10 then String " " (replaceLineBreaks s'')
            else String " " (replaceLineBreaks s')
        | EmptyString => String " " EmptyString
        end
      else if code c =? 10 then String " " (replaceLineBreaks s')
      else String c (replaceLineBreaks s')
  | EmptyString => EmptyString
  end.

(** *** StringToNumber *)

Definition digit (base : Z) (c : ascii) : option Z :=
  let n := code c in
  let d := if (48 <=? n) && (n <=? 57) then n - 48
           else if (97 <=? n) && (n <=? 102) then n - 87
           else if (65 <=? n) && (n <=? 70) then n - 55
           else base in
  if d <? base then Some d else None.

(** The leading digits of [s]: their value on top of [acc], their number
    and the rest of [s]. *)
Fixpoint span_digits (base acc : Z) (n : nat) (s : string) : Z * nat * string :=
  match s with
  | String c s' =>
      match digit base c with
      | Some d => span_digits base (acc * base + d) (S n) s'
      | None => (acc, n, s)
      end
  | EmptyString => (acc, n, s)
  end.

(** A literal made of digits of [base] only, and of at least one. *)
Definition integerLiteral (base : Z) (s : string) : float :=
  match span_digits base 0 O s with
  | (v, S _, EmptyString) => JsNumber.of_Z v
  | _ => nan
  end.

(** An optional exponent part closing the literal: [None] when the rest
    is not one. *)
Definition exponentPart (s : string) : option Z :=
  match s with
  | EmptyString => Some 0
  | String c s' =>
      if (code c =? 101) || (code c =? 69) then
        let '(neg, s'') :=
          match s' with
          | String "-" t => (true, t)
          | String "+" t => (false, t)
          | _ => (false, s')
          end in
        match span_digits 10 0 O s'' with
        | (v, S _, EmptyString) => Some (if neg then - v else v)
        | _ => None
        end
      else None
  end.

Definition unsignedDecimalLiteral (s : string) : float :=
  if String.eqb s "Infinity" then infinity
  else
    let '(ip, ni, r1) := span_digits 10 0 O s in
    let '(m, nf, r2) :=
      match r1 with
      | String "." t => span_digits 10 ip O t
      | _ => (ip, O, r1)
      end in
    match (ni + nf)%nat, exponentPart r2 with
    | S _, Some ex =>
        let e10 := ex - Z.of_nat nf in
        if 0 <=? e10 then JsNumber.of_ratio (m * 10 ^ e10) 1
        else JsNumber.of_ratio m (10 ^ (- e10))
    | _, _ => nan
    end.

(** The number a string denotes: [Number(s)] for a string [s]. *)
Definition StringToNumber (s : string) : float :=
  match trim s with
  | EmptyString => PrimFloat.zero
  | String "-" t => (- unsignedDecimalLiteral t)%float
  | String "+" t => unsignedDecimalLiteral t
  | String "0" (String c t) as lit =>
      if (code c =? 120) || (code c =? 88) then integerLiteral 16 t
      else if (code c =? 111) || (code c =? 79) then integerLiteral 8 t
      else if (code c =? 98) || (code c =? 66) then integerLiteral 2 t
      else unsignedDecimalLiteral lit
  | lit => unsignedDecimalLiteral lit
  end.

End JsString.

(** ** Values

    The raw values that reach the cell functions: primitives, arrays,
    typed arrays, Arrow vectors and plain objects.  An Arrow [Vector]
    belongs to an external library; it is modelled by what the code
    observes of it: the array [toArray()] returns, the elements
    [JSON.stringify] lists (those of its [toJSON], [null] at an empty
    slot, where [toArray()] may hold a number) and the string it
    converts to. *)

Unset Elimination Schemes.

Inductive JsValue : Type :=
| JUndefined
| JNull
| JBool (b : bool)
| JNumber (x : float)
| JString (s : string)
| JBigInt (z : Z)
| JArray (elems : list JsValue)
| JInt32Array (elems : list Z)
| JVector (array : list JsValue) (elems : list JsValue) (repr : string)
| JObject (props : list (string * JsValue)).

Set Elimination Schemes.

(** [notNullOrUndefined] of [src/lib/utils]. *)
Definition notNullOrUndefined (v : JsValue) : bool :=
  match v with JUndefined | JNull => false | _ => true end.

Definition isBoolean (v : JsValue) : bool :=
  match v with JBool _ => true | _ => false end.

Definition isString (v : JsValue) : bool :=
  match v with JString _ => true | _ => false end.

Definition isNumber (v : JsValue) : bool :=
  match v with JNumber _ => true | _ => false end.

(** ToBoolean: the values a condition takes as true. *)
Definition truthy (v : JsValue) : bool :=
  match v with
  | JUndefined | JNull => false
  | JBool b => b
  | JNumber x => negb (is_nan x || is_zero x)
  | JString s => negb (String.eqb s "")
  | JBigInt z => negb (Z.eqb z 0)
  | _ => true
  end.

Definition decimalZ (z : Z) : string :=
  if (z <? 0)%Z then "-" +:+ JsNumber.decimal (- z) else JsNumber.decimal z.

(** [String(v)], also the conversion a template literal applies. *)
Fixpoint ToString (v : JsValue) : string :=
  match v with
  | JUndefined => "undefined"
  | JNull => "null"
  | JBool b => if b then "true" else "false"
  | JNumber x => JsNumber.toString x
  | JString s => s
  | JBigInt z => decimalZ z
  | JArray l =>
      JsString.join ","
        (map (fun e => match e with
                       | JUndefined | JNull => EmptyString
                       | _ => ToString e
                       end) l)
  | JInt32Array l => JsString.join "," (map decimalZ l)
  | JVector _ _ repr => repr
  | JObject _ => "[object Object]"
  end.

(** [Number(v)] *)
Definition ToNumber (v : JsValue) : float :=
  match v with
  | JUndefined => nan
  | JNull => PrimFloat.zero
  | JBool b => if b then PrimFloat.one else PrimFloat.zero
  | JNumber x => x
  | JString s => JsString.StringToNumber s
  | JBigInt z => JsNumber.of_Z z
  | _ => JsString.StringToNumber (ToString v)
  end.

(** Property access [o.key] and the object spread [{...o, key: v}]. *)
Fixpoint lookupProp (key : string) (props : list (string * JsValue)) : JsValue :=
  match props with
  | [] => JUndefined
  | (k, v) :: rest => if String.eqb k key then v else lookupProp key rest
  end.

Fixpoint setProp (key : string) (v : JsValue) (props : list (string * JsValue))
  : list (string * JsValue) :=
  match props with
  | [] => [(key, v)]
  | (k, w) :: rest =>
      if String.eqb k key then (k, v) :: rest else (k, w) :: setProp key v rest
  end.

(** [v?.key] *)
Definition getProp (key : string) (v : JsValue) : JsValue :=
  match v with
  | JObject props => lookupProp key props
  | _ => JUndefined
  end.

(** The own enumerable properties a spread [...v] copies: those of an
    object, the indexed elements of a string or an array, none of another
    primitive.  The own properties of a vector are internal to its
    library and are left out. *)
Fixpoint indexedFrom {A : Type} (f : A -> JsValue) (i : nat) (l : list A)
  : list (string * JsValue) :=
  match l with
  | [] => []
  | a :: l' => (JsNumber.decimal (Z.of_nat i), f a) :: indexedFrom f (S i) l'
  end.

Definition ownProps (v : JsValue) : list (string * JsValue) :=
  match v with
  | JObject props => props
  | JString s => indexedFrom (fun c => JString (String c EmptyString)) 0 (list_ascii_of_string s)
  | JArray l => indexedFrom (fun e => e) 0 l
  | JInt32Array l => indexedFrom (fun z => JNumber (JsNumber.of_Z z)) 0 l
  | _ => []
  end.

(** *** JSON *)

Module JSON.

(** [JSON.stringify] of an array of numbers. *)
Definition stringifyNumbers (l : list float) : string :=
  "[" +:+ JsString.join ","
            (map (fun x => if is_finite x then JsNumber.toString x else "null") l)
      +:+ "]".

(** [JSON.parse(JSON.stringify(v, replacer))] where [replacer] turns a
    bigint into a number: a deep copy in which a number that is not
    finite becomes [null], an undefined array element becomes [null], an
    undefined property is dropped, a typed array becomes an object
    indexed by position and a vector the array of the elements its
    [toJSON] lists. *)
Definition number (x : float) : JsValue :=
  if is_finite x then JNumber (if is_zero x then PrimFloat.zero else x) else JNull.

Fixpoint roundtrip (v : JsValue) : JsValue :=
  let element e := match e with JUndefined => JNull | _ => roundtrip e end in
  match v with
  | JUndefined => JUndefined
  | JNull => JNull
  | JBool b => JBool b
  | JNumber x => number x
  | JString s => JString s
  | JBigInt z => number (JsNumber.of_Z z)
  | JArray l => JArray (map element l)
  | JInt32Array l => JObject (ownProps v)
  | JVector _ l _ => JArray (map element l)
  | JObject props =>
      JObject
        (flat_map (fun p => match p with
                            | (_, JUndefined) => []
                            | (k, e) => [(k, roundtrip e)]
                            end) props)
  end.

End JSON.

Definition isArray (v : JsValue) : bool :=
  match v with JArray _ => true | _ => false end.

(** ** DataFrameCells.tsx *)

(** A call either returns or throws an [Error] with a message. *)
Inductive Result (A : Type) : Type :=
| Ok (a : A)
| Throw (message : string).

Arguments Ok {A} a.
Arguments Throw {A} message.

(** The cell kinds of the grid library, a string enum. *)
Module GridCellKind.

Inductive t : Set :=
| Uri | Text | Image | RowID | Number | Bubble | Boolean | Loading
| Markdown | Drilldown | Protected | Custom.

Definition value (k : t) : string :=
  match k with
  | Uri => "uri"
  | Text => "text"
  | Image => "image"
  | RowID => "row-id"
  | Number => "number"
  | Bubble => "bubble"
  | Boolean => "boolean"
  | Loading => "loading"
  | Markdown => "markdown"
  | Drilldown => "drilldown"
  | Protected => "protected"
  | Custom => "custom"
  end.

End GridCellKind.

(** [enum ColumnType]: a string enum, so a column type is a string at run
    time and [Object.values(ColumnType)] is the list of the nine members. *)
Module ColumnType.

Definition Text : string := "text".
Definition Number : string := "number".
Definition Boolean : string := "boolean".
Definition List : string := "list".
Definition Url : string := "url".
Definition Image : string := "image".
Definition BarChart : string := "bar-chart".
Definition LineChart : string := "line-chart".
Definition ProgressChart : string := "progress-chart".

Definition values : list string :=
  [Text; Number; Boolean; List; Url; Image; BarChart; LineChart; ProgressChart].

End ColumnType.

Abbreviation ColumnType := string (only parsing).

(** [Partial<Theme>], with the two entries this code writes. *)
Record Theme : Type := {
  textDark : option string;
  bgCell : option string;
}.

(** [GridCell]: the union of the grid library's cells, as one record in
    which a property a cell does not have is [None] or [JUndefined]. *)
Record GridCell : Type := {
  kind : GridCellKind.t;
  data : JsValue;
  displayData : JsValue;
  allowOverlay : option bool;
  readonly : option bool;
  style : option string;
  contentAlign : option string;
  allowAdd : option bool;
  copyData : option string;
  themeOverride : option Theme;
  lastUpdated : option float;
}.

(** The spreads [{...cell, p: v}] this code writes. *)
Definition with_data (v : JsValue) (c : GridCell) : GridCell :=
  {| kind := kind c; data := v; displayData := displayData c;
     allowOverlay := allowOverlay c; readonly := readonly c; style := style c;
     contentAlign := contentAlign c; allowAdd := allowAdd c;
     copyData := copyData c; themeOverride := themeOverride c;
     lastUpdated := lastUpdated c |}.

Definition with_displayData (v : JsValue) (c : GridCell) : GridCell :=
  {| kind := kind c; data := data c; displayData := v;
     allowOverlay := allowOverlay c; readonly := readonly c; style := style c;
     contentAlign := contentAlign c; allowAdd := allowAdd c;
     copyData := copyData c; themeOverride := themeOverride c;
     lastUpdated := lastUpdated c |}.

Definition with_copyData (v : string) (c : GridCell) : GridCell :=
  {| kind := kind c; data := data c; displayData := displayData c;
     allowOverlay := allowOverlay c; readonly := readonly c; style := style c;
     contentAlign := contentAlign c; allowAdd := allowAdd c;
     copyData := Some v; themeOverride := themeOverride c;
     lastUpdated := lastUpdated c |}.

Definition with_themeOverride (v : Theme) (c : GridCell) : GridCell :=
  {| kind := kind c; data := data c; displayData := displayData c;
     allowOverlay := allowOverlay c; readonly := readonly c; style := style c;
     contentAlign := contentAlign c; allowAdd := allowAdd c;
     copyData := copyData c; themeOverride := Some v;
     lastUpdated := lastUpdated c |}.

Definition with_lastUpdated (v : float) (c : GridCell) : GridCell :=
  {| kind := kind c; data := data c; displayData := displayData c;
     allowOverlay := allowOverlay c; readonly := readonly c; style := style c;
     contentAlign := contentAlign c; allowAdd := allowAdd c;
     copyData := copyData c; themeOverride := themeOverride c;
     lastUpdated := Some v |}.

(** The typed-table reader (Quiver) is external to these files.  Of a
    declared column type the code reads its name only:
    [typeName] is the result of [Quiver.getTypeName]. *)
Record QuiverType : Type := {
  typeName : option string;
}.

(** The style sheet of a styled table, a string.  Regular expressions are
    run by the host: [css_exec pattern] is what
    [new RegExp(pattern, "gm").exec(css_text)] does.  It returns the
    match array, [None] without a match, or throws the [SyntaxError] of
    the constructor when the pattern is no regular expression, as happens
    for a cell id with an unbalanced parenthesis: the id goes into the
    pattern as it is. *)
Record StyleSheet : Type := {
  css_text : string;
  css_exec : string -> Result (option (list string));
}.

(** [DataFrameCell], a cell as the reader returns it; [formatted] is the
    result of [Quiver.format(content, contentType)]. *)
Record DataFrameCell : Type := {
  content : JsValue;
  contentType : option QuiverType;
  displayContent : option string;
  cssId : option string;
  formatted : string;
}.

(** Maps the data type from column config to a valid column type. *)
Definition getColumnTypeFromConfig (typeName : option string) : ColumnType :=
  match typeName with
  | None => ColumnType.Text
  | Some typeName =>
      if String.eqb typeName "" then ColumnType.Text
      else
        let typeName := JsString.trim (JsString.toLowerCase typeName) in
        if existsb (fun type => String.eqb type typeName) ColumnType.values
        then typeName
        else ColumnType.Text
  end.

(** [Array.prototype.includes] on strings. *)
Definition includes (l : list string) (s : string) : bool :=
  existsb (String.eqb s) l.

(** Maps the data type from Quiver to a valid column type. *)
Definition getColumnTypeFromQuiver (quiverType : QuiverType) : ColumnType :=
  match typeName quiverType with
  | None => ColumnType.Text
  | Some typeName =>
      if String.eqb typeName "" then ColumnType.Text
      else
        let typeName := JsString.trim (JsString.toLowerCase typeName) in
        if includes ["unicode"] typeName then ColumnType.Text
        else if includes ["date"; "datetime"; "datetimetz"] typeName then ColumnType.Text
        else if String.eqb typeName "bool" then ColumnType.Boolean
        else if includes ["int64"; "float64"; "range"] typeName then ColumnType.Number
        else if JsString.startsWith typeName "list" then ColumnType.List
        else ColumnType.Text
  end.

(** Returns either the formatted content or display value for a Quiver
    cell. *)
Definition getDisplayContent (quiverCell : DataFrameCell) : string :=
  let displayContent :=
    match displayContent quiverCell with
    | Some d => if String.eqb d "" then formatted quiverCell else d
    | None => formatted quiverCell
    end in
  JsString.replaceLineBreaks displayContent.

(** Extracts a CSS property value from a given CSS style string by using
    a regex. *)
Definition extractCssProperty (htmlElementId property : string) (cssStyle : StyleSheet)
  : Result (option string) :=
  let regex :=
    htmlElementId +:+ "[^{]*{(?:[^}]*[\s;]{1})?" +:+ property
                  +:+ ":\s*([^;\s]+)[;]?.*}" in
  match css_exec cssStyle regex with
  | Ok (Some groups) => Ok (groups !! 1%nat)
  | Ok None => Ok None
  | Throw error => Throw error
  end.

(** Returns a template object representing an empty cell for a given data
    type; throws on a type that is none of the enum's members. *)
Definition getCellTemplate (type : ColumnType) (readonly isIndex : bool)
  : Result GridCell :=
  let style := if isIndex then "faded" else "normal" in
  if String.eqb type ColumnType.Text then
    Ok {| kind := GridCellKind.Text; data := JString ""; displayData := JString "";
          allowOverlay := Some true; readonly := Some readonly; style := Some style;
          contentAlign := None; allowAdd := None; copyData := None;
          themeOverride := None; lastUpdated := None |}
  else if String.eqb type ColumnType.Boolean then
    Ok {| kind := GridCellKind.Boolean; data := JBool false; displayData := JUndefined;
          allowOverlay := Some false; readonly := Some readonly; style := Some style;
          contentAlign := None; allowAdd := None; copyData := None;
          themeOverride := None; lastUpdated := None |}
  else if String.eqb type ColumnType.Number then
    Ok {| kind := GridCellKind.Number; data := JUndefined; displayData := JString "";
          allowOverlay := Some true; readonly := Some readonly; style := Some style;
          contentAlign := Some "right"; allowAdd := None; copyData := None;
          themeOverride := None; lastUpdated := None |}
  else if String.eqb type ColumnType.List then
    Ok {| kind := GridCellKind.Bubble; data := JArray []; displayData := JUndefined;
          allowOverlay := Some true; readonly := None; style := Some style;
          contentAlign := None; allowAdd := None; copyData := None;
          themeOverride := None; lastUpdated := None |}
  else if String.eqb type ColumnType.Url then
    Ok {| kind := GridCellKind.Uri; data := JString ""; displayData := JUndefined;
          allowOverlay := Some true; readonly := Some readonly; style := Some style;
          contentAlign := None; allowAdd := None; copyData := None;
          themeOverride := None; lastUpdated := None |}
  else if String.eqb type ColumnType.Image then
    Ok {| kind := GridCellKind.Image; data := JArray []; displayData := JArray [];
          allowOverlay := Some true; readonly := None; style := Some style;
          contentAlign := None; allowAdd := Some (negb readonly); copyData := None;
          themeOverride := None; lastUpdated := None |}
  else if String.eqb type ColumnType.LineChart then
    Ok {| kind := GridCellKind.Custom;
          data := JObject [("kind", JString "sparkline-cell"); ("values", JArray []);
                           ("displayValues", JArray []);
                           ("graphKind", JString "line");
                           ("yAxis", JArray [JNumber 0; JNumber 1])];
          displayData := JUndefined;
          allowOverlay := Some false; readonly := None; style := None;
          contentAlign := None; allowAdd := None; copyData := Some "[]";
          themeOverride := None; lastUpdated := None |}
  else if String.eqb type ColumnType.BarChart then
    Ok {| kind := GridCellKind.Custom;
          data := JObject [("kind", JString "sparkline-cell"); ("values", JArray []);
                           ("graphKind", JString "bar");
                           ("yAxis", JArray [JNumber 0; JNumber 1])];
          displayData := JUndefined;
          allowOverlay := Some false; readonly := None; style := None;
          contentAlign := None; allowAdd := None; copyData := Some "[]";
          themeOverride := None; lastUpdated := None |}
  else if String.eqb type ColumnType.ProgressChart then
    Ok {| kind := GridCellKind.Custom;
          data := JObject [("kind", JString "range-cell"); ("min", JNumber 0);
                           ("max", JNumber 1); ("value", JNumber 0);
                           ("step", JNumber 0x1.999999999999ap-4 (* 0.1 *));
                           ("label", JString "0%");
                           ("measureLabel", JString "100%")];
          displayData := JUndefined;
          allowOverlay := Some false; readonly := None; style := None;
          contentAlign := None; allowAdd := None; copyData := Some "";
          themeOverride := None; lastUpdated := None |}
  else Throw ("Unsupported cell type: " +:+ type).

(** Returns the sort mode based on the given column type. *)
Definition getColumnSortMode (columnType : ColumnType) : string :=
  if String.eqb columnType ColumnType.Number
     || String.eqb columnType ColumnType.ProgressChart
  then "smart" else "default".

Definition getEmptyCell : GridCell :=
  {| kind := GridCellKind.Loading; data := JUndefined; displayData := JUndefined;
     allowOverlay := Some false; readonly := None; style := None;
     contentAlign := None; allowAdd := None; copyData := None;
     themeOverride := None; lastUpdated := None |}.

(** The template a call of [getCellTemplate] returned.  The two places
    that spread a template ask for the Text one, which does not throw;
    the other branch is never taken. *)
Definition returned (r : Result GridCell) : GridCell :=
  match r with Ok cell => cell | Throw _ => getEmptyCell end.

Definition getErrorCell (errorMsg errorDetails : string) : GridCell :=
  with_themeOverride {| textDark := Some "#ff4b4b"; bgCell := None |}
    (with_displayData (JString errorMsg)
       (with_data
          (JString (errorMsg +:+ (if String.eqb errorDetails "" then ""
                                  else String "010" errorDetails)))
          (returned (getCellTemplate ColumnType.Text true false)))).

Definition applyPandasStylerCss (cell : GridCell) (cssId : string) (cssStyles : StyleSheet)
  : Result GridCell :=
  let nonEmpty (o : option string) :=
    match o with
    | Some v => if String.eqb v "" then None else Some v
    | None => None
    end in
  (* Extract and apply the font color *)
  match extractCssProperty cssId "color" cssStyles with
  | Throw error => Throw error
  | Ok fontColor =>
      (* Extract and apply the background color *)
      match extractCssProperty cssId "background-color" cssStyles with
      | Throw error => Throw error
      | Ok backgroundColor =>
          (* [themeOverride] is an object, so the guard on it always passes *)
          Ok (with_themeOverride
                {| textDark := nonEmpty fontColor; bgCell := nonEmpty backgroundColor |}
                cell)
      end
  end.

Definition fillListCell (cell : GridCell) (data : JsValue) : GridCell :=
  let cellData :=
    if notNullOrUndefined data then
      let cellData := JSON.roundtrip data in
      if isArray cellData then cellData
      else JArray [JString (ToString cellData)]   (* Transform into list *)
    else JArray [] in
  with_data cellData cell.

Definition fillUrlCell (cell : GridCell) (data : JsValue) : GridCell :=
  with_data (if notNullOrUndefined data then JString (ToString data) else JString "") cell.

Definition fillTextCell (cell : GridCell) (data : JsValue) (displayData : string)
  : GridCell :=
  with_displayData (JString displayData)
    (with_data
       (if isString data || negb (notNullOrUndefined data)
        then data else JString displayData)
       cell).

Definition fillBooleanCell (cell : GridCell) (data : JsValue) : GridCell :=
  if notNullOrUndefined data && negb (isBoolean data) then
    getErrorCell ("Incompatible boolean value: " +:+ ToString data) ""
  else with_data data cell.

Definition fillNumberCell (cell : GridCell) (data : JsValue) (displayData : string)
  : GridCell :=
  if notNullOrUndefined data then
    let cellData :=
      match data with
      | JInt32Array elems =>
          (* int values need to be extracted this way *)
          match elems with
          | z :: _ => JsNumber.of_Z z
          | [] => nan
          end
      | _ => ToNumber data
      end in
    if JsNumber.isNaN cellData then
      getErrorCell ("Incompatible number value: " +:+ ToString data) ""
    else with_displayData (JString displayData) (with_data (JNumber cellData) cell)
  else with_displayData (JString displayData) (with_data JUndefined cell).

Definition fillImageCell (cell : GridCell) (data : JsValue) : GridCell :=
  let imageUrls :=
    if notNullOrUndefined data then JArray [JString (ToString data)] else JArray [] in
  with_displayData imageUrls (with_data imageUrls cell).

(** [(cell as CustomCell)?.data] *)
Definition customData (cell : GridCell) : JsValue := data cell.

Definition numbers (l : list float) : JsValue := JArray (map JNumber l).

(** One call of the callback [fillChartCell] hands to [forEach], on the
    running maximum and minimum and the converted values so far.  The
    [return getErrorCell(...)] in it ends this call only, and [forEach]
    drops what a callback returns: a value that is not a number is
    skipped. *)
Definition chartStep (acc : float * float * list float) (value : JsValue)
  : float * float * list float :=
  let '(maxValue, minValue, convertedChartData) := acc in
  let convertedValue := ToNumber value in
  let maxValue := if JsNumber.gt convertedValue maxValue then convertedValue else maxValue in
  let minValue := if JsNumber.lt convertedValue minValue then convertedValue else minValue in
  if JsNumber.isNaN convertedValue then (maxValue, minValue, convertedChartData)
  else (maxValue, minValue, convertedChartData ++ [convertedValue]).

Definition fillChartCell (cell : GridCell) (data : JsValue) : GridCell :=
  if negb (notNullOrUndefined data) then getEmptyCell
  else
    let chart (chartData : list JsValue) : GridCell :=
      let '(convertedChartData, normalizedChartData) :=
        match chartData with
        | first :: _ =>
            let '(maxValue, minValue, convertedChartData) :=
              fold_left chartStep chartData (ToNumber first, ToNumber first, []) in
            if JsNumber.gt maxValue 1 || JsNumber.lt minValue 0 then
              (* Normalize values *)
              (convertedChartData,
               map (fun v => ((v - minValue) / (maxValue - minValue))%float)
                 convertedChartData)
            else
              (* Values are already in range 0-1 *)
              (convertedChartData, convertedChartData)
        | [] => ([], [])
        end in
      with_data
        (JObject
           (setProp "displayValues" (numbers convertedChartData)
              (setProp "values" (numbers normalizedChartData)
                 (ownProps (customData cell)))))
        (with_copyData (JSON.stringifyNumbers convertedChartData) cell) in
    match data with
    | JArray chartData => chart chartData
    | JVector chartData _ _ => chart chartData
    | _ =>
        getErrorCell ("Incompatible chart value: " +:+ ToString data)
          "The provided value is not an array."
    end.

Definition fillProgressCell (cell : GridCell) (data : JsValue) : GridCell :=
  if negb (notNullOrUndefined data) then getEmptyCell
  else
    let cellData := ToNumber data in
    if JsNumber.isNaN cellData || JsNumber.lt cellData 0 || JsNumber.gt cellData 1 then
      getErrorCell ("Incompatible progress value: " +:+ ToString data)
        "The value has to be between 0 and 1."
    else
      with_data
        (JObject
           (setProp "label"
              (JString (JsNumber.toString (JsNumber.Math_round (cellData * 100)) +:+ "%"))
              (setProp "value" (JNumber cellData) (ownProps (customData cell)))))
        (with_copyData (ToString data) cell).

(** The kind a cell is filled or updated by: the kind of the cell or, for
    a custom cell, the kind its data carries. *)
Definition cellKindOf (cell : GridCell) : JsValue :=
  match kind cell with
  | GridCellKind.Custom =>
      if notNullOrUndefined (data cell) then getProp "kind" (data cell) else JUndefined
  | k => JString (GridCellKind.value k)
  end.

(** [case k:] of a [switch] on a value: strict equality with a string. *)
Definition isCase (v : JsValue) (k : string) : bool :=
  match v with JString s => String.eqb s k | _ => false end.

(** Returns a glide-data-grid compatible cell object based on the cell
    data from the quiver object.  The fill functions return in every
    case; what [fillCellTemplate] throws is what [applyPandasStylerCss]
    throws. *)
Definition fillCellTemplate (cellTemplate : GridCell) (quiverCell : DataFrameCell)
    (cssStyles : option StyleSheet) : Result GridCell :=
  let cellKind := cellKindOf cellTemplate in
  if negb (truthy cellKind) then Ok (getErrorCell "Unable to determine cell type." "")
  else
    let styled :=
      match cssStyles, cssId quiverCell with
      | Some styles, Some id =>
          if negb (String.eqb (css_text styles) "") && negb (String.eqb id "")
          then applyPandasStylerCss cellTemplate id styles
          else Ok cellTemplate
      | _, _ => Ok cellTemplate
      end in
    match styled with
    | Throw error => Throw error
    | Ok cellTemplate =>
        Ok (if isCase cellKind (GridCellKind.value GridCellKind.Text) then
              fillTextCell cellTemplate (content quiverCell) (getDisplayContent quiverCell)
            else if isCase cellKind (GridCellKind.value GridCellKind.Number) then
              fillNumberCell cellTemplate (content quiverCell)
                (getDisplayContent quiverCell)
            else if isCase cellKind (GridCellKind.value GridCellKind.Boolean) then
              fillBooleanCell cellTemplate (content quiverCell)
            else if isCase cellKind (GridCellKind.value GridCellKind.Bubble) then
              fillListCell cellTemplate (content quiverCell)
            else if isCase cellKind (GridCellKind.value GridCellKind.Uri) then
              fillUrlCell cellTemplate (content quiverCell)
            else if isCase cellKind (GridCellKind.value GridCellKind.Image) then
              fillImageCell cellTemplate (content quiverCell)
            else if isCase cellKind "sparkline-cell" then
              fillChartCell cellTemplate (content quiverCell)
            else if isCase cellKind "range-cell" then
              fillProgressCell cellTemplate (content quiverCell)
            else getErrorCell ("Unsupported cell kind: " +:+ ToString cellKind) "")
    end.

(** [updateCell]; [now] is the reading of [performance.now()]. *)
Definition updateCell (now : float) (cell : GridCell) (newValue : JsValue)
    (newDisplayValue : option string) : GridCell :=
  let cellKind := cellKindOf cell in
  if negb (truthy cellKind) then getErrorCell "Unable to determine cell type." ""
  else
    let display :=
      match newDisplayValue with
      | Some d => d
      | None => ToString newValue
      end in
    if isCase cellKind (GridCellKind.value GridCellKind.Text) then
      with_lastUpdated now (fillTextCell cell newValue display)
    else if isCase cellKind (GridCellKind.value GridCellKind.Number) then
      with_lastUpdated now (fillNumberCell cell newValue display)
    else if isCase cellKind (GridCellKind.value GridCellKind.Boolean) then
      with_lastUpdated now (fillBooleanCell cell newValue)
    else if isCase cellKind (GridCellKind.value GridCellKind.Uri) then
      with_lastUpdated now (fillUrlCell cell newValue)
    else getErrorCell ("Cell cannot be edited: " +:+ ToString cellKind) "".

(** ** DataFrame.tsx *)

Definition ROW_HEIGHT : float := 35.
Definition MIN_COLUMN_WIDTH : float := 35.
Definition MAX_COLUMN_WIDTH : float := 600.
Definition MIN_TABLE_WIDTH : float := MIN_COLUMN_WIDTH + 3.
Definition MIN_TABLE_HEIGHT : float := 2 * ROW_HEIGHT + 3.

(** The GridColumn type extended with the type of the column. *)
Record GridColumnWithCellTemplate : Type := {
  id : option string;
  title : string;
  hasMenu : bool;
  width : option float;
  columnType : ColumnType;
  columnIndex : nat;
  quiverType : option QuiverType;
  isEditable : bool;
  isHidden : bool;
  isIndex : bool;
}.

Record ColumnConfigProps : Type := {
  cfg_width : option float;
  cfg_title : option string;
  cfg_type : option string;
  cfg_hide : option bool;
  cfg_editable : option bool;
}.

(** [applyColumnConfig]: the configuration is a [Map] whose keys are
    column indices or titles; [None] is the [null] a hidden column
    gives. *)
Definition applyColumnConfig (column : GridColumnWithCellTemplate)
    (columnsConfig : option (gmap (nat + string) ColumnConfigProps))
  : option GridColumnWithCellTemplate :=
  match columnsConfig with
  | None => Some column   (* No column config configured *)
  | Some columnsConfig =>
      let columnConfig :=
        match columnsConfig !! (inl (columnIndex column) : nat + string) with
        | Some c => Some c
        | None => columnsConfig !! (inr (title column) : nat + string)
        end in
      match columnConfig with
      | None => Some column   (* No column config found for this column *)
      | Some columnConfig =>
          if bool_decide (cfg_hide columnConfig = Some true) then None
          else
            Some
              {| id := id column;
                 (* Update title *)
                 title := match cfg_title columnConfig with
                          | Some t => t
                          | None => title column
                          end;
                 hasMenu := hasMenu column;
                 (* Update width *)
                 width := match cfg_width columnConfig with
                          | Some w =>
                              Some (JsNumber.Math_max
                                      (JsNumber.Math_min w MIN_COLUMN_WIDTH)
                                      MAX_COLUMN_WIDTH)
                          | None => width column
                          end;
                 (* Update data type *)
                 columnType := match cfg_type columnConfig with
                               | Some t => getColumnTypeFromConfig (Some t)
                               | None => columnType column
                               end;
                 columnIndex := columnIndex column;
                 quiverType := quiverType column;
                 (* Update editable state *)
                 isEditable := match cfg_editable columnConfig with
                               | Some e => e
                               | None => isEditable column
                               end;
                 isHidden := isHidden column;
                 isIndex := isIndex column |}
      end
  end.

(** The source table, a [Quiver] of the external reader, by the accessors
    this file calls; [getCell] throws outside the table. *)
Record Quiver : Type := {
  isEmpty : bool;
  dimensions_rows : Z;
  getCell : nat -> nat -> Result DataFrameCell;
  cssStyles : option StyleSheet;
}.

(** [class EditingCache]: column -> row -> value. *)
Module EditingCache.

Abbreviation t := (gmap nat (gmap nat GridCell)).

Definition empty : t := ∅.

Definition get (cachedContent : t) (col row : nat) : option GridCell :=
  match cachedContent !! col with
  | None => None
  | Some colCache => colCache !! row
  end.

Definition set (cachedContent : t) (col row : nat) (value : GridCell) : t :=
  let cachedContent :=
    match cachedContent !! col with
    | None => <[col := ∅]> cachedContent
    | Some _ => cachedContent
    end in
  match cachedContent !! col with
  | Some rowCache => <[col := <[row := value]> rowCache]> cachedContent
  | None => cachedContent
  end.

End EditingCache.

(** What the data loader reads and writes: the source table it was
    given, the editing cache it keeps in a ref, the errors it logged and
    the clock of the page. *)
Record State : Type := {
  source : Quiver;
  editingCache : EditingCache.t;
  logged : list string;
  clock : float;
}.

(** A computation of the loader: it runs on a state and returns or
    throws, leaving a state. *)
Definition M (A : Type) : Type := State -> Result A * State.

Definition ret {A : Type} (a : A) : M A := fun s => (Ok a, s).

Definition bind {A B : Type} (m : M A) (f : A -> M B) : M B :=
  fun s =>
    match m s with
    | (Ok a, s') => f a s'
    | (Throw e, s') => (Throw e, s')
    end.

Notation "x <- m ;; k" := (bind m (fun x => k))
  (at level 100, m at next level, right associativity).

(** A call that may throw. *)
Definition call {A : Type} (r : Result A) : M A := fun s => (r, s).

(** [try { body } catch (error) { handler }] *)
Definition tryCatch {A : Type} (body : M A) (handler : string -> M A) : M A :=
  fun s =>
    match body s with
    | (Ok a, s') => (Ok a, s')
    | (Throw e, s') => handler e s'
    end.

Definition getData : M Quiver := fun s => (Ok (source s), s).

Definition cacheGet (col row : nat) : M (option GridCell) :=
  fun s => (Ok (EditingCache.get (editingCache s) col row), s).

Definition cacheSet (col row : nat) (value : GridCell) : M unit :=
  fun s =>
    (Ok tt,
     {| source := source s;
        editingCache := EditingCache.set (editingCache s) col row value;
        logged := logged s;
        clock := clock s |}).

Definition logError (error : string) : M unit :=
  fun s =>
    (Ok tt,
     {| source := source s; editingCache := editingCache s;
        logged := logged s ++ [error]; clock := clock s |}).

Definition performance_now : M float := fun s => (Ok (clock s), s).

(** Number of rows of the table minus 1 for the header row. *)
Definition numRows (data : Quiver) : Z :=
  if isEmpty data then 1%Z else (dimensions_rows data - 1)%Z.

Section DataLoader.

(** The columns of this render pass. *)
Variable columns : list GridColumnWithCellTemplate.

(** From the grid library: which cells it lets the user edit, and the row
    of the table a displayed row is under the current sorting. *)
Variable isEditableGridCell : GridCell -> bool.
Variable getOriginalIndex : nat -> nat.

Definition getCellContent (cell : nat * nat) : M GridCell :=
  let '(col, row) := cell in
  data <- getData ;;
  if isEmpty data then
    ret (with_displayData (JString "empty")
           (returned (getCellTemplate ColumnType.Text true true)))
  else if (Z.of_nat col >? Z.of_nat (length columns) - 1)%Z then
    (* This should never happen *)
    call (getCellTemplate ColumnType.Text true false)
  else
    (* Try to load cell from cache *)
    cached <- cacheGet col row ;;
    match cached with
    | Some cell => ret cell
    | None =>
        match columns !! col with
        | None => call (Throw "TypeError: column is undefined")
        | Some column =>
            cellTemplate <- call (getCellTemplate (columnType column)
                                    (negb (isEditable column)) (isIndex column)) ;;
            if (Z.of_nat row >? numRows data - 1)%Z then
              (* This should never happen *)
              ret cellTemplate
            else
              tryCatch
                ((* Quiver has the header in first row *)
                 quiverCell <- call (getCell data (row + 1) (columnIndex column)) ;;
                 call (fillCellTemplate cellTemplate quiverCell (cssStyles data)))
                (fun error =>
                   (* This should not happen in read-only table. *)
                   _ <- logError error ;;
                   ret cellTemplate)
        end
    end.

(** [useColumnSort] shows row [row] of the grid from the row
    [getOriginalIndex row] of the table. *)
Definition getCellContentSorted (cell : nat * nat) : M GridCell :=
  let '(col, row) := cell in
  getCellContent (col, getOriginalIndex row).

Definition onCellEdited (cell : nat * nat) (newVal : GridCell) : M unit :=
  let '(col, row) := cell in
  currentCell <- getCellContentSorted (col, row) ;;
  if negb (isEditableGridCell newVal) || negb (isEditableGridCell currentCell) then
    ret tt
  else if isString (data newVal) || isNumber (data newVal) || isBoolean (data newVal) then
    now <- performance_now ;;
    cacheSet col (getOriginalIndex row) (updateCell now currentCell (data newVal) None)
  else ret tt.

End DataLoader.

(** ** DataFrame.tsx: columns, sorting, sizes *)

(** What [getColumns] reads of the table besides [isEmpty]: the types of
    the index columns ([data.types.index]) and, for every data column,
    its title ([data.columns[0][i]]) and its type ([data.types.data[i]]);
    the reader gives every data column both. *)
Record Table : Type := {
  quiver : Quiver;
  indexTypes : list QuiverType;
  dataColumns : list (string * QuiverType);
}.

(** The first loop of [getColumns], from index [i] on. *)
Fixpoint indexLoop (columnsConfig : gmap (nat + string) ColumnConfigProps) (i : nat)
    (types : list QuiverType) : list GridColumnWithCellTemplate :=
  match types with
  | [] => []
  | quiverType :: rest =>
      let columnType := getColumnTypeFromQuiver quiverType in
      let column :=
        {| id := Some ("index-" +:+ JsNumber.decimal (Z.of_nat i));
           title := "";   (* Indices have empty titles as default. *)
           hasMenu := false; width := None;
           columnType := columnType; columnIndex := i;
           quiverType := Some quiverType;
           isEditable := false; isHidden := false; isIndex := true |} in
      (* If column is hidden, the return value is null. *)
      match applyColumnConfig column (Some columnsConfig) with
      | Some updatedColumn => updatedColumn :: indexLoop columnsConfig (S i) rest
      | None => indexLoop columnsConfig (S i) rest
      end
  end.

(** The second loop of [getColumns], from index [i] on. *)
Fixpoint columnLoop (columnsConfig : gmap (nat + string) ColumnConfigProps)
    (numIndices i : nat) (columns : list (string * QuiverType))
  : list GridColumnWithCellTemplate :=
  match columns with
  | [] => []
  | (columnTitle, quiverType) :: rest =>
      let columnType := getColumnTypeFromQuiver quiverType in
      let column :=
        {| id := Some ("column-" +:+ columnTitle +:+ "-" +:+ JsNumber.decimal (Z.of_nat i));
           title := columnTitle;
           hasMenu := false; width := None;
           columnType := columnType; columnIndex := i + numIndices;
           quiverType := Some quiverType;
           isEditable := false; isHidden := false; isIndex := false |} in
      (* If column is hidden, the return value is null. *)
      match applyColumnConfig column (Some columnsConfig) with
      | Some updatedColumn =>
          updatedColumn :: columnLoop columnsConfig numIndices (S i) rest
      | None => columnLoop columnsConfig numIndices (S i) rest
      end
  end.

(** Returns a list of glide-data-grid compatible columns based on a
    Quiver instance. *)
Definition getColumns (data : Table)
    (columnsConfig : gmap (nat + string) ColumnConfigProps)
  : list GridColumnWithCellTemplate :=
  if isEmpty (quiver data) then
    (* Tables that don't have any columns cause an exception in
       glide-data-grid.  As a workaround, we are adding an empty index
       column in this case. *)
    [ {| id := Some "empty-index"; title := ""; hasMenu := false; width := None;
         columnType := ColumnType.Text; columnIndex := 0; quiverType := None;
         isEditable := false; isHidden := false; isIndex := true |} ]
  else
    let numIndices := length (indexTypes data) in
    indexLoop columnsConfig 0 (indexTypes data)
      ++ columnLoop columnsConfig numIndices 0 (dataColumns data).

(** [{...column, width}] and [{...column, title}] *)
Definition with_width (w : float) (column : GridColumnWithCellTemplate)
  : GridColumnWithCellTemplate :=
  {| id := id column; title := title column; hasMenu := hasMenu column;
     width := Some w; columnType := columnType column;
     columnIndex := columnIndex column; quiverType := quiverType column;
     isEditable := isEditable column; isHidden := isHidden column;
     isIndex := isIndex column |}.

Definition with_title (t : string) (column : GridColumnWithCellTemplate)
  : GridColumnWithCellTemplate :=
  {| id := id column; title := t; hasMenu := hasMenu column;
     width := width column; columnType := columnType column;
     columnIndex := columnIndex column; quiverType := quiverType column;
     isEditable := isEditable column; isHidden := isHidden column;
     isIndex := isIndex column |}.

(** "Apply column widths from state": the [map] over the columns in
    [useDataLoader].  The widths the user set are a piece of state of
    the loader ([columnSizes], a [Map] from column id to width). *)
Definition applyColumnSizes (columnSizes : gmap string float)
    (columns : list GridColumnWithCellTemplate) : list GridColumnWithCellTemplate :=
  map (fun column =>
         match id column with
         | Some i =>
             if String.eqb i "" then column
             else match columnSizes !! i with
                  | Some w => with_width w column
                  | None => column
                  end
         | None => column
         end) columns.

(** [onColumnResize]: the state [setColumnSizes] is called with. *)
Definition onColumnResize (columnSizes : gmap string float)
    (column : GridColumnWithCellTemplate) (newSize : float) : gmap string float :=
  match id column with
  | Some i => if String.eqb i "" then columnSizes else <[i := newSize]> columnSizes
  | None => columnSizes
  end.

(** Configuration type for column sorting hook. *)
Record ColumnSortConfig : Type := {
  sort_column : GridColumnWithCellTemplate;
  sort_mode : option string;
  sort_direction : option string;
}.

(** Updates the column headers based on the sorting configuration. *)
Definition updateSortingHeader (columns : list GridColumnWithCellTemplate)
    (sort : option ColumnSortConfig) : list GridColumnWithCellTemplate :=
  match sort with
  | None => columns
  | Some sort =>
      map (fun column =>
             if bool_decide (id column = id (sort_column sort)) then
               with_title
                 (if bool_decide (sort_direction sort = Some "asc")
                  then "↑ " +:+ title column
                  else "↓ " +:+ title column)
                 column
             else column) columns
  end.

(** [onHeaderClick]: the sorting [setSort] is called with, [None] for
    [undefined]; reading the clicked column throws when there is none at
    [index]. *)
Definition onHeaderClick (sort : option ColumnSortConfig)
    (columns : list GridColumnWithCellTemplate) (index : nat)
  : Result (option ColumnSortConfig) :=
  match columns !! index with
  | None => Throw "TypeError: clickedColumn is undefined"
  | Some clickedColumn =>
      let sorted (sortDirection : string) :=
        Ok (Some {| sort_column := clickedColumn;
                    sort_direction := Some sortDirection;
                    sort_mode := Some (getColumnSortMode (columnType clickedColumn)) |}) in
      match sort with
      | Some sort =>
          if bool_decide (id (sort_column sort) = id clickedColumn) then
            (* The clicked column is already sorted *)
            if bool_decide (sort_direction sort = Some "asc") then
              (* Sort column descending *)
              sorted "desc"
            else
              (* Remove sorting of column *)
              Ok None
          else sorted "asc"
      | None => sorted "asc"
      end
  end.

(** The heights of the table container in [DataFrame]: the height and
    the maximal height, from the number of rows and the height the user
    configured, if any ([propHeight], which counts when it is truthy).
    "Automatic table height calculation: numRows +1 because of header,
    and +3 pixels for borders". *)
Definition autoHeight (numRows : Z) : float :=
  (JsNumber.of_Z numRows + 1) * ROW_HEIGHT + 3.

Definition tableHeights (numRows : Z) (propHeight : option float) : float * float :=
  let maxHeight := JsNumber.Math_max (autoHeight numRows) MIN_TABLE_HEIGHT in
  let height := JsNumber.Math_min maxHeight 400 in
  match propHeight with
  | Some h =>
      if truthy (JNumber h) then
        (* User has explicitly configured a height *)
        (JsNumber.Math_max h MIN_TABLE_HEIGHT, JsNumber.Math_max h maxHeight)
      else (height, maxHeight)
  | None => (height, maxHeight)
  end.

(** ** Objects, their identity and their mutation

    The cell functions build objects and arrays, write into some of the
    objects they built, and hand references around.  What they do to the
    objects they are given cannot be told from the values above, which
    have no identity.  This second embedding of DataFrameCells.tsx and of
    the two callbacks of the loader keeps the objects in a store: a value
    is a primitive or a reference to an object of the store, an object
    literal allocates, an assignment to a property and [push] write at a
    reference. *)

Module Heap.

(** The locations of the store. *)
Abbreviation loc := nat.

Inductive Val : Type :=
| VUndefined
| VNull
| VBool (b : bool)
| VNumber (x : float)
| VString (s : string)
| VBigInt (z : Z)
| VRef (l : loc).

(** The objects of the store: plain objects, arrays, typed arrays and
    Arrow vectors.  Of a vector the code uses [toArray()], modelled as
    the reference to the array the vector keeps its values in (the
    library hands out a view of its buffer where it can), the elements
    its [toJSON] lists and the string it converts to. *)
Inductive Obj : Type :=
| OObject (props : list (string * Val))
| OArray (elems : list Val)
| OInt32Array (elems : list Z)
| OVector (array : loc) (elems : list Val) (repr : string).

(** Property access and the object spread on the properties of an
    object. *)
Fixpoint lookupProp (key : string) (props : list (string * Val)) : Val :=
  match props with
  | [] => VUndefined
  | (k, v) :: rest => if String.eqb k key then v else lookupProp key rest
  end.

Fixpoint setProp (key : string) (v : Val) (props : list (string * Val))
  : list (string * Val) :=
  match props with
  | [] => [(key, v)]
  | (k, w) :: rest =>
      if String.eqb k key then (k, v) :: rest else (k, w) :: setProp key v rest
  end.

(** The value a reference stands for, read off the store down to a
    depth.  The values of a table are trees; a reference that leads
    nowhere, and one below the depth, read as an object without
    properties. *)
Fixpoint valueFrom (fuel : nat) (store : list Obj) (v : Val) {struct fuel} : JsValue :=
  match v with
  | VUndefined => JUndefined
  | VNull => JNull
  | VBool b => JBool b
  | VNumber x => JNumber x
  | VString s => JString s
  | VBigInt z => JBigInt z
  | VRef l =>
      match fuel with
      | O => JObject []
      | S fuel =>
          match store !! l with
          | Some (OObject props) =>
              JObject (map (fun p => (fst p, valueFrom fuel store (snd p))) props)
          | Some (OArray elems) => JArray (map (valueFrom fuel store) elems)
          | Some (OInt32Array elems) => JInt32Array elems
          | Some (OVector array elems repr) =>
              JVector
                (match store !! array with
                 | Some (OArray a) => map (valueFrom fuel store) a
                 | Some (OInt32Array a) => map (fun z => JNumber (JsNumber.of_Z z)) a
                 | _ => []
                 end)
                (map (valueFrom fuel store) elems) repr
          | None => JObject []
          end
      end
  end.

Definition valueAt (store : list Obj) (v : Val) : JsValue :=
  valueFrom (length store) store v.

(** The own enumerable properties a spread copies, by reference. *)
Fixpoint indexedFrom {A : Type} (f : A -> Val) (i : nat) (l : list A)
  : list (string * Val) :=
  match l with
  | [] => []
  | a :: l' => (JsNumber.decimal (Z.of_nat i), f a) :: indexedFrom f (S i) l'
  end.

Definition ownPropsAt (store : list Obj) (v : Val) : list (string * Val) :=
  match v with
  | VString s =>
      indexedFrom (fun c => VString (String c EmptyString)) 0 (list_ascii_of_string s)
  | VRef l =>
      match store !! l with
      | Some (OObject props) => props
      | Some (OArray elems) => indexedFrom (fun e => e) 0 elems
      | Some (OInt32Array elems) =>
          indexedFrom (fun z => VNumber (JsNumber.of_Z z)) 0 elems
      | _ => []
      end
  | _ => []
  end.

(** The elements [forEach] and an index see of an array or a typed
    array. *)
Definition elementsAt (store : list Obj) (v : Val) : list Val :=
  match v with
  | VRef l =>
      match store !! l with
      | Some (OArray elems) => elems
      | Some (OInt32Array elems) => map (fun z => VNumber (JsNumber.of_Z z)) elems
      | _ => []
      end
  | _ => []
  end.

(** The source table, a [Quiver] of the external reader.  The cells of
    the table, and what they hold, are objects of the store; [getCell]
    hands out the reference to a cell or throws. *)
Record Quiver : Type := {
  isEmpty : bool;
  dimensions_rows : Z;
  getCell : nat -> nat -> Result Val;
  cssStyles : option StyleSheet;
}.

(** [class EditingCache], holding references to cells. *)
Module EditingCache.

Abbreviation t := (gmap nat (gmap nat Val)).

Definition get (cachedContent : t) (col row : nat) : Val :=
  match cachedContent !! col with
  | None => VUndefined
  | Some colCache =>
      match colCache !! row with
      | Some value => value
      | None => VUndefined
      end
  end.

Definition set (cachedContent : t) (col row : nat) (value : Val) : t :=
  let cachedContent :=
    match cachedContent !! col with
    | None => <[col := ∅]> cachedContent
    | Some _ => cachedContent
    end in
  match cachedContent !! col with
  | Some rowCache => <[col := <[row := value]> rowCache]> cachedContent
  | None => cachedContent
  end.

End EditingCache.

(** The store, the source table the loader was given, the editing cache
    it keeps in a ref, the errors it logged and the clock of the page. *)
Record State : Type := {
  store : list Obj;
  source : Quiver;
  editingCache : EditingCache.t;
  logged : list string;
  clock : float;
}.

Definition with_store (store' : list Obj) (s : State) : State :=
  {| store := store'; source := source s; editingCache := editingCache s;
     logged := logged s; clock := clock s |}.

(** A computation: it runs on a state and returns or throws, leaving a
    state. *)
Definition H (A : Type) : Type := State -> Result A * State.

Definition ret {A : Type} (a : A) : H A := fun s => (Ok a, s).

Definition bind {A B : Type} (m : H A) (f : A -> H B) : H B :=
  fun s =>
    match m s with
    | (Ok a, s') => f a s'
    | (Throw e, s') => (Throw e, s')
    end.

Declare Scope heap_scope.
Delimit Scope heap_scope with heap.

Notation "x <- m ;; k" := (bind m (fun x => k))
  (at level 100, m at next level, right associativity) : heap_scope.

Local Open Scope heap_scope.

Definition call {A : Type} (r : Result A) : H A := fun s => (r, s).

Definition tryCatch {A : Type} (body : H A) (handler : string -> H A) : H A :=
  fun s =>
    match body s with
    | (Ok a, s') => (Ok a, s')
    | (Throw e, s') => handler e s'
    end.

(** An object or array literal: a new object, at a location no object
    is at. *)
Definition alloc (o : Obj) : H Val :=
  fun s => (Ok (VRef (length (store s))), with_store (store s ++ [o]) s).

(** Reads: the value of an expression; [v.key], which throws where [v]
    is null or undefined, and [v?.key], which does not; the properties a
    spread copies; the elements of an array; [vector.toArray()].  Of the
    named properties of an array, a typed array or a vector the model
    keeps none. *)
Definition read (v : Val) : H JsValue := fun s => (Ok (valueAt (store s) v), s).

Definition fieldAt (store : list Obj) (key : string) (v : Val) : Val :=
  match v with
  | VRef l =>
      match store !! l with
      | Some (OObject props) => lookupProp key props
      | _ => VUndefined
      end
  | _ => VUndefined
  end.

Definition nullish (v : Val) : bool :=
  match v with VUndefined | VNull => true | _ => false end.

Definition getField (key : string) (v : Val) : H Val :=
  fun s =>
    if nullish v
    then (Throw ("TypeError: Cannot read properties of " +:+ ToString (valueAt (store s) v)),
          s)
    else (Ok (fieldAt (store s) key v), s).

Definition getFieldOpt (key : string) (v : Val) : H Val :=
  fun s => (Ok (fieldAt (store s) key v), s).

Definition ownProps (v : Val) : H (list (string * Val)) :=
  fun s => (Ok (ownPropsAt (store s) v), s).

Definition elements (v : Val) : H (list Val) :=
  fun s => (Ok (elementsAt (store s) v), s).

Definition toArray (v : Val) : H Val :=
  fun s =>
    match v with
    | VRef l =>
        match store s !! l with
        | Some (OVector array _ _) => (Ok (VRef array), s)
        | _ => (Throw "TypeError: data.toArray is not a function", s)
        end
    | _ => (Throw "TypeError: data.toArray is not a function", s)
    end.

(** Writes: [target.key = v] on an object and [target.push(v)] on an
    array, in place.  The code writes into the objects and arrays it has
    built; a write to a named property of an array or a vector, for which
    the model has no place, is shown as a throw. *)
Definition setField (target : Val) (key : string) (v : Val) : H unit :=
  fun s =>
    match target with
    | VRef l =>
        match store s !! l with
        | Some (OObject props) =>
            (Ok tt, with_store (<[l := OObject (setProp key v props)]> (store s)) s)
        | _ => (Throw "TypeError: cannot set a property", s)
        end
    | _ => (Throw "TypeError: cannot set a property", s)
    end.

Definition push (target : Val) (v : Val) : H unit :=
  fun s =>
    match target with
    | VRef l =>
        match store s !! l with
        | Some (OArray elems) =>
            (Ok tt, with_store (<[l := OArray (elems ++ [v])]> (store s)) s)
        | _ => (Throw "TypeError: push is not a function", s)
        end
    | _ => (Throw "TypeError: push is not a function", s)
    end.

(** The object literal [{...base, key: v, ...}]. *)
Definition spreadWith (base : Val) (entries : list (string * Val)) : H Val :=
  props <- ownProps base ;;
  alloc (OObject (fold_left (fun props entry => setProp (fst entry) (snd entry) props)
                    entries props)).

(** [array.forEach(callback)], the local variables the callback assigns
    threaded through the calls. *)
Fixpoint forEach {A : Type} (elems : list Val) (callback : A -> Val -> H A) (acc : A)
  : H A :=
  match elems with
  | [] => ret acc
  | value :: rest =>
      acc <- callback acc value ;;
      forEach rest callback acc
  end.

(** [JSON.parse] builds what it parsed: a new object for every object
    and array of the text. *)
Definition allocAll (allocValue : JsValue -> H Val)
  : list JsValue -> H (list Val) :=
  fix go (l : list JsValue) : H (list Val) :=
    match l with
    | [] => ret []
    | v :: rest =>
        w <- allocValue v ;;
        ws <- go rest ;;
        ret (w :: ws)
    end.

Definition allocProps (allocValue : JsValue -> H Val)
  : list (string * JsValue) -> H (list (string * Val)) :=
  fix go (l : list (string * JsValue)) : H (list (string * Val)) :=
    match l with
    | [] => ret []
    | (k, v) :: rest =>
        w <- allocValue v ;;
        ws <- go rest ;;
        ret ((k, w) :: ws)
    end.

Fixpoint parsed (v : JsValue) : H Val :=
  match v with
  | JUndefined => ret VUndefined
  | JNull => ret VNull
  | JBool b => ret (VBool b)
  | JNumber x => ret (VNumber x)
  | JString s => ret (VString s)
  | JBigInt z => ret (VBigInt z)
  | JArray l =>
      elems <- allocAll parsed l ;;
      alloc (OArray elems)
  | JInt32Array l => alloc (OInt32Array l)
  | JVector array l repr =>
      array <- allocAll parsed array ;;
      array <- alloc (OArray array) ;;
      elems <- allocAll parsed l ;;
      match array with
      | VRef array => alloc (OVector array elems repr)
      | _ => ret VUndefined
      end
  | JObject props =>
      props <- allocProps parsed props ;;
      alloc (OObject props)
  end.

(** *** DataFrameCells.tsx *)

Section Cells.

(** [Quiver.format] of the external reader, on the content of a cell and
    its type. *)
Variable format : JsValue -> JsValue -> string.

Definition getDisplayContent (quiverCell : Val) : H string :=
  displayContent <- getField "displayContent" quiverCell ;;
  content <- getField "content" quiverCell ;;
  content <- read content ;;
  contentType <- getField "contentType" quiverCell ;;
  contentType <- read contentType ;;
  let displayContent :=
    match displayContent with
    | VString d => if String.eqb d "" then format content contentType else d
    | _ => format content contentType
    end in
  ret (JsString.replaceLineBreaks displayContent).

Definition getCellTemplate (type : ColumnType) (readonly isIndex : bool) : H Val :=
  let style := if isIndex then "faded" else "normal" in
  if String.eqb type ColumnType.Text then
    alloc (OObject [("kind", VString (GridCellKind.value GridCellKind.Text));
                    ("data", VString ""); ("displayData", VString "");
                    ("allowOverlay", VBool true); ("readonly", VBool readonly);
                    ("style", VString style)])
  else if String.eqb type ColumnType.Boolean then
    alloc (OObject [("kind", VString (GridCellKind.value GridCellKind.Boolean));
                    ("data", VBool false); ("readonly", VBool readonly);
                    ("allowOverlay", VBool false); ("style", VString style)])
  else if String.eqb type ColumnType.Number then
    alloc (OObject [("kind", VString (GridCellKind.value GridCellKind.Number));
                    ("data", VUndefined); ("displayData", VString "");
                    ("readonly", VBool readonly); ("allowOverlay", VBool true);
                    ("contentAlign", VString "right"); ("style", VString style)])
  else if String.eqb type ColumnType.List then
    data <- alloc (OArray []) ;;
    alloc (OObject [("kind", VString (GridCellKind.value GridCellKind.Bubble));
                    ("data", data); ("allowOverlay", VBool true);
                    ("style", VString style)])
  else if String.eqb type ColumnType.Url then
    alloc (OObject [("kind", VString (GridCellKind.value GridCellKind.Uri));
                    ("data", VString ""); ("readonly", VBool readonly);
                    ("allowOverlay", VBool true); ("style", VString style)])
  else if String.eqb type ColumnType.Image then
    data <- alloc (OArray []) ;;
    displayData <- alloc (OArray []) ;;
    alloc (OObject [("kind", VString (GridCellKind.value GridCellKind.Image));
                    ("data", data); ("displayData", displayData);
                    ("allowAdd", VBool (negb readonly)); ("allowOverlay", VBool true);
                    ("style", VString style)])
  else if String.eqb type ColumnType.LineChart then
    values <- alloc (OArray []) ;;
    displayValues <- alloc (OArray []) ;;
    yAxis <- alloc (OArray [VNumber 0; VNumber 1]) ;;
    data <- alloc (OObject [("kind", VString "sparkline-cell"); ("values", values);
                            ("displayValues", displayValues);
                            ("graphKind", VString "line"); ("yAxis", yAxis)]) ;;
    alloc (OObject [("kind", VString (GridCellKind.value GridCellKind.Custom));
                    ("allowOverlay", VBool false); ("copyData", VString "[]");
                    ("data", data)])
  else if String.eqb type ColumnType.BarChart then
    values <- alloc (OArray []) ;;
    yAxis <- alloc (OArray [VNumber 0; VNumber 1]) ;;
    data <- alloc (OObject [("kind", VString "sparkline-cell"); ("values", values);
                            ("graphKind", VString "bar"); ("yAxis", yAxis)]) ;;
    alloc (OObject [("kind", VString (GridCellKind.value GridCellKind.Custom));
                    ("allowOverlay", VBool false); ("copyData", VString "[]");
                    ("data", data)])
  else if String.eqb type ColumnType.ProgressChart then
    data <- alloc (OObject [("kind", VString "range-cell"); ("min", VNumber 0);
                            ("max", VNumber 1); ("value", VNumber 0);
                            ("step", VNumber 0x1.999999999999ap-4 (* 0.1 *));
                            ("label", VString "0%");
                            ("measureLabel", VString "100%")]) ;;
    alloc (OObject [("kind", VString (GridCellKind.value GridCellKind.Custom));
                    ("allowOverlay", VBool false); ("copyData", VString "");
                    ("data", data)])
  else call (Throw ("Unsupported cell type: " +:+ type)).

Definition getEmptyCell : H Val :=
  alloc (OObject [("kind", VString (GridCellKind.value GridCellKind.Loading));
                  ("allowOverlay", VBool false)]).

Definition getErrorCell (errorMsg errorDetails : string) : H Val :=
  template <- getCellTemplate ColumnType.Text true false ;;
  props <- ownProps template ;;
  themeOverride <- alloc (OObject [("textDark", VString "#ff4b4b")]) ;;
  alloc (OObject
           (setProp "themeOverride" themeOverride
              (setProp "displayData" (VString errorMsg)
                 (setProp "data"
                    (VString (errorMsg +:+ (if String.eqb errorDetails "" then ""
                                            else String "010" errorDetails)))
                    props)))).

Definition applyPandasStylerCss (cell : Val) (cssId : string) (cssStyles : StyleSheet)
  : H Val :=
  themeOverride <- alloc (OObject []) ;;
  (* Extract and apply the font color *)
  fontColor <- call (extractCssProperty cssId "color" cssStyles) ;;
  _ <- match fontColor with
       | Some fontColor =>
           if String.eqb fontColor "" then ret tt
           else setField themeOverride "textDark" (VString fontColor)
       | None => ret tt
       end ;;
  (* Extract and apply the background color *)
  backgroundColor <- call (extractCssProperty cssId "background-color" cssStyles) ;;
  _ <- match backgroundColor with
       | Some backgroundColor =>
           if String.eqb backgroundColor "" then ret tt
           else setField themeOverride "bgCell" (VString backgroundColor)
       | None => ret tt
       end ;;
  (* [themeOverride] is an object, so the guard on it always passes *)
  spreadWith cell [("themeOverride", themeOverride)].

Definition fillListCell (cell data : Val) : H Val :=
  cellData <- alloc (OArray []) ;;
  value <- read data ;;
  cellData <-
    (if notNullOrUndefined value then
       let copy := JSON.roundtrip value in
       cellData <- parsed copy ;;
       if isArray copy then ret cellData
       else
         (* Transform into list *)
         alloc (OArray [VString (ToString copy)])
     else ret cellData) ;;
  spreadWith cell [("data", cellData)].

Definition fillUrlCell (cell data : Val) : H Val :=
  value <- read data ;;
  spreadWith cell
    [("data", VString (if notNullOrUndefined value then ToString value else ""))].

Definition fillTextCell (cell data : Val) (displayData : string) : H Val :=
  value <- read data ;;
  spreadWith cell
    [("data", if isString value || negb (notNullOrUndefined value)
              then data else VString displayData);
     ("displayData", VString displayData)].

Definition fillBooleanCell (cell data : Val) : H Val :=
  value <- read data ;;
  if notNullOrUndefined value && negb (isBoolean value) then
    getErrorCell ("Incompatible boolean value: " +:+ ToString value) ""
  else spreadWith cell [("data", data)].

Definition fillNumberCell (cell data : Val) (displayData : string) : H Val :=
  value <- read data ;;
  if notNullOrUndefined value then
    let cellData :=
      match value with
      | JInt32Array elems =>
          (* int values need to be extracted this way *)
          match elems with
          | z :: _ => JsNumber.of_Z z
          | [] => nan
          end
      | _ => ToNumber value
      end in
    if JsNumber.isNaN cellData then
      getErrorCell ("Incompatible number value: " +:+ ToString value) ""
    else
      spreadWith cell [("data", VNumber cellData); ("displayData", VString displayData)]
  else spreadWith cell [("data", VUndefined); ("displayData", VString displayData)].

Definition fillImageCell (cell data : Val) : H Val :=
  value <- read data ;;
  imageUrls <- alloc (OArray (if notNullOrUndefined value
                              then [VString (ToString value)] else [])) ;;
  spreadWith cell [("data", imageUrls); ("displayData", imageUrls)].

(** The number an element of an array of numbers is. *)
Definition numberOf (v : Val) : float :=
  match v with VNumber x => x | _ => nan end.

Definition fillChartCell (cell data : Val) : H Val :=
  value <- read data ;;
  if negb (notNullOrUndefined value) then getEmptyCell
  else
    chartData <-
      match value with
      | JArray _ => ret (Some data)
      | JVector _ _ _ =>
          chartData <- toArray data ;;
          ret (Some chartData)
      | _ => ret None
      end ;;
    match chartData with
    | None =>
        getErrorCell ("Incompatible chart value: " +:+ ToString value)
          "The provided value is not an array."
    | Some chartData =>
        convertedChartData <- alloc (OArray []) ;;
        normalizedChartData <- alloc (OArray []) ;;
        elems <- elements chartData ;;
        normalizedChartData <-
          match elems with
          | first :: _ =>
              first <- read first ;;
              range <-
                forEach elems
                  (fun '(maxValue, minValue) value =>
                     value <- read value ;;
                     let convertedValue := ToNumber value in
                     let maxValue :=
                       if JsNumber.gt convertedValue maxValue then convertedValue
                       else maxValue in
                     let minValue :=
                       if JsNumber.lt convertedValue minValue then convertedValue
                       else minValue in
                     if JsNumber.isNaN convertedValue then ret (maxValue, minValue)
                     else
                       _ <- push convertedChartData (VNumber convertedValue) ;;
                       ret (maxValue, minValue))
                  (ToNumber first, ToNumber first) ;;
              let '(maxValue, minValue) := range in
              if JsNumber.gt maxValue 1 || JsNumber.lt minValue 0 then
                (* Normalize values *)
                converted <- elements convertedChartData ;;
                alloc (OArray
                         (map (fun v =>
                                 VNumber ((numberOf v - minValue) / (maxValue - minValue)))
                            converted))
              else
                (* Values are already in range 0-1 *)
                ret convertedChartData
          | [] => ret normalizedChartData
          end ;;
        props <- ownProps cell ;;
        converted <- elements convertedChartData ;;
        cellData <- getFieldOpt "data" cell ;;
        dataProps <- ownProps cellData ;;
        newData <- alloc (OObject
                            (setProp "displayValues" convertedChartData
                               (setProp "values" normalizedChartData dataProps))) ;;
        alloc (OObject
                 (setProp "data" newData
                    (setProp "copyData"
                       (VString (JSON.stringifyNumbers (map numberOf converted)))
                       props)))
    end.

Definition fillProgressCell (cell data : Val) : H Val :=
  value <- read data ;;
  if negb (notNullOrUndefined value) then getEmptyCell
  else
    let cellData := ToNumber value in
    if JsNumber.isNaN cellData || JsNumber.lt cellData 0 || JsNumber.gt cellData 1 then
      getErrorCell ("Incompatible progress value: " +:+ ToString value)
        "The value has to be between 0 and 1."
    else
      props <- ownProps cell ;;
      customData <- getFieldOpt "data" cell ;;
      dataProps <- ownProps customData ;;
      newData <- alloc (OObject
                          (setProp "label"
                             (VString (JsNumber.toString
                                         (JsNumber.Math_round (cellData * 100)) +:+ "%"))
                             (setProp "value" (VNumber cellData) dataProps))) ;;
      alloc (OObject
               (setProp "data" newData
                  (setProp "copyData" (VString (ToString value)) props))).

(** The kind a cell is filled or updated by. *)
Definition cellKindOf (cell : Val) : H JsValue :=
  kind <- getField "kind" cell ;;
  match kind with
  | VString k =>
      if String.eqb k (GridCellKind.value GridCellKind.Custom) then
        data <- getField "data" cell ;;
        cellKind <- getFieldOpt "kind" data ;;
        read cellKind
      else read kind
  | _ => read kind
  end.

Definition fillCellTemplate (cellTemplate quiverCell : Val)
    (cssStyles : option StyleSheet) : H Val :=
  cellKind <- cellKindOf cellTemplate ;;
  if negb (truthy cellKind) then getErrorCell "Unable to determine cell type." ""
  else
    cellTemplate <-
      match cssStyles with
      | Some styles =>
          if negb (String.eqb (css_text styles) "") then
            cssId <- getField "cssId" quiverCell ;;
            cssId <- read cssId ;;
            if truthy cssId
            then applyPandasStylerCss cellTemplate (ToString cssId) styles
            else ret cellTemplate
          else ret cellTemplate
      | None => ret cellTemplate
      end ;;
    if isCase cellKind (GridCellKind.value GridCellKind.Text) then
      content <- getField "content" quiverCell ;;
      displayContent <- getDisplayContent quiverCell ;;
      fillTextCell cellTemplate content displayContent
    else if isCase cellKind (GridCellKind.value GridCellKind.Number) then
      content <- getField "content" quiverCell ;;
      displayContent <- getDisplayContent quiverCell ;;
      fillNumberCell cellTemplate content displayContent
    else if isCase cellKind (GridCellKind.value GridCellKind.Boolean) then
      content <- getField "content" quiverCell ;;
      fillBooleanCell cellTemplate content
    else if isCase cellKind (GridCellKind.value GridCellKind.Bubble) then
      content <- getField "content" quiverCell ;;
      fillListCell cellTemplate content
    else if isCase cellKind (GridCellKind.value GridCellKind.Uri) then
      content <- getField "content" quiverCell ;;
      fillUrlCell cellTemplate content
    else if isCase cellKind (GridCellKind.value GridCellKind.Image) then
      content <- getField "content" quiverCell ;;
      fillImageCell cellTemplate content
    else if isCase cellKind "sparkline-cell" then
      content <- getField "content" quiverCell ;;
      fillChartCell cellTemplate content
    else if isCase cellKind "range-cell" then
      content <- getField "content" quiverCell ;;
      fillProgressCell cellTemplate content
    else getErrorCell ("Unsupported cell kind: " +:+ ToString cellKind) "".

Definition performance_now : H float := fun s => (Ok (clock s), s).

Definition updateCell (cell newValue : Val) (newDisplayValue : option string) : H Val :=
  cellKind <- cellKindOf cell ;;
  if negb (truthy cellKind) then getErrorCell "Unable to determine cell type." ""
  else
    value <- read newValue ;;
    let display :=
      match newDisplayValue with
      | Some d => d
      | None => ToString value
      end in
    let updated (updatedCell : H Val) : H Val :=
      updatedCell <- updatedCell ;;
      now <- performance_now ;;
      spreadWith updatedCell [("lastUpdated", VNumber now)] in
    if isCase cellKind (GridCellKind.value GridCellKind.Text) then
      updated (fillTextCell cell newValue display)
    else if isCase cellKind (GridCellKind.value GridCellKind.Number) then
      updated (fillNumberCell cell newValue display)
    else if isCase cellKind (GridCellKind.value GridCellKind.Boolean) then
      updated (fillBooleanCell cell newValue)
    else if isCase cellKind (GridCellKind.value GridCellKind.Uri) then
      updated (fillUrlCell cell newValue)
    else getErrorCell ("Cell cannot be edited: " +:+ ToString cellKind) "".

(** *** DataFrame.tsx *)

Definition getData : H Quiver := fun s => (Ok (source s), s).

Definition cacheGet (col row : nat) : H Val :=
  fun s => (Ok (EditingCache.get (editingCache s) col row), s).

Definition cacheSet (col row : nat) (value : Val) : H unit :=
  fun s =>
    (Ok tt,
     {| store := store s; source := source s;
        editingCache := EditingCache.set (editingCache s) col row value;
        logged := logged s; clock := clock s |}).

Definition logError (error : string) : H unit :=
  fun s =>
    (Ok tt,
     {| store := store s; source := source s; editingCache := editingCache s;
        logged := logged s ++ [error]; clock := clock s |}).

Definition numRows (data : Quiver) : Z :=
  if isEmpty data then 1%Z else (dimensions_rows data - 1)%Z.

(** The columns of this render pass, and from the grid library: which
    cells it lets the user edit, and the row of the table a displayed row
    is under the current sorting. *)
Variable columns : list GridColumnWithCellTemplate.
Variable isEditableGridCell : JsValue -> bool.
Variable getOriginalIndex : nat -> nat.

Definition getCellContent (cell : nat * nat) : H Val :=
  let '(col, row) := cell in
  data <- getData ;;
  if isEmpty data then
    template <- getCellTemplate ColumnType.Text true true ;;
    spreadWith template [("displayData", VString "empty")]
  else if (Z.of_nat col >? Z.of_nat (length columns) - 1)%Z then
    (* This should never happen *)
    getCellTemplate ColumnType.Text true false
  else
    (* Try to load cell from cache *)
    cell <- cacheGet col row ;;
    if negb (nullish cell) then ret cell
    else
      match columns !! col with
      | None => call (Throw "TypeError: column is undefined")
      | Some column =>
          cellTemplate <- getCellTemplate (columnType column)
                            (negb (isEditable column)) (isIndex column) ;;
          if (Z.of_nat row >? numRows data - 1)%Z then
            (* This should never happen *)
            ret cellTemplate
          else
            tryCatch
              ((* Quiver has the header in first row *)
               quiverCell <- call (getCell data (row + 1) (columnIndex column)) ;;
               fillCellTemplate cellTemplate quiverCell (cssStyles data))
              (fun error =>
                 (* This should not happen in read-only table. *)
                 _ <- logError error ;;
                 ret cellTemplate)
      end.

Definition getCellContentSorted (cell : nat * nat) : H Val :=
  let '(col, row) := cell in
  getCellContent (col, getOriginalIndex row).

Definition onCellEdited (cell : nat * nat) (newVal : Val) : H unit :=
  let '(col, row) := cell in
  currentCell <- getCellContentSorted (col, row) ;;
  newCell <- read newVal ;;
  current <- read currentCell ;;
  if negb (isEditableGridCell newCell) || negb (isEditableGridCell current) then
    ret tt
  else
    newData <- getField "data" newVal ;;
    data <- read newData ;;
    if isString data || isNumber data || isBoolean data then
      updated <- updateCell currentCell newData None ;;
      cacheSet col (getOriginalIndex row) updated
    else ret tt.

End Cells.

End Heap.

(** * Vocabulary of the properties

    What the statements below speak of: error cells, the readings of the
    specification that are compared with the code, and the sample cells,
    columns and tables the statements are tried on. *)

(** The two bounds of a column width, as sign, mantissa and exponent. *)
Definition SF35 : spec_float := Eval vm_compute in Prim2SF MIN_COLUMN_WIDTH.
Definition SF600 : spec_float := Eval vm_compute in Prim2SF MAX_COLUMN_WIDTH.

(** An error cell is a cell [getErrorCell] builds. *)
Definition isErrorCell (cell : GridCell) : Prop :=
  exists errorMsg errorDetails, cell = getErrorCell errorMsg errorDetails.

(** Three of the templates of [getCellTemplate]. *)
Definition lineChartTemplate : GridCell :=
  returned (getCellTemplate ColumnType.LineChart true false).
Definition progressTemplate : GridCell :=
  returned (getCellTemplate ColumnType.ProgressChart true false).
Definition booleanTemplate : GridCell :=
  returned (getCellTemplate ColumnType.Boolean true false).

(** What the specification says of [fillProgressCell]: the value is
    clamped into [0, 1] and labelled by its rounded percentage. *)
Definition clamp01 (x : float) : float :=
  JsNumber.Math_max 0 (JsNumber.Math_min x 1).

Definition progressLabel (x : float) : string :=
  JsNumber.toString (JsNumber.Math_round (x * 100)) +:+ "%".

Definition clampedProgressCell (cell : GridCell) (raw : JsValue) : Prop :=
  let result := fillProgressCell cell raw in
  let x := clamp01 (ToNumber raw) in
  isCase (cellKindOf result) "range-cell" = true
  /\ getProp "value" (data result) = JNumber x
  /\ getProp "label" (data result) = JString (progressLabel x).

(** What the specification says of [fillBooleanCell]: an error cell
    exactly for a value that is not a boolean. *)
Definition errorIffNotBoolean (cell : GridCell) (raw : JsValue) : Prop :=
  isErrorCell (fillBooleanCell cell raw) <-> isBoolean raw = false.

(** The kinds [fillCellTemplate] has a case for. *)
Definition supportedKinds : list string :=
  ["text"; "number"; "boolean"; "bubble"; "uri"; "image"; "sparkline-cell"; "range-cell"].

Definition isSupportedKind (cellKind : JsValue) : bool :=
  existsb (isCase cellKind) supportedKinds.

(** A custom cell of a kind this file has no case for, one whose data
    carries no kind, and a cell of the table. *)
Definition starTemplate : GridCell :=
  with_data (JObject [("kind", JString "star-cell")]) lineChartTemplate.
Definition noKindTemplate : GridCell :=
  with_data (JObject [("rating", JNumber 3)]) lineChartTemplate.
Definition threeCell : DataFrameCell :=
  {| content := JNumber 3; contentType := None; displayContent := None;
     cssId := None; formatted := "3" |}.

(** A custom cell whose data carries the empty string as its kind. *)
Definition emptyKindTemplate : GridCell :=
  with_data (JObject [("kind", JString "")]) lineChartTemplate.

(** What the specification says of [fillCellTemplate] at a template, a
    cell of the table and a style sheet: it returns a cell; the cell is
    the error cell "Unsupported cell kind" when the kind of the template
    is there and is none of the supported ones, and the error cell
    "Unable to determine cell type." when the template is a custom cell
    whose data carries no kind. *)
Definition returnsAsSpecified (cellTemplate : GridCell) (quiverCell : DataFrameCell)
    (cssStyles : option StyleSheet) : Prop :=
  (exists cell, fillCellTemplate cellTemplate quiverCell cssStyles = Ok cell)
  /\ (cellKindOf cellTemplate <> JUndefined ->
      isSupportedKind (cellKindOf cellTemplate) = false ->
      fillCellTemplate cellTemplate quiverCell cssStyles
      = Ok (getErrorCell
              ("Unsupported cell kind: " +:+ ToString (cellKindOf cellTemplate)) ""))
  /\ (kind cellTemplate = GridCellKind.Custom ->
      getProp "kind" (data cellTemplate) = JUndefined ->
      fillCellTemplate cellTemplate quiverCell cssStyles
      = Ok (getErrorCell "Unable to determine cell type." "")).

(** The kind of the template of a column type: the cell kind or, for the
    three chart types, the kind of the custom cell's data. *)
Definition matchingKind (type : ColumnType) : string :=
  if String.eqb type ColumnType.Text then "text"
  else if String.eqb type ColumnType.Number then "number"
  else if String.eqb type ColumnType.Boolean then "boolean"
  else if String.eqb type ColumnType.List then "bubble"
  else if String.eqb type ColumnType.Url then "uri"
  else if String.eqb type ColumnType.Image then "image"
  else if String.eqb type ColumnType.ProgressChart then "range-cell"
  else "sparkline-cell".

Definition isChartType (type : ColumnType) : bool :=
  includes [ColumnType.LineChart; ColumnType.BarChart; ColumnType.ProgressChart] type.

(** What the specification says of the template of a column type. *)
Definition styledTemplate (type : ColumnType) (readonly isIndex : bool) : Prop :=
  exists cell,
    getCellTemplate type readonly isIndex = Ok cell
    /\ cellKindOf cell = JString (matchingKind type)
    /\ (style cell = Some "faded" <-> isIndex = true).

(** The table the specification gives for a type name of the reader,
    lowercased and trimmed. *)
Definition quiverColumnType (name : string) : ColumnType :=
  if String.eqb name "bool" then ColumnType.Boolean
  else if includes ["int64"; "float64"; "range"] name then ColumnType.Number
  else if JsString.startsWith name "list" then ColumnType.List
  else ColumnType.Text.

(** The name the two functions decide on. *)
Definition normalized (name : string) : string :=
  JsString.trim (JsString.toLowerCase name).

(** The configuration [applyColumnConfig] finds for a column: the one
    under its index or else the one under its title. *)
Definition configOf (column : GridColumnWithCellTemplate)
    (columnsConfig : gmap (nat + string) ColumnConfigProps) : option ColumnConfigProps :=
  match columnsConfig !! (inl (columnIndex column) : nat + string) with
  | Some c => Some c
  | None => columnsConfig !! (inr (title column) : nat + string)
  end.

(** A text column and a configuration that asks for a width of 120. *)
Definition nameColumn : GridColumnWithCellTemplate :=
  {| id := Some "column-name-0"; title := "name"; hasMenu := false; width := None;
     columnType := ColumnType.Text; columnIndex := 0; quiverType := None;
     isEditable := false; isHidden := false; isIndex := false |}.

Definition width120 : ColumnConfigProps :=
  {| cfg_width := Some 120%float; cfg_title := None; cfg_type := None;
     cfg_hide := None; cfg_editable := None |}.

Definition nameConfig : gmap (nat + string) ColumnConfigProps :=
  {[ inr "name" := width120 ]}.

(** A table of one row under the header, the cell an edit of the first
    row left, and the loader after that cell was cached under column
    [col]. *)
Definition oneRowTable : Quiver :=
  {| isEmpty := false; dimensions_rows := 2;
     getCell := fun _ _ => Ok threeCell; cssStyles := None |}.

Definition editedCell : GridCell :=
  updateCell 0 (returned (getCellTemplate ColumnType.Text false false))
    (JString "edited") None.

Definition editedState (col : nat) : State :=
  {| source := oneRowTable;
     editingCache := EditingCache.set EditingCache.empty col 0 editedCell;
     logged := []; clock := 0 |}.

(** What the specification says of a read: on a table that is not empty
    a cached cell is what [getCellContent] returns. *)
Definition cachedCellReturned (columns : list GridColumnWithCellTemplate)
    (s : State) (col row : nat) : Prop :=
  isEmpty (source s) = false ->
  forall cell,
    EditingCache.get (editingCache s) col row = Some cell ->
    fst (getCellContent columns (col, row) s) = Ok cell.

(** A computation keeps the relation [R] between the state it starts
    from and the state it leaves. *)
Definition keeps {A : Type} (R : State -> State -> Prop) (m : M A) : Prop :=
  forall s, R s (snd (m s)).

(** A line break is a line feed or a carriage return. *)
Definition isLineBreak (c : ascii) : bool :=
  (JsString.code c =? 10)%Z || (JsString.code c =? 13)%Z.

Fixpoint hasLineBreak (s : string) : bool :=
  match s with
  | String c s' => isLineBreak c || hasLineBreak s'
  | EmptyString => false
  end.

(** The text of a quiver cell before its line breaks are removed: its
    display content or, without one, its formatted content. *)
Definition shownContent (quiverCell : DataFrameCell) : string :=
  match displayContent quiverCell with
  | Some d => if String.eqb d "" then formatted quiverCell else d
  | None => formatted quiverCell
  end.

(** The number [fillNumberCell] makes of a raw value: of a typed array
    its first element, of anything else its numeric conversion. *)
Definition numberOf (raw : JsValue) : float :=
  match raw with
  | JInt32Array (z :: _) => JsNumber.of_Z z
  | JInt32Array [] => nan
  | _ => ToNumber raw
  end.

(** Plain JSON data: [null], booleans, numbers, strings, and the arrays
    and objects of such; no [undefined], bigint, typed array or vector at
    any depth. *)
Fixpoint isJson (v : JsValue) : bool :=
  match v with
  | JNull | JBool _ | JNumber _ | JString _ => true
  | JArray l => forallb isJson l
  | JObject props => forallb (fun p => let '(_, e) := p in isJson e) props
  | _ => false
  end.



(** A Number cell that can be edited. *)
Definition numberTemplate : GridCell :=
  returned (getCellTemplate ColumnType.Number false false).

(** The fill function of a column type. *)
Definition fillByType (type : ColumnType) (cell : GridCell) (quiverCell : DataFrameCell)
  : GridCell :=
  if String.eqb type ColumnType.Text then
    fillTextCell cell (content quiverCell) (getDisplayContent quiverCell)
  else if String.eqb type ColumnType.Number then
    fillNumberCell cell (content quiverCell) (getDisplayContent quiverCell)
  else if String.eqb type ColumnType.Boolean then fillBooleanCell cell (content quiverCell)
  else if String.eqb type ColumnType.List then fillListCell cell (content quiverCell)
  else if String.eqb type ColumnType.Url then fillUrlCell cell (content quiverCell)
  else if String.eqb type ColumnType.Image then fillImageCell cell (content quiverCell)
  else if String.eqb type ColumnType.ProgressChart then
    fillProgressCell cell (content quiverCell)
  else fillChartCell cell (content quiverCell).

(** Two cells that differ in their theme override at most. *)
Definition sameButTheme (c1 c2 : GridCell) : Prop :=
  kind c1 = kind c2 /\ data c1 = data c2 /\ displayData c1 = displayData c2
  /\ allowOverlay c1 = allowOverlay c2 /\ readonly c1 = readonly c2
  /\ style c1 = style c2 /\ contentAlign c1 = contentAlign c2
  /\ allowAdd c1 = allowAdd c2 /\ copyData c1 = copyData c2
  /\ lastUpdated c1 = lastUpdated c2.

(** A cell of the table without a value, and a style sheet that gives
    this cell the colour red: on the pattern of the colour of the cell
    the host finds the rule and, in its first group, "red"; on the
    pattern of the background colour it finds nothing. *)
Definition missingCell : DataFrameCell :=
  {| content := JNull; contentType := None; displayContent := None;
     cssId := Some "T_row0_col0"; formatted := "<NA>" |}.

Definition redSheet : StyleSheet :=
  {| css_text := "#T_row0_col0 { color: red }";
     css_exec := fun pattern =>
       if String.eqb pattern
            "T_row0_col0[^{]*{(?:[^}]*[\s;]{1})?color:\s*([^;\s]+)[;]?.*}"
       then Ok (Some ["T_row0_col0 { color: red }"; "red"])
       else Ok None |}.

(** A cell whose id has an opening parenthesis, and a style sheet for
    it: both patterns built from this id have a group that is never
    closed, and the constructor of the host throws on them. *)
Definition unbalancedCell : DataFrameCell :=
  {| content := JString "x"; contentType := None; displayContent := None;
     cssId := Some "a("; formatted := "x" |}.

Definition unbalancedSheet : StyleSheet :=
  {| css_text := "#a( { color: red }";
     css_exec := fun pattern =>
       if String.prefix "a([^{]*{" pattern
       then Throw "SyntaxError: Invalid regular expression: Unterminated group"
       else Ok None |}.

(** The cell a template is filled as: the template itself or, for a
    styled cell, the template under the theme override of its styles. *)
Definition styledCell (cellTemplate : GridCell) (quiverCell : DataFrameCell)
    (cssStyles : option StyleSheet) : Result GridCell :=
  match cssStyles, cssId quiverCell with
  | Some styles, Some id =>
      if negb (String.eqb (css_text styles) "") && negb (String.eqb id "")
      then applyPandasStylerCss cellTemplate id styles
      else Ok cellTemplate
  | _, _ => Ok cellTemplate
  end.

(** The style sheet has a rule to apply to the cell: the sheet is not
    empty and the cell has an id, not empty either. *)
Definition isStyled (quiverCell : DataFrameCell) (cssStyles : option StyleSheet) : bool :=
  match cssStyles, cssId quiverCell with
  | Some styles, Some id =>
      negb (String.eqb (css_text styles) "") && negb (String.eqb id "")
  | _, _ => false
  end.

(** The host compiles the patterns [applyPandasStylerCss] builds for the
    cell, the one of the colour and the one of the background colour. *)
Definition stylesCompile (quiverCell : DataFrameCell) (cssStyles : option StyleSheet)
  : Prop :=
  forall styles id property,
    cssStyles = Some styles -> cssId quiverCell = Some id ->
    In property ["color"; "background-color"] ->
    exists value, extractCssProperty id property styles = Ok value.

(** What [fillCellTemplate] returns when [fill] is the fill function of
    the kind: [fill] of the styled cell, or what the styles throw. *)
Definition filledAs (fill : GridCell -> GridCell) (styled : Result GridCell)
  : Result GridCell :=
  match styled with
  | Ok cell => Ok (fill cell)
  | Throw error => Throw error
  end.

(** A function on cells that hands on the theme override of its
    argument, or ignores it and returns an error cell or the empty
    cell. *)
Definition handsOnTheme (f : GridCell -> GridCell) : Prop :=
  forall (theme : Theme) (cell : GridCell),
    f (with_themeOverride theme cell) = with_themeOverride theme (f cell)
    \/ (f (with_themeOverride theme cell) = f cell
        /\ (isErrorCell (f cell) \/ f cell = getEmptyCell)).

(** A configuration that hides a column, and a table with a range index
    and the data columns "name" and "age". *)
Definition hidden : ColumnConfigProps :=
  {| cfg_width := None; cfg_title := None; cfg_type := None;
     cfg_hide := Some true; cfg_editable := None |}.

Definition hideAge : gmap (nat + string) ColumnConfigProps :=
  {[ inr "age" := hidden ]}.

(** A configuration keyed by titles, as the loader builds them, that
    hides the index column (its title is empty) and both data columns of
    the table of people. *)
Definition hideAll : gmap (nat + string) ColumnConfigProps :=
  {[ inr "" := hidden; inr "name" := hidden; inr "age" := hidden ]}.

Definition peopleTable : Table :=
  {| quiver := oneRowTable;
     indexTypes := [ {| typeName := Some "range" |} ];
     dataColumns := [ ("name", {| typeName := Some "unicode" |});
                      ("age", {| typeName := Some "int64" |}) ] |}.

(** What [applyColumnConfig] never touches of a column. *)
Definition sameColumnIdentity (c1 c2 : GridColumnWithCellTemplate) : Prop :=
  id c1 = id c2 /\ columnIndex c1 = columnIndex c2 /\ isIndex c1 = isIndex c2
  /\ isHidden c1 = isHidden c2 /\ quiverType c1 = quiverType c2
  /\ hasMenu c1 = hasMenu c2.

(** The number of columns of a table, index columns included. *)
Definition numAllColumns (data : Table) : nat :=
  length (indexTypes data) + length (dataColumns data).

(** Two columns that differ in their title at most, in their width at
    most, and two columns a read takes for the same. *)
Definition sameButTitle (c1 c2 : GridColumnWithCellTemplate) : Prop :=
  with_title (title c1) c2 = c1.

Definition sameButWidth (c1 c2 : GridColumnWithCellTemplate) : Prop :=
  id c1 = id c2 /\ title c1 = title c2 /\ hasMenu c1 = hasMenu c2
  /\ columnType c1 = columnType c2 /\ columnIndex c1 = columnIndex c2
  /\ quiverType c1 = quiverType c2 /\ isEditable c1 = isEditable c2
  /\ isHidden c1 = isHidden c2 /\ isIndex c1 = isIndex c2.

Definition sameForReads (c1 c2 : GridColumnWithCellTemplate) : Prop :=
  columnType c1 = columnType c2 /\ isEditable c1 = isEditable c2
  /\ isIndex c1 = isIndex c2 /\ columnIndex c1 = columnIndex c2.

(** The arrow in the header of the sorted column. *)
Definition sortArrow (sort : ColumnSortConfig) : string :=
  if bool_decide (sort_direction sort = Some "asc") then "↑ " else "↓ ".

(** The column "age", a Number column, and the three columns of a
    table. *)
Definition ageColumn : GridColumnWithCellTemplate :=
  {| id := Some "column-age-1"; title := "age"; hasMenu := false; width := None;
     columnType := ColumnType.Number; columnIndex := 1; quiverType := None;
     isEditable := false; isHidden := false; isIndex := false |}.

Definition sortedByAge : ColumnSortConfig :=
  {| sort_column := ageColumn; sort_mode := Some "smart";
     sort_direction := Some "asc" |}.

(** The sorting a click on the header of [column] asks for. *)
Definition sortedBy (column : GridColumnWithCellTemplate) (direction : string)
  : ColumnSortConfig :=
  {| sort_column := column;
     sort_mode := Some (getColumnSortMode (columnType column));
     sort_direction := Some direction |}.

(** The columns [getCellContent] of [useDataLoader] reads by: those of
    [getColumns] under the widths the user set. *)
Definition loaderColumns (data : Table)
    (columnsConfig : gmap (nat + string) ColumnConfigProps)
    (columnSizes : gmap string float) : list GridColumnWithCellTemplate :=
  applyColumnSizes columnSizes (getColumns data columnsConfig).

(** The loader before any edit, on the table of one row. *)
Definition freshState : State :=
  {| source := oneRowTable; editingCache := EditingCache.empty;
     logged := []; clock := 0 |}.

(** The source table, the cache and the clock are what they were; the
    log may have grown. *)
Definition sameButLog (s s' : State) : Prop :=
  source s' = source s /\ editingCache s' = editingCache s /\ clock s' = clock s.



(** A table whose reader throws at every cell. *)
Definition brokenTable : Quiver :=
  {| isEmpty := false; dimensions_rows := 2;
     getCell := fun _ _ => Throw "Row index is out of range.";
     cssStyles := None |}.

Definition brokenState : State :=
  {| source := brokenTable; editingCache := EditingCache.empty;
     logged := []; clock := 0 |}.

(** A table of one cell, the one with the unbalanced id, under its style
    sheet. *)
Definition unbalancedTable : Quiver :=
  {| isEmpty := false; dimensions_rows := 2;
     getCell := fun _ _ => Ok unbalancedCell;
     cssStyles := Some unbalancedSheet |}.

Definition unbalancedState : State :=
  {| source := unbalancedTable; editingCache := EditingCache.empty;
     logged := []; clock := 0 |}.

(** [x <= y] on numbers, and on their specification: the comparison is
    "less" or "equal". *)
Definition numLe (x y : float) : Prop := (x <=? y)%float = true.

Definition SFle (x y : spec_float) : Prop :=
  SFcompare x y = Some Lt \/ SFcompare x y = Some Eq.


(** ** Objects that are kept

    The vocabulary of the frame properties of the second embedding. *)

(** Every object of the store of [s] is in the store of [s'], at the
    location it was at and with the contents it had. *)
Definition objectsKept (s s' : Heap.State) : Prop :=
  forall l o, Heap.store s !! l = Some o -> Heap.store s' !! l = Some o.

(** The source table, the editing cache and the clock are what they
    were. *)
Definition sameTableCacheClock (s s' : Heap.State) : Prop :=
  Heap.source s' = Heap.source s
  /\ Heap.editingCache s' = Heap.editingCache s
  /\ Heap.clock s' = Heap.clock s.

(** The values an object holds. *)
Definition held (o : Heap.Obj) : list Heap.Val :=
  match o with
  | Heap.OObject props => map snd props
  | Heap.OArray elems => elems
  | Heap.OInt32Array _ => []
  | Heap.OVector array elems _ => Heap.VRef array :: elems
  end.

(** The objects that can be reached from a value: the object it refers
    to, and every object an object that can be reached holds a reference
    to. *)
Inductive reaches (s : Heap.State) (v : Heap.Val) : Heap.loc -> Prop :=
| reaches_ref (l : Heap.loc) : v = Heap.VRef l -> reaches s v l
| reaches_held (l l' : Heap.loc) (o : Heap.Obj) :
    reaches s v l -> Heap.store s !! l = Some o -> In (Heap.VRef l') (held o) ->
    reaches s v l'.

(** The value is a reference to an object that [s'] has and [s] has
    not. *)
Definition isNewObject (s s' : Heap.State) (v : Heap.Val) : Prop :=
  exists l props,
    v = Heap.VRef l /\ length (Heap.store s) <= l
    /\ Heap.store s' !! l = Some (Heap.OObject props).

(** No object that [s'] has and [s] has not holds a reference to an
    object of [s], those apart that can be reached from [v] in [s]. *)
Definition sharesOnlyWith (s s' : Heap.State) (v : Heap.Val) : Prop :=
  forall l o l',
    length (Heap.store s) <= l -> Heap.store s' !! l = Some o ->
    In (Heap.VRef l') (held o) ->
    length (Heap.store s) <= l' \/ reaches s v l'.

(** A call that builds a cell from a template: the cell it returns is a
    new object; every object there was is kept as it was, and so are the
    table, the cache and the clock; what the call built shares objects
    with the template and with nothing else that was there. *)
Definition buildsFreshCell (cellTemplate : Heap.Val) (build : Heap.H Heap.Val) : Prop :=
  forall s,
    let s' := snd (build s) in
    objectsKept s s' /\ sameTableCacheClock s s'
    /\ sharesOnlyWith s s' cellTemplate
    /\ forall cell, fst (build s) = Ok cell -> isNewObject s s' cell.

(** The call returns, whatever the state. *)
Definition returns {A : Type} (m : Heap.H A) : Prop :=
  forall s, exists a, fst (m s) = Ok a.

(** What holds between the state a call started in, [s0], and every
    state it goes through: the objects of [s0] are kept, and the objects
    built since hold references to objects built since and to objects
    that can be reached from [root] in [s0], and to no others. *)
Definition clean (s0 : Heap.State) (root : Heap.Val) (v : Heap.Val) : Prop :=
  match v with
  | Heap.VRef l => length (Heap.store s0) <= l \/ reaches s0 root l
  | _ => True
  end.

Definition own (s0 : Heap.State) (v : Heap.Val) : Prop :=
  exists l, v = Heap.VRef l /\ length (Heap.store s0) <= l.

Definition grown (s0 : Heap.State) (root : Heap.Val) (s : Heap.State) : Prop :=
  objectsKept s0 s /\ sameTableCacheClock s0 s
  /\ forall l o, length (Heap.store s0) <= l -> Heap.store s !! l = Some o ->
                 Forall (clean s0 root) (held o).

(** From a state grown from [s0] the call leads to a state grown from
    [s0], and what it returns is as [Q] says. *)
Definition builds {A : Type} (s0 : Heap.State) (root : Heap.Val) (m : Heap.H A)
    (Q : A -> Heap.State -> Prop) : Prop :=
  forall s, grown s0 root s ->
            grown s0 root (snd (m s)) /\ forall a, fst (m s) = Ok a -> Q a (snd (m s)).

(** A fill function builds a fresh cell from every template and value,
    and returns. *)
Definition fillsFresh (fill : Heap.Val -> Heap.Val -> Heap.H Heap.Val) : Prop :=
  forall cell data, buildsFreshCell cell (fill cell data) /\ returns (fill cell data).

(** The host compiles the patterns built for any cell id under the style
    sheet, if there is one. *)
Definition compilesAll (cssStyles : option StyleSheet) : Prop :=
  forall styles id property,
    cssStyles = Some styles -> exists value, extractCssProperty id property styles = Ok value.

(** A store of three objects: the array [1, 5, 3], a cell of the table
    that holds it, and the template of a line chart column as far as
    [fillChartCell] reads it. *)
Definition chartStore : list Heap.Obj :=
  [ Heap.OArray [Heap.VNumber 1; Heap.VNumber 5; Heap.VNumber 3];
    Heap.OObject [("content", Heap.VRef 0); ("cssId", Heap.VUndefined)];
    Heap.OArray [Heap.VNumber 0; Heap.VNumber 1];
    Heap.OObject [("kind", Heap.VString "sparkline-cell"); ("yAxis", Heap.VRef 2)];
    Heap.OObject [("kind", Heap.VString "custom"); ("data", Heap.VRef 3)] ].

Definition chartState : Heap.State :=
  {| Heap.store := chartStore;
     Heap.source := {| Heap.isEmpty := false; Heap.dimensions_rows := 2;
                       Heap.getCell := fun _ _ => Ok (Heap.VRef 1);
                       Heap.cssStyles := None |};
     Heap.editingCache := ∅; Heap.logged := []; Heap.clock := 0 |}.

(** How the two embeddings are compared: the value a cell object of the
    store reads as agrees with a cell record when every property of the
    object is the field of the record, a property the object does not
    have being a field that is not set. *)
Definition optionValue {A : Type} (f : A -> JsValue) (o : option A) : JsValue :=
  match o with Some a => f a | None => JUndefined end.

Definition themeValue (theme : Theme) : JsValue :=
  JObject (match textDark theme with Some c => [("textDark", JString c)] | None => [] end
           ++ match bgCell theme with Some c => [("bgCell", JString c)] | None => [] end).

Definition agrees (v : JsValue) (cell : GridCell) : Prop :=
  getProp "kind" v = JString (GridCellKind.value (kind cell))
  /\ getProp "data" v = data cell
  /\ getProp "displayData" v = displayData cell
  /\ getProp "allowOverlay" v = optionValue JBool (allowOverlay cell)
  /\ getProp "readonly" v = optionValue JBool (readonly cell)
  /\ getProp "style" v = optionValue JString (style cell)
  /\ getProp "contentAlign" v = optionValue JString (contentAlign cell)
  /\ getProp "allowAdd" v = optionValue JBool (allowAdd cell)
  /\ getProp "copyData" v = optionValue JString (copyData cell)
  /\ getProp "themeOverride" v = optionValue themeValue (themeOverride cell)
  /\ getProp "lastUpdated" v = optionValue JNumber (lastUpdated cell).

(** A cell of the table with the given content and css id, filled into
    the template of a column type under a style sheet: in the store, from
    a state without objects, and on values. *)
Definition noObjects : Heap.State :=
  {| Heap.store := [];
     Heap.source := {| Heap.isEmpty := true; Heap.dimensions_rows := 0;
                       Heap.getCell := fun _ _ => Throw "Row index is out of range.";
                       Heap.cssStyles := None |};
     Heap.editingCache := ∅; Heap.logged := []; Heap.clock := 0 |}.

Definition filledInStore (type : ColumnType) (content : JsValue) (id : option string)
    (cssStyles : option StyleSheet) : Result JsValue :=
  fst (Heap.bind (Heap.parsed content)
         (fun content =>
            Heap.bind
              (Heap.alloc
                 (Heap.OObject [("content", content);
                                ("cssId", match id with
                                          | Some id => Heap.VString id
                                          | None => Heap.VUndefined
                                          end)]))
              (fun quiverCell =>
                 Heap.bind (Heap.getCellTemplate type false false)
                   (fun cellTemplate =>
                      Heap.bind
                        (Heap.fillCellTemplate (fun v _ => ToString v) cellTemplate
                           quiverCell cssStyles)
                        Heap.read)))
         noObjects).

Definition filledAsValue (type : ColumnType) (content : JsValue) (id : option string)
    (cssStyles : option StyleSheet) : Result GridCell :=
  match getCellTemplate type false false with
  | Ok cellTemplate =>
      fillCellTemplate cellTemplate
        {| content := content; contentType := None; displayContent := None;
           cssId := id; formatted := ToString content |}
        cssStyles
  | Throw error => Throw error
  end.

Definition agreeAt (type : ColumnType) (content : JsValue) (id : option string)
    (cssStyles : option StyleSheet) : Prop :=
  match filledInStore type content id cssStyles, filledAsValue type content id cssStyles with
  | Ok v, Ok cell => agrees v cell
  | Throw error, Throw error' => error = error'
  | _, _ => False
  end.

(** Contents of every sort the cell functions tell apart. *)
Definition sampleContents : list JsValue :=
  [ JUndefined; JNull; JBool true; JNumber 0.5; JNumber 12; JNumber nan;
    JString "abc"; JString "0.25"; JBigInt 7;
    JArray [JNumber 1; JNumber 5; JNumber 3];
    JArray [JNumber 0.5; JString "x"; JNull];
    JArray []; JInt32Array [7%Z; 8%Z];
    JVector [JNumber 1; JNumber 2] [JNumber 1; JNull] "[1,2]";
    JObject [("a", JNumber 1)] ].

(** The template of a column type edited to a new value, in the store
    and on values, at the time 0 of the clock. *)
Definition updatedInStore (type : ColumnType) (newValue : JsValue) : Result JsValue :=
  fst (Heap.bind (Heap.parsed newValue)
         (fun newValue =>
            Heap.bind (Heap.getCellTemplate type false false)
              (fun cell =>
                 Heap.bind (Heap.updateCell cell newValue None) Heap.read))
         noObjects).

Definition updatedAsValue (type : ColumnType) (newValue : JsValue) : Result GridCell :=
  match getCellTemplate type false false with
  | Ok cell => Ok (updateCell 0 cell newValue None)
  | Throw error => Throw error
  end.

(** * Properties *)

(** ** Conversions between numbers and strings, on samples *)

Example toString_samples :
  map JsNumber.toString
    [0.5; 2; 100; 1e21; -1.5; 0; -0; nan; infinity]%float
  = ["0.5"; "2"; "100"; "1e+21"; "-1.5"; "0"; "0"; "NaN"; "Infinity"].
Proof. vm_compute. reflexivity. Qed.

Example StringToNumber_samples :
  map JsString.StringToNumber [" 12 "; ""; "1e3"; "0x1F"; ".5"; "-2.5"; "abc"; "1,2"]
  = [12; 0; 1000; 31; 0.5; -2.5; nan; nan]%float.
Proof. vm_compute. reflexivity. Qed.

Example toString_StringToNumber_samples :
  map (fun s => JsNumber.toString (JsString.StringToNumber s))
    ["0.1"; "0.30000000000000004"; "1e-7"; "0.000001"; "5e-324";
     "1.7976931348623157e308"; "9007199254740993"; "1e400";
     "123456789012345678901"; "1e300"]
  = ["0.1"; "0.30000000000000004"; "1e-7"; "0.000001"; "5e-324";
     "1.7976931348623157e+308"; "9007199254740992"; "Infinity";
     "123456789012345680000"; "1e+300"].
Proof. vm_compute. reflexivity. Qed.

Example Math_round_samples :
  map JsNumber.Math_round [0.5; 1.5; 2.5; -0.5; -1.5; -2.5; 0.25; -3.75; 54.5]%float
  = [1; 2; 3; -0; -1; -2; 0; -4; 55]%float.
Proof. vm_compute. reflexivity. Qed.

Example ToString_samples :
  map ToString
    [JArray [JNumber 1; JNull; JString "a"; JArray [JNumber 2; JNumber 3]];
     JBigInt (-5); JBool true; JUndefined; JObject []; JInt32Array [1; -2]%Z]
  = ["1,,a,2,3"; "-5"; "true"; "undefined"; "[object Object]"; "1,-2"].
Proof. vm_compute. reflexivity. Qed.

(** ** Doubles *)

Module FloatFacts.

Lemma SFcompare_refl (p : spec_float) :
  p <> S754_nan -> SFcompare p p = Some Eq.
Proof.
  destruct p as [s| s | | s m e]; intros Hp; try congruence; simpl.
  - reflexivity.
  - now destruct s.
  - rewrite Z.compare_refl, Pos.compare_cont_refl. now destruct s.
Qed.

Lemma is_nan_spec (x : float) : is_nan x = true <-> Prim2SF x = S754_nan.
Proof.
  unfold is_nan. rewrite FloatAxioms.eqb_spec. unfold SFeqb.
  destruct (Prim2SF x) as [s| s | | s m e] eqn:Hp.
  1,2,4: rewrite SFcompare_refl by discriminate; simpl; split; discriminate.
  simpl. tauto.
Qed.

Lemma is_nan_false (x : float) : is_nan x = false <-> Prim2SF x <> S754_nan.
Proof.
  rewrite <- is_nan_spec. destruct (is_nan x); split; congruence.
Qed.

Lemma ltb_irrefl (x : float) : (x <? x)%float = false.
Proof.
  rewrite FloatAxioms.ltb_spec. unfold SFltb.
  destruct (Prim2SF x) as [s| s | | s m e] eqn:Hp.
  1,2,4: now rewrite SFcompare_refl by discriminate.
  reflexivity.
Qed.

Lemma ltb_not_nan (x y : float) :
  (x <? y)%float = true -> is_nan x = false /\ is_nan y = false.
Proof.
  rewrite FloatAxioms.ltb_spec, !is_nan_false. unfold SFltb.
  destruct (Prim2SF x), (Prim2SF y); simpl; intros H; split; congruence.
Qed.

(** Subtracting a double from itself gives [+0] or, for an infinity or
    NaN, NaN; dividing that by itself gives NaN in every case. *)
Lemma sub_self_div (v : float) : ((v - v) / (v - v))%float = nan.
Proof.
  apply Prim2SF_inj.
  rewrite div_spec, sub_spec.
  change (Prim2SF nan) with S754_nan.
  destruct (Prim2SF v) as [s| s | | s m e]; simpl.
  - now destruct s.
  - now destruct s.
  - reflexivity.
  - unfold SF64sub, SFsub. rewrite Z.sub_diag. reflexivity.
Qed.


(** Comparisons with positive finite doubles, on their specification. *)
Lemma SFltb_finite_trans (p : spec_float) (m1 m2 : positive) (e1 e2 : Z) :
  (e1 < e2)%Z ->
  SFltb p (S754_finite false m1 e1) = true ->
  SFltb p (S754_finite false m2 e2) = true
  /\ SFltb (S754_finite false m2 e2) p = false.
Proof.
  intros He. destruct p as [s| s | | s m e]; cbv [SFltb SFcompare].
  - now destruct s.
  - now destruct s.
  - discriminate.
  - destruct s; [easy|].
    destruct (Z.compare_spec e e1) as [->| He1 | He1]; try discriminate; intros _.
    + destruct (Z.compare_spec e1 e2), (Z.compare_spec e2 e1); solve [lia | easy].
    + destruct (Z.compare_spec e e2), (Z.compare_spec e2 e); solve [lia | easy].
Qed.

Lemma SFltb_finite_neither (p : spec_float) (m1 : positive) (e1 : Z) :
  p <> S754_nan ->
  SFltb p (S754_finite false m1 e1) = false ->
  SFltb (S754_finite false m1 e1) p = false ->
  p = S754_finite false m1 e1.
Proof.
  destruct p as [s| s | | s m e]; cbv [SFltb SFcompare];
    try congruence; try (destruct s; cbn; congruence).
  intros _. destruct s; [discriminate|].
  destruct (Z.compare_spec e e1) as [He | He | He],
    (Z.compare_spec e1 e) as [He'| He' | He']; try discriminate; try lia.
  subst e1.
  change (Pos.compare_cont Eq m m1) with (m ?= m1)%positive.
  change (Pos.compare_cont Eq m1 m) with (m1 ?= m)%positive.
  rewrite (Pos.compare_antisym m m1).
  destruct (Pos.compare_spec m m1) as [->| Hm | Hm]; simpl; congruence.
Qed.

(** A double below 35 is below 600. *)
Lemma below_min_below_max (w : float) :
  (w <? MIN_COLUMN_WIDTH)%float = true ->
  (w <? MAX_COLUMN_WIDTH)%float = true /\ (MAX_COLUMN_WIDTH <? w)%float = false.
Proof.
  rewrite !FloatAxioms.ltb_spec.
  change (Prim2SF MIN_COLUMN_WIDTH) with SF35.
  change (Prim2SF MAX_COLUMN_WIDTH) with SF600.
  apply SFltb_finite_trans. reflexivity.
Qed.

(** A double that is neither below nor above 35 is 35. *)
Lemma neither_is_min (w : float) :
  is_nan w = false ->
  (w <? MIN_COLUMN_WIDTH)%float = false ->
  (MIN_COLUMN_WIDTH <? w)%float = false ->
  w = MIN_COLUMN_WIDTH.
Proof.
  rewrite is_nan_false, !FloatAxioms.ltb_spec. intros Hn Hlt Hgt.
  apply Prim2SF_inj.
  change (Prim2SF MIN_COLUMN_WIDTH) with SF35 in *.
  now apply SFltb_finite_neither.
Qed.

(** [Math.max(Math.min(w, 35), 600)] is 600 whatever the number [w]. *)
Lemma max_min_width (w : float) :
  is_nan w = false ->
  JsNumber.Math_max (JsNumber.Math_min w MIN_COLUMN_WIDTH) MAX_COLUMN_WIDTH
  = MAX_COLUMN_WIDTH.
Proof.
  intros Hw.
  assert (Hmin : JsNumber.Math_min w MIN_COLUMN_WIDTH = w
                 /\ (w <? MIN_COLUMN_WIDTH)%float = true
                 \/ JsNumber.Math_min w MIN_COLUMN_WIDTH = MIN_COLUMN_WIDTH).
  { unfold JsNumber.Math_min, JsNumber.lt. rewrite Hw.
    change (is_nan MIN_COLUMN_WIDTH) with false. cbv [orb].
    destruct (w <? MIN_COLUMN_WIDTH)%float eqn:Hlt; [now left|].
    destruct (MIN_COLUMN_WIDTH <? w)%float eqn:Hgt; [now right|].
    right. rewrite (neither_is_min w Hw Hlt Hgt). now destruct (classify _). }
  destruct Hmin as [[-> Hlt] | ->].
  - destruct (below_min_below_max w Hlt) as [Hlt' Hgt'].
    unfold JsNumber.Math_max, JsNumber.gt. rewrite Hw, Hgt', Hlt'.
    reflexivity.
  - reflexivity.
Qed.

(** NaN, which is no number, goes through both. *)
Lemma max_min_width_NaN :
  JsNumber.Math_max (JsNumber.Math_min nan MIN_COLUMN_WIDTH) MAX_COLUMN_WIDTH = nan.
Proof. reflexivity. Qed.

End FloatFacts.

(** ** Objects and error cells *)

Lemma lookupProp_setProp_eq (key : string) (v : JsValue) (props : list (string * JsValue)) :
  lookupProp key (setProp key v props) = v.
Proof.
  induction props as [|[k w] rest IH]; simpl.
  - now rewrite String.eqb_refl.
  - destruct (String.eqb k key) eqn:Hk; simpl; now rewrite Hk.
Qed.

Lemma lookupProp_setProp_ne (key key' : string) (v : JsValue)
    (props : list (string * JsValue)) :
  String.eqb key' key = false ->
  lookupProp key (setProp key' v props) = lookupProp key props.
Proof.
  intros Hne. induction props as [|[k w] rest IH]; simpl.
  - now rewrite Hne.
  - destruct (String.eqb k key') eqn:Hk; simpl.
    + apply String.eqb_eq in Hk. subst k. now rewrite Hne.
    + now rewrite IH.
Qed.

Lemma getErrorCell_isErrorCell (errorMsg errorDetails : string) :
  isErrorCell (getErrorCell errorMsg errorDetails).
Proof. now exists errorMsg, errorDetails. Qed.

(** The data of an error cell is its message, a string, and an error
    cell is a Text cell. *)
Lemma isErrorCell_data (cell : GridCell) :
  isErrorCell cell -> isString (data cell) = true.
Proof. now intros (m & d & ->). Qed.

Lemma isErrorCell_kind (cell : GridCell) :
  isErrorCell cell -> kind cell = GridCellKind.Text.
Proof. now intros (m & d & ->). Qed.

(** ** Progress cells *)

(** C1, as stated, fails: the raw value 2 is not clamped to 1 and
    labelled 100%, the progress template filled with it is an error
    cell. *)
Lemma fillProgressCell_does_not_clamp :
  notNullOrUndefined (JNumber 2) = true
  /\ JsNumber.isNaN (ToNumber (JNumber 2)) = false
  /\ clamp01 2 = 1%float
  /\ fillProgressCell progressTemplate (JNumber 2)
     = getErrorCell "Incompatible progress value: 2" "The value has to be between 0 and 1."
  /\ ~ clampedProgressCell progressTemplate (JNumber 2).
Proof.
  split; [reflexivity|]. split; [reflexivity|]. split; [reflexivity|].
  split; [vm_compute; reflexivity|].
  intros (Hkind & _). vm_compute in Hkind. discriminate.
Qed.

(** C1, amended: for a raw value that is not null and converts to a
    number [x], [fillProgressCell] validates instead of clamping.  When
    [x] is neither below 0 nor above 1 the cell returned is the template
    with [x] itself as value and [Math.round(x * 100)] followed by a
    percent sign as label; when [x] is below 0 or above 1 it is the error
    cell "Incompatible progress value". *)
Theorem fillProgressCell_validates (cell : GridCell) (raw : JsValue) :
  notNullOrUndefined raw = true ->
  JsNumber.isNaN (ToNumber raw) = false ->
  let x := ToNumber raw in
  let result := fillProgressCell cell raw in
  (JsNumber.lt x 0 = false -> JsNumber.gt x 1 = false ->
     kind result = kind cell
     /\ copyData result = Some (ToString raw)
     /\ getProp "value" (data result) = JNumber x
     /\ getProp "label" (data result) = JString (progressLabel x))
  /\ (JsNumber.lt x 0 = true \/ JsNumber.gt x 1 = true ->
        result = getErrorCell ("Incompatible progress value: " +:+ ToString raw)
                   "The value has to be between 0 and 1.").
Proof.
  intros Hraw Hnan x result. subst x result. unfold fillProgressCell.
  rewrite Hraw, Hnan. simpl negb. cbv iota. split.
  - intros -> ->. simpl orb. cbv iota. repeat split.
    + simpl. rewrite lookupProp_setProp_ne by reflexivity.
      apply lookupProp_setProp_eq.
    + simpl. apply lookupProp_setProp_eq.
  - intros [-> | ->]; [reflexivity|].
    now rewrite orb_true_r.
Qed.

(** The progress template filled with 0.5 and with 2. *)
Lemma fillProgressCell_validates_witness :
  (getProp "value" (data (fillProgressCell progressTemplate (JNumber 0.5))) = JNumber 0.5
   /\ getProp "label" (data (fillProgressCell progressTemplate (JNumber 0.5))) = JString "50%")
  /\ fillProgressCell progressTemplate (JNumber 2)
     = getErrorCell "Incompatible progress value: 2" "The value has to be between 0 and 1.".
Proof.
  split.
  - pose proof (fillProgressCell_validates progressTemplate (JNumber 0.5)
                  eq_refl eq_refl) as [H _].
    destruct (H eq_refl eq_refl) as (_ & _ & Hv & Hl).
    split; [exact Hv|]. rewrite Hl. vm_compute. reflexivity.
  - pose proof (fillProgressCell_validates progressTemplate (JNumber 2)
                  eq_refl eq_refl) as [_ H].
    rewrite (H (or_intror eq_refl)). vm_compute. reflexivity.
Defined.

(** ** Chart cells *)

Lemma ltb_nan_l (x y : float) : is_nan x = true -> (x <? y)%float = false.
Proof.
  intros Hx. destruct (x <? y)%float eqn:Hlt; [|reflexivity].
  apply FloatFacts.ltb_not_nan in Hlt. destruct Hlt. congruence.
Qed.

Lemma ltb_nan_r (x y : float) : is_nan y = true -> (x <? y)%float = false.
Proof.
  intros Hy. destruct (x <? y)%float eqn:Hlt; [|reflexivity].
  apply FloatFacts.ltb_not_nan in Hlt. destruct Hlt. congruence.
Qed.

(** A value that does not convert to a number leaves the state of the
    loop as it is: the callback's error cell goes nowhere. *)
Lemma chartStep_NaN (acc : float * float * list float) (value : JsValue) :
  JsNumber.isNaN (ToNumber value) = true -> chartStep acc value = acc.
Proof.
  destruct acc as [[maxValue minValue] converted]. intros Hnan.
  unfold chartStep, JsNumber.gt, JsNumber.lt.
  rewrite Hnan, (ltb_nan_l _ _ Hnan), (ltb_nan_r _ _ Hnan). reflexivity.
Qed.

Lemma chartStep_constant (v : float) (converted : list float) (value : JsValue) :
  is_nan v = false -> ToNumber value = v ->
  chartStep (v, v, converted) value = (v, v, converted ++ [v]).
Proof.
  intros Hv He. unfold chartStep, JsNumber.gt, JsNumber.lt, JsNumber.isNaN.
  now rewrite He, FloatFacts.ltb_irrefl, Hv.
Qed.

Lemma fold_chartStep_constant (v : float) (chartData : list JsValue) :
  is_nan v = false ->
  Forall (fun e => ToNumber e = v) chartData ->
  forall converted,
    fold_left chartStep chartData (v, v, converted)
    = (v, v, converted ++ repeat v (length chartData)).
Proof.
  intros Hv Hall.
  induction Hall as [|e rest He _ IH]; intros converted; cbn [fold_left length repeat].
  - now rewrite app_nil_r.
  - rewrite (chartStep_constant v converted e Hv He), IH, <- app_assoc.
    reflexivity.
Qed.

Lemma map_repeat {A B : Type} (f : A -> B) (a : A) (n : nat) :
  map f (repeat a n) = repeat (f a) n.
Proof. induction n as [|n IH]; simpl; congruence. Qed.

(** The chart filled from an array, as the loop leaves it. *)
Lemma fillChartCell_array_values (cell : GridCell) (chartData : list JsValue) :
  exists convertedChartData normalizedChartData,
    fillChartCell cell (JArray chartData)
    = with_data
        (JObject
           (setProp "displayValues" (numbers convertedChartData)
              (setProp "values" (numbers normalizedChartData)
                 (ownProps (customData cell)))))
        (with_copyData (JSON.stringifyNumbers convertedChartData) cell).
Proof.
  unfold fillChartCell. simpl negb. cbv iota.
  destruct chartData as [|first rest]; [now eexists _, _|].
  destruct (fold_left chartStep _ _) as [[maxValue minValue] converted].
  destruct (_ || _); now eexists _, _.
Qed.

(** A chart template filled from an array is never an error cell,
    whatever the array holds. *)
Lemma fillChartCell_array_not_error (cell : GridCell) (chartData : list JsValue) :
  ~ isErrorCell (fillChartCell cell (JArray chartData)).
Proof.
  destruct (fillChartCell_array_values cell chartData) as (c & n & ->).
  intros H. apply isErrorCell_data in H. discriminate.
Qed.

(** A value that is neither [null] nor [undefined] nor an array nor a
    vector gives the error cell "Incompatible chart value". *)
Lemma fillChartCell_not_array (cell : GridCell) (raw : JsValue) :
  notNullOrUndefined raw = true ->
  (forall l, raw <> JArray l) -> (forall a l r, raw <> JVector a l r) ->
  fillChartCell cell raw
  = getErrorCell ("Incompatible chart value: " +:+ ToString raw)
      "The provided value is not an array.".
Proof.
  intros Hraw Harr Hvec. unfold fillChartCell. rewrite Hraw. simpl negb. cbv iota.
  destruct raw; try reflexivity.
  - now destruct (Harr elems).
  - now destruct (Hvec array elems repr).
Qed.

(** C2: the code at an array holding an element that is no number.
    ["a"] converts to NaN; the line chart template filled from
    [[1, "a", 3]] is the chart of [[1, 3]], the element being dropped,
    and not an error cell.  The [return getErrorCell(...)] that was to
    report it sits in the callback of [forEach]. *)
Theorem fillChartCell_drops_NaN_element :
  JsNumber.isNaN (ToNumber (JString "a")) = true
  /\ fillChartCell lineChartTemplate (JArray [JNumber 1; JString "a"; JNumber 3])
     = fillChartCell lineChartTemplate (JArray [JNumber 1; JNumber 3])
  /\ getProp "displayValues"
       (data (fillChartCell lineChartTemplate (JArray [JNumber 1; JString "a"; JNumber 3])))
     = JArray [JNumber 1; JNumber 3]
  /\ ~ isErrorCell
         (fillChartCell lineChartTemplate (JArray [JNumber 1; JString "a"; JNumber 3])).
Proof.
  split; [reflexivity|]. split; [vm_compute; reflexivity|].
  split; [vm_compute; reflexivity|].
  apply fillChartCell_array_not_error.
Qed.

(** C10: a constant array of length at least 1 whose common number [v] is
    above 1 or below 0 is normalized by [(v - v) / (v - v)]: every one of
    the values of the chart returned is NaN, which is neither at least 0
    nor at most 1, while the display values are [v]. *)
Theorem fillChartCell_constant_array_NaN (cell : GridCell) (chartData : list JsValue)
    (v : float) :
  chartData <> [] ->
  Forall (fun e => ToNumber e = v) chartData ->
  JsNumber.gt v 1 = true \/ JsNumber.lt v 0 = true ->
  let result := fillChartCell cell (JArray chartData) in
  getProp "values" (data result) = numbers (repeat nan (length chartData))
  /\ getProp "displayValues" (data result) = numbers (repeat v (length chartData))
  /\ JsNumber.isNaN nan = true
  /\ (0 <=? nan)%float = false /\ (nan <=? 1)%float = false.
Proof.
  intros Hne Hall Hrange result.
  assert (Hv : is_nan v = false).
  { destruct Hrange as [H | H]; apply FloatFacts.ltb_not_nan in H; tauto. }
  assert (Hcond : JsNumber.gt v 1 || JsNumber.lt v 0 = true).
  { destruct Hrange as [-> | ->]; [reflexivity | apply orb_true_r]. }
  subst result. unfold fillChartCell. simpl negb. cbv iota.
  destruct chartData as [|first rest]; [congruence|].
  assert (Hfirst : ToNumber first = v) by now inversion Hall.
  rewrite Hfirst, (fold_chartStep_constant v (first :: rest) Hv Hall []).
  rewrite Hcond. rewrite app_nil_l, map_repeat, FloatFacts.sub_self_div.
  repeat split.
  - cbn [data with_data getProp].
    rewrite lookupProp_setProp_ne by reflexivity.
    apply lookupProp_setProp_eq.
  - cbn [data with_data getProp]. apply lookupProp_setProp_eq.
Qed.

(** The line chart template filled with [[5, 5]]. *)
Lemma fillChartCell_constant_array_NaN_witness :
  getProp "values" (data (fillChartCell lineChartTemplate (JArray [JNumber 5; JNumber 5])))
  = JArray [JNumber nan; JNumber nan].
Proof.
  refine (proj1 (fillChartCell_constant_array_NaN lineChartTemplate
                   [JNumber 5; JNumber 5] 5 _ _ _)).
  - discriminate.
  - repeat constructor.
  - left. reflexivity.
Defined.

(** ** Boolean cells *)

(** C3, as stated, fails: [null] is not a boolean, and the boolean
    template filled with it is not an error cell. *)
Lemma fillBooleanCell_null_not_error :
  isBoolean JNull = false
  /\ fillBooleanCell booleanTemplate JNull = with_data JNull booleanTemplate
  /\ ~ errorIffNotBoolean booleanTemplate JNull.
Proof.
  split; [reflexivity|]. split; [reflexivity|].
  intros [_ H]. specialize (H eq_refl). apply isErrorCell_kind in H. discriminate.
Qed.

(** C3, amended: a boolean yields the cell carrying it, [null] and
    [undefined] yield the cell carrying them, and the result is an error
    cell, "Incompatible boolean value", if and only if the value is
    neither a boolean nor [null] nor [undefined]. *)
Theorem fillBooleanCell_error_iff (cell : GridCell) (raw : JsValue) :
  (forall b, raw = JBool b -> fillBooleanCell cell raw = with_data (JBool b) cell)
  /\ (notNullOrUndefined raw = false -> fillBooleanCell cell raw = with_data raw cell)
  /\ (notNullOrUndefined raw = true -> isBoolean raw = false ->
        fillBooleanCell cell raw
        = getErrorCell ("Incompatible boolean value: " +:+ ToString raw) "")
  /\ (isErrorCell (fillBooleanCell cell raw)
      <-> notNullOrUndefined raw = true /\ isBoolean raw = false).
Proof.
  unfold fillBooleanCell. split; [|split; [|split; [|split]]].
  - now intros b ->.
  - now intros ->.
  - now intros -> ->.
  - destruct (notNullOrUndefined raw) eqn:Hn, (isBoolean raw) eqn:Hb; cbn [andb negb];
      intros H; try tauto; apply isErrorCell_data in H; now destruct raw.
  - intros [-> ->]. apply getErrorCell_isErrorCell.
Qed.

(** The boolean template filled with [true] and with ["yes"]. *)
Lemma fillBooleanCell_error_iff_witness :
  fillBooleanCell booleanTemplate (JBool true) = with_data (JBool true) booleanTemplate
  /\ fillBooleanCell booleanTemplate (JString "yes")
     = getErrorCell "Incompatible boolean value: yes" "".
Proof.
  split.
  - exact (proj1 (fillBooleanCell_error_iff booleanTemplate (JBool true)) true eq_refl).
  - exact (proj1 (proj2 (proj2 (fillBooleanCell_error_iff booleanTemplate (JString "yes"))))
             eq_refl eq_refl).
Defined.

(** ** Filling a template *)

Lemma cellKindOf_no_kind (cell : GridCell) :
  kind cell = GridCellKind.Custom -> getProp "kind" (data cell) = JUndefined ->
  cellKindOf cell = JUndefined.
Proof.
  unfold cellKindOf. intros -> ->. now destruct (notNullOrUndefined _).
Qed.

(** ** Templates *)

Lemma getCellTemplate_returns (type : ColumnType) (readonly isIndex : bool) :
  In type ColumnType.values ->
  exists cell, getCellTemplate type readonly isIndex = Ok cell.
Proof.
  intros Hin. cbv [ColumnType.values In] in Hin.
  repeat destruct Hin as [<- | Hin]; try contradiction; now eexists.
Qed.

(** C6, as stated, fails: the template of a line chart column that is an
    index has no style at all. *)
Lemma lineChart_template_not_faded :
  In ColumnType.LineChart ColumnType.values
  /\ (exists cell, getCellTemplate ColumnType.LineChart true true = Ok cell
                   /\ style cell = None)
  /\ ~ styledTemplate ColumnType.LineChart true true.
Proof.
  split; [cbv; tauto|]. split; [now eexists|].
  intros (cell & Hcell & _ & Hstyle). injection Hcell as <-.
  destruct Hstyle as [_ H]. specialize (H eq_refl). discriminate.
Qed.

(** C6, amended: for each of the nine column types [getCellTemplate]
    returns a template of the matching kind; the templates of the six
    types Text, Number, Boolean, List, Url and Image carry the style
    "faded" when [isIndex] is true and "normal" otherwise, the templates
    of the three chart types carry no style; for every other argument it
    throws "Unsupported cell type: " followed by the argument. *)
Theorem getCellTemplate_closed (type : ColumnType) (readonly isIndex : bool) :
  (In type ColumnType.values ->
   exists cell,
     getCellTemplate type readonly isIndex = Ok cell
     /\ cellKindOf cell = JString (matchingKind type)
     /\ style cell = if isChartType type then None
                     else Some (if isIndex then "faded" else "normal"))
  /\ (~ In type ColumnType.values ->
      getCellTemplate type readonly isIndex = Throw ("Unsupported cell type: " +:+ type)).
Proof.
  split.
  - intros Hin. cbv [ColumnType.values In] in Hin.
    repeat destruct Hin as [<- | Hin]; try contradiction;
      (eexists; split; [reflexivity|]; split; reflexivity).
  - intros Hout. unfold getCellTemplate.
    repeat match goal with
           | |- context [String.eqb type ?c] =>
               destruct (String.eqb_spec type c) as [-> | _];
               [exfalso; apply Hout; cbv; tauto|]
           end.
    reflexivity.
Qed.

(** The template of a Number index column, and the type "markdown". *)
Lemma getCellTemplate_closed_witness :
  (exists cell, getCellTemplate ColumnType.Number false true = Ok cell
                /\ cellKindOf cell = JString "number"
                /\ style cell = Some "faded")
  /\ getCellTemplate "markdown" false true = Throw "Unsupported cell type: markdown".
Proof.
  split.
  - refine (proj1 (getCellTemplate_closed ColumnType.Number false true) _).
    cbv. tauto.
  - refine (proj2 (getCellTemplate_closed "markdown" false true) _).
    cbv [ColumnType.values In]. intros H.
    repeat destruct H as [H | H]; try discriminate H. exact H.
Defined.

(** ** Column types *)

Lemma quiverColumnType_closed (name : string) :
  In (quiverColumnType name) ColumnType.values.
Proof.
  unfold quiverColumnType.
  destruct (String.eqb name "bool"); [cbv; tauto|].
  destruct (includes _ name); [cbv; tauto|].
  destruct (JsString.startsWith name "list"); cbv; tauto.
Qed.

Lemma getColumnTypeFromQuiver_table (quiverType : QuiverType) (name : string) :
  typeName quiverType = Some name ->
  getColumnTypeFromQuiver quiverType = quiverColumnType (normalized name).
Proof.
  intros Hname. unfold getColumnTypeFromQuiver, normalized. rewrite Hname.
  destruct (String.eqb_spec name "") as [-> | _]; [reflexivity|].
  set (n := JsString.trim (JsString.toLowerCase name)). clearbody n.
  unfold includes. cbn [existsb].
  repeat match goal with
         | |- context [String.eqb n ?c || _] =>
             lazymatch c with
             | "unicode" => idtac | "date" => idtac
             | "datetime" => idtac | "datetimetz" => idtac
             end;
             destruct (String.eqb_spec n c) as [-> | _]; [reflexivity|];
             cbn [orb]
         end.
  reflexivity.
Qed.

(** C7: both inferences land in the closed set of nine column types.
    [getColumnTypeFromQuiver] follows the table of the specification on
    the lowercased and trimmed type name: "bool" gives Boolean, "int64",
    "float64" and "range" give Number, a name starting with "list" gives
    List, every other name, "unicode", "date", "datetime" and
    "datetimetz" among them, and a missing name give Text.
    [getColumnTypeFromConfig] returns the lowercased and trimmed
    configuration string when that is one of the nine values, and Text
    for every other string and for a missing one.  What is said through
    the lowercased and trimmed name is said of names of the ASCII
    range. *)
Theorem column_type_inference :
  (forall quiverType, In (getColumnTypeFromQuiver quiverType) ColumnType.values)
  /\ (forall quiverType name,
        typeName quiverType = Some name ->
        JsString.isAscii name = true ->
        let n := normalized name in
        (n = "bool" -> getColumnTypeFromQuiver quiverType = ColumnType.Boolean)
        /\ (In n ["int64"; "float64"; "range"] ->
            getColumnTypeFromQuiver quiverType = ColumnType.Number)
        /\ (JsString.startsWith n "list" = true ->
            getColumnTypeFromQuiver quiverType = ColumnType.List)
        /\ (n <> "bool" -> ~ In n ["int64"; "float64"; "range"] ->
            JsString.startsWith n "list" = false ->
            getColumnTypeFromQuiver quiverType = ColumnType.Text)
        /\ (In n ["unicode"; "date"; "datetime"; "datetimetz"] ->
            getColumnTypeFromQuiver quiverType = ColumnType.Text))
  /\ (forall quiverType,
        typeName quiverType = None -> getColumnTypeFromQuiver quiverType = ColumnType.Text)
  /\ (forall typeName, In (getColumnTypeFromConfig typeName) ColumnType.values)
  /\ (forall typeName,
        JsString.isAscii typeName = true ->
        In (normalized typeName) ColumnType.values ->
        getColumnTypeFromConfig (Some typeName) = normalized typeName)
  /\ (forall typeName,
        JsString.isAscii typeName = true ->
        ~ In (normalized typeName) ColumnType.values ->
        getColumnTypeFromConfig (Some typeName) = ColumnType.Text)
  /\ getColumnTypeFromConfig (Some "") = ColumnType.Text
  /\ getColumnTypeFromConfig None = ColumnType.Text.
Proof.
  assert (Hvalues : forall n,
             existsb (fun type => String.eqb type n) ColumnType.values = true
             <-> In n ColumnType.values).
  { intros n. rewrite existsb_exists. split.
    - intros (x & Hx & Heq). apply String.eqb_eq in Heq. now subst.
    - intros Hn. exists n. split; [assumption | apply String.eqb_refl]. }
  split; [|split; [|split; [|split; [|split; [|split; [|split]]]]]].
  - intros quiverType. destruct (typeName quiverType) as [name|] eqn:Hname.
    + rewrite (getColumnTypeFromQuiver_table _ _ Hname).
      apply quiverColumnType_closed.
    + unfold getColumnTypeFromQuiver. rewrite Hname. cbv; tauto.
  - intros quiverType name Hname _ n.
    rewrite (getColumnTypeFromQuiver_table _ _ Hname). fold n. clearbody n.
    unfold quiverColumnType, includes. cbn [existsb In].
    split; [|split; [|split; [|split]]].
    + now intros ->.
    + intros [<- | [<- | [<- | []]]]; reflexivity.
    + intros Hlist. rewrite Hlist.
      destruct n as [|c n]; [discriminate|]. unfold JsString.startsWith in Hlist.
      cbn [String.prefix] in Hlist.
      destruct (Ascii.ascii_dec "l" c) as [<- | _]; [|discriminate].
      destruct n as [|c n]; [discriminate|].
      cbn [String.prefix] in Hlist.
      destruct (Ascii.ascii_dec "i" c) as [<- | _]; [|discriminate].
      reflexivity.
    + intros Hbool Hnum ->.
      destruct (String.eqb_spec n "bool") as [-> | _]; [congruence|].
      repeat match goal with
             | |- context [String.eqb n ?c || _] =>
                 destruct (String.eqb_spec n c) as [-> | _]; [exfalso; tauto|];
                 cbn [orb]
             end.
      reflexivity.
    + intros [<- | [<- | [<- | [<- | []]]]]; reflexivity.
  - intros quiverType Hname. unfold getColumnTypeFromQuiver. now rewrite Hname.
  - intros [typeName|]; [|cbv; tauto]. unfold getColumnTypeFromConfig.
    destruct (String.eqb typeName ""); [cbv; tauto|].
    destruct (existsb _ _) eqn:Hex; [|cbv; tauto].
    now apply Hvalues.
  - intros typeName _ Hin. unfold getColumnTypeFromConfig.
    destruct (String.eqb_spec typeName "") as [-> | _].
    + exfalso. cbv in Hin.
      repeat destruct Hin as [Hin | Hin]; try discriminate Hin. exact Hin.
    + fold (normalized typeName). now rewrite (proj2 (Hvalues _) Hin).
  - intros typeName _ Hout. unfold getColumnTypeFromConfig.
    destruct (String.eqb typeName ""); [reflexivity|].
    fold (normalized typeName).
    destruct (existsb _ _) eqn:Hex; [|reflexivity].
    now apply Hvalues in Hex.
  - reflexivity.
  - reflexivity.
Qed.

(** Some type names of the reader and of a configuration. *)
Lemma column_type_inference_witness :
  getColumnTypeFromQuiver {| typeName := Some " Float64 " |} = ColumnType.Number
  /\ getColumnTypeFromQuiver {| typeName := Some "list[unicode]" |} = ColumnType.List
  /\ getColumnTypeFromQuiver {| typeName := Some "categorical" |} = ColumnType.Text
  /\ getColumnTypeFromConfig (Some " Bar-Chart ") = ColumnType.BarChart
  /\ getColumnTypeFromConfig (Some "currency") = ColumnType.Text.
Proof.
  destruct column_type_inference as (_ & Hq & _ & _ & Hc & Hc' & _).
  split; [|split; [|split; [|split]]].
  - refine (proj1 (proj2 (Hq {| typeName := Some " Float64 " |} _ eq_refl eq_refl)) _).
    cbv. tauto.
  - exact (proj1 (proj2 (proj2 (Hq {| typeName := Some "list[unicode]" |} _
                                  eq_refl eq_refl)))
             eq_refl).
  - refine (proj1 (proj2 (proj2 (proj2
              (Hq {| typeName := Some "categorical" |} _ eq_refl eq_refl)))) _ _ eq_refl).
    + discriminate.
    + cbv. intros H. repeat destruct H as [H | H]; try discriminate H. exact H.
  - refine (Hc " Bar-Chart " eq_refl _). cbv. tauto.
  - refine (Hc' "currency" eq_refl _). cbv. intros H.
    repeat destruct H as [H | H]; try discriminate H. exact H.
Defined.

(** ** Column configuration *)

(** C9: whenever the configuration found for a column specifies a width
    [w] that is a number, the column [applyColumnConfig] returns has the
    width [MAX_COLUMN_WIDTH], which is 600, whatever [w] is: the width is
    [Math.max(Math.min(w, MIN_COLUMN_WIDTH), MAX_COLUMN_WIDTH)] with
    [MIN_COLUMN_WIDTH] 35. *)
Theorem applyColumnConfig_width_is_max (column updated : GridColumnWithCellTemplate)
    (columnsConfig : gmap (nat + string) ColumnConfigProps)
    (columnConfig : ColumnConfigProps) (w : float) :
  configOf column columnsConfig = Some columnConfig ->
  cfg_width columnConfig = Some w ->
  JsNumber.isNaN w = false ->
  applyColumnConfig column (Some columnsConfig) = Some updated ->
  width updated
  = Some (JsNumber.Math_max (JsNumber.Math_min w MIN_COLUMN_WIDTH) MAX_COLUMN_WIDTH)
  /\ width updated = Some MAX_COLUMN_WIDTH
  /\ MAX_COLUMN_WIDTH = 600%float
  /\ MIN_COLUMN_WIDTH = 35%float.
Proof.
  intros Hcfg Hw Hnan Happly. unfold applyColumnConfig in Happly.
  fold (configOf column columnsConfig) in Happly. rewrite Hcfg, Hw in Happly.
  destruct (bool_decide _); [discriminate|].
  injection Happly as <-. cbn [width].
  rewrite (FloatFacts.max_min_width w Hnan). repeat split.
Qed.

(** A column configured with a width of 120 comes out 600 wide. *)
Lemma applyColumnConfig_width_is_max_witness :
  exists updated,
    applyColumnConfig nameColumn (Some nameConfig) = Some updated
    /\ width updated = Some 600%float.
Proof.
  eexists. split; [reflexivity|].
  exact (proj1 (proj2 (applyColumnConfig_width_is_max nameColumn _ nameConfig
                         width120 120 eq_refl eq_refl eq_refl eq_refl))).
Defined.

(** ** The editing cache *)

Lemma EditingCache_get_set_eq (cachedContent : EditingCache.t) (col row : nat)
    (value : GridCell) :
  EditingCache.get (EditingCache.set cachedContent col row value) col row = Some value.
Proof.
  unfold EditingCache.get, EditingCache.set.
  destruct (cachedContent !! col) as [rowCache|] eqn:Hcol.
  - rewrite Hcol. now rewrite !lookup_insert_eq.
  - now rewrite !lookup_insert_eq.
Qed.

Lemma EditingCache_get_set_ne (cachedContent : EditingCache.t) (col row col' row' : nat)
    (value : GridCell) :
  (col', row') <> (col, row) ->
  EditingCache.get (EditingCache.set cachedContent col row value) col' row'
  = EditingCache.get cachedContent col' row'.
Proof.
  intros Hne. unfold EditingCache.get, EditingCache.set.
  destruct (decide (col' = col)) as [-> | Hcol'].
  - assert (Hrow : row ≠ row') by congruence.
    destruct (cachedContent !! col) as [rowCache|] eqn:Hcol.
    + rewrite Hcol, lookup_insert_eq. now rewrite lookup_insert_ne.
    + rewrite !lookup_insert_eq. now rewrite lookup_insert_ne.
  - destruct (cachedContent !! col) as [rowCache|] eqn:Hcol.
    + rewrite Hcol. now rewrite lookup_insert_ne.
    + rewrite lookup_insert_eq. now rewrite !lookup_insert_ne.
Qed.

(** C4, as stated, fails: with the one column [nameColumn], a cell cached
    under column 1 is not what [getCellContent] returns at column 1; the
    check of the column against the number of columns comes first and
    answers with an empty Text template. *)
Lemma getCellContent_column_check_first :
  EditingCache.get (editingCache (editedState 1)) 1 0 = Some editedCell
  /\ fst (getCellContent [nameColumn] (1%nat, 0%nat) (editedState 1))
     = getCellTemplate ColumnType.Text true false
  /\ ~ cachedCellReturned [nameColumn] (editedState 1) 1 0.
Proof.
  split; [reflexivity|]. split; [reflexivity|].
  intros H. specialize (H eq_refl editedCell eq_refl).
  vm_compute in H. discriminate.
Qed.

(** C4, amended: the cache is a map from (column, row) to a cell: after
    [set(col, row, cell)], [get(col, row)] is that cell and [get] at
    every other coordinate is what it was; and on a table that is not
    empty, at a column of the grid ([col <= columns.length - 1]) with a
    cached entry, [getCellContent] returns the cached cell and neither
    reads the table nor changes the state. *)
Theorem editing_cache_overlay :
  (forall cachedContent col row value,
      EditingCache.get (EditingCache.set cachedContent col row value) col row = Some value)
  /\ (forall cachedContent col row col' row' value,
        (col', row') <> (col, row) ->
        EditingCache.get (EditingCache.set cachedContent col row value) col' row'
        = EditingCache.get cachedContent col' row')
  /\ (forall columns s col row cell,
        isEmpty (source s) = false ->
        (col < length columns)%nat ->
        EditingCache.get (editingCache s) col row = Some cell ->
        getCellContent columns (col, row) s = (Ok cell, s)).
Proof.
  split; [exact EditingCache_get_set_eq|]. split; [exact EditingCache_get_set_ne|].
  intros columns s col row cell Hdata Hcol Hcached.
  unfold getCellContent, bind, getData, cacheGet, ret. cbv beta iota.
  rewrite Hdata.
  destruct (Z.gtb_spec (Z.of_nat col) (Z.of_nat (length columns) - 1)); [lia|].
  now rewrite Hcached.
Qed.

(** With the one column [nameColumn], the cell cached under column 0 is
    what a read of column 0 returns. *)
Lemma editing_cache_overlay_witness :
  getCellContent [nameColumn] (0%nat, 0%nat) (editedState 0) = (Ok editedCell, editedState 0).
Proof.
  refine (proj2 (proj2 editing_cache_overlay) [nameColumn] (editedState 0) 0%nat 0%nat
            editedCell eq_refl _ eq_refl).
  cbn. lia.
Defined.

(** ** Frame properties of the loader *)

Section Frames.

Variable R : State -> State -> Prop.
Hypothesis R_refl : forall s, R s s.
Hypothesis R_trans : forall s1 s2 s3, R s1 s2 -> R s2 s3 -> R s1 s3.

Lemma keeps_ret {A : Type} (a : A) : keeps R (ret a).
Proof. intros s. apply R_refl. Qed.

Lemma keeps_call {A : Type} (r : Result A) : keeps R (call r).
Proof. intros s. apply R_refl. Qed.

Lemma keeps_getData : keeps R getData.
Proof. intros s. apply R_refl. Qed.

Lemma keeps_cacheGet (col row : nat) : keeps R (cacheGet col row).
Proof. intros s. apply R_refl. Qed.

Lemma keeps_bind {A B : Type} (m : M A) (f : A -> M B) :
  keeps R m -> (forall a, keeps R (f a)) -> keeps R (bind m f).
Proof.
  intros Hm Hf s. unfold bind. specialize (Hm s).
  destruct (m s) as [[a | e] s']; cbn in *.
  - eapply R_trans; [exact Hm | apply Hf].
  - exact Hm.
Qed.

Lemma keeps_tryCatch {A : Type} (body : M A) (handler : string -> M A) :
  keeps R body -> (forall e, keeps R (handler e)) -> keeps R (tryCatch body handler).
Proof.
  intros Hm Hh s. unfold tryCatch. specialize (Hm s).
  destruct (body s) as [[a | e] s']; cbn in *.
  - exact Hm.
  - eapply R_trans; [exact Hm | apply Hh].
Qed.

End Frames.

(** ** Objects: what the cell functions build and what they keep *)

Section Builds.

(** The state a call starts in and the value the cell it builds may
    share objects with. *)
Variable s0 : Heap.State.
Variable root : Heap.Val.

Lemma objectsKept_length (s s' : Heap.State) :
  objectsKept s s' -> length (Heap.store s) <= length (Heap.store s').
Proof.
  intros Hkept. destruct (Heap.store s) as [|o l] eqn:E using rev_ind; [cbn; lia|].
  specialize (Hkept (length l) o). rewrite E in Hkept.
  rewrite lookup_app_r, Nat.sub_diag in Hkept by lia.
  apply lookup_lt_Some in Hkept; [|reflexivity].
  rewrite length_app. cbn. lia.
Qed.

Lemma grown_refl : grown s0 root s0.
Proof.
  split; [now intros l o|]. split; [now repeat split|].
  intros l o Hl Ho. apply lookup_lt_Some in Ho. lia.
Qed.

Lemma own_clean (v : Heap.Val) : own s0 v -> clean s0 root v.
Proof. intros (l & -> & Hl). now left. Qed.

Lemma clean_held (s : Heap.State) (l : Heap.loc) (o : Heap.Obj) :
  grown s0 root s -> clean s0 root (Heap.VRef l) -> Heap.store s !! l = Some o ->
  Forall (clean s0 root) (held o).
Proof.
  intros (Hkept & _ & Hnew) Hclean Ho.
  destruct (Nat.le_gt_cases (length (Heap.store s0)) l) as [Hl | Hl];
    [now apply (Hnew l)|].
  destruct Hclean as [Hge | Hreach]; [lia|].
  destruct (lookup_lt_is_Some_2 (Heap.store s0) l Hl) as [o0 Ho0].
  rewrite (Hkept _ _ Ho0) in Ho. injection Ho as <-.
  apply Forall_forall. intros v Hv.
  destruct v as [ | | | | | | l']; try exact I.
  right. apply (reaches_held s0 root l l' o0 Hreach Ho0).
  now apply list_elem_of_In.
Qed.

Lemma clean_setProp (key : string) (v : Heap.Val) (props : list (string * Heap.Val)) :
  clean s0 root v -> Forall (clean s0 root) (map snd props) ->
  Forall (clean s0 root) (map snd (Heap.setProp key v props)).
Proof.
  intros Hv. induction props as [|[k w] props IH]; cbn; intros Hprops.
  - now constructor.
  - inversion Hprops as [|? ? Hw Hrest]; subst.
    destruct (String.eqb k key); cbn; constructor; auto.
Qed.

Lemma clean_setProps (entries props : list (string * Heap.Val)) :
  Forall (clean s0 root) (map snd entries) ->
  Forall (clean s0 root) (map snd props) ->
  Forall (clean s0 root)
    (map snd (fold_left (fun props entry =>
                           Heap.setProp (fst entry) (snd entry) props) entries props)).
Proof.
  revert props. induction entries as [|[k v] entries IH]; cbn; intros props He Hp;
    [exact Hp|].
  inversion He; subst. apply IH; [assumption|]. now apply clean_setProp.
Qed.

Lemma clean_lookupProp (key : string) (props : list (string * Heap.Val)) :
  Forall (clean s0 root) (map snd props) -> clean s0 root (Heap.lookupProp key props).
Proof.
  induction props as [|[k w] props IH]; cbn; intros Hprops; [exact I|].
  inversion Hprops; subst. destruct (String.eqb k key); auto.
Qed.

Lemma clean_indexedFrom {A : Type} (f : A -> Heap.Val) (i : nat) (l : list A) :
  Forall (clean s0 root) (map f l) ->
  Forall (clean s0 root) (map snd (Heap.indexedFrom f i l)).
Proof.
  revert i. induction l as [|a l IH]; cbn; intros i Hl; [constructor|].
  inversion Hl; subst. constructor; auto.
Qed.

Lemma clean_ownPropsAt (s : Heap.State) (v : Heap.Val) :
  grown s0 root s -> clean s0 root v ->
  Forall (clean s0 root) (map snd (Heap.ownPropsAt (Heap.store s) v)).
Proof.
  intros Hs Hv. destruct v as [ | | | | str | | l]; cbn; try constructor.
  - apply clean_indexedFrom, Forall_forall. intros v Hin.
    apply list_elem_of_In, in_map_iff in Hin as (c & <- & _). exact I.
  - destruct (Heap.store s !! l) as [o|] eqn:Ho; [|constructor].
    pose proof (clean_held s l o Hs Hv Ho) as Hheld.
    destruct o as [props | elems | elems | array elems repr]; cbn in *.
    + exact Hheld.
    + apply clean_indexedFrom. now rewrite map_id.
    + apply clean_indexedFrom, Forall_forall. intros v Hin.
      apply list_elem_of_In, in_map_iff in Hin as (c & <- & _). exact I.
    + constructor.
Qed.

(** *** The rules of the calls *)

Lemma builds_conseq {A : Type} (m : Heap.H A) (Q R : A -> Heap.State -> Prop) :
  builds s0 root m Q -> (forall a s, Q a s -> R a s) -> builds s0 root m R.
Proof.
  intros Hm HQR s Hs. destruct (Hm s Hs) as [Hs' HQ]. split; [exact Hs'|].
  intros a Ha. apply HQR, HQ, Ha.
Qed.

Lemma builds_ret {A : Type} (a : A) (Q : A -> Heap.State -> Prop) :
  (forall s, Q a s) -> builds s0 root (Heap.ret a) Q.
Proof. intros HQ s Hs. split; [exact Hs|]. intros a' [= <-]. apply HQ. Qed.

Lemma builds_bind {A B : Type} (m : Heap.H A) (f : A -> Heap.H B)
    (P : A -> Prop) (R : B -> Heap.State -> Prop) :
  builds s0 root m (fun a _ => P a) ->
  (forall a, P a -> builds s0 root (f a) R) ->
  builds s0 root (Heap.bind m f) R.
Proof.
  intros Hm Hf s Hs. unfold Heap.bind. destruct (Hm s Hs) as [Hs' HP].
  destruct (m s) as [[a | e] s']; cbn [fst snd] in *.
  - apply Hf; [now apply HP|exact Hs'].
  - split; [exact Hs'|discriminate].
Qed.

Lemma builds_call {A : Type} (r : Result A) :
  builds s0 root (Heap.call r) (fun _ _ => True).
Proof. intros s Hs. now split. Qed.

Lemma builds_read (v : Heap.Val) :
  builds s0 root (Heap.read v)
    (fun a _ => forall l, v = Heap.VRef l -> isString a || negb (notNullOrUndefined a)
                                             || isBoolean a || isNumber a = false).
Proof.
  intros s Hs. split; [exact Hs|]. intros a [= <-] l ->.
  unfold Heap.valueAt. destruct (length (Heap.store s)) as [|fuel]; [reflexivity|].
  cbn. destruct (Heap.store s !! l) as [[ | | | ]|]; reflexivity.
Qed.

Lemma clean_fieldAt (s : Heap.State) (key : string) (v : Heap.Val) :
  grown s0 root s -> clean s0 root v -> clean s0 root (Heap.fieldAt (Heap.store s) key v).
Proof.
  intros Hs Hv. destruct v as [ | | | | | | l]; try exact I. cbn.
  destruct (Heap.store s !! l) as [o|] eqn:Ho; [|exact I].
  pose proof (clean_held s l o Hs Hv Ho) as Hheld.
  destruct o; try exact I. now apply clean_lookupProp.
Qed.

Lemma builds_getFieldOpt (key : string) (v : Heap.Val) :
  clean s0 root v ->
  builds s0 root (Heap.getFieldOpt key v) (fun w _ => clean s0 root w).
Proof.
  intros Hv s Hs. split; [exact Hs|]. intros w [= <-]. now apply clean_fieldAt.
Qed.

Lemma builds_getField (key : string) (v : Heap.Val) :
  builds s0 root (Heap.getField key v) (fun _ _ => True).
Proof. intros s Hs. unfold Heap.getField. now destruct (Heap.nullish v). Qed.

Lemma builds_getFieldOpt_any (key : string) (v : Heap.Val) :
  builds s0 root (Heap.getFieldOpt key v) (fun _ _ => True).
Proof. intros s Hs. now split. Qed.

Lemma builds_ownProps (v : Heap.Val) :
  clean s0 root v ->
  builds s0 root (Heap.ownProps v)
    (fun props _ => Forall (clean s0 root) (map snd props)).
Proof.
  intros Hv s Hs. split; [exact Hs|]. intros props [= <-].
  now apply clean_ownPropsAt.
Qed.

Lemma builds_elements (v : Heap.Val) :
  builds s0 root (Heap.elements v) (fun _ _ => True).
Proof. intros s Hs. now split. Qed.

Lemma builds_elements_own (v : Heap.Val) :
  own s0 v ->
  builds s0 root (Heap.elements v) (fun elems _ => Forall (clean s0 root) elems).
Proof.
  intros Hv s Hs. split; [exact Hs|]. intros elems [= <-].
  destruct Hv as (l & -> & Hl). cbn.
  destruct (Heap.store s !! l) as [o|] eqn:Ho; [|constructor].
  pose proof (clean_held s l o Hs (or_introl Hl) Ho) as Hheld.
  destruct o as [props | elems | elems | array elems repr]; cbn in *;
    try constructor; [exact Hheld|].
  apply Forall_forall. intros v Hin.
  apply list_elem_of_In, in_map_iff in Hin as (c & <- & _). exact I.
Qed.

Lemma builds_toArray (v : Heap.Val) :
  builds s0 root (Heap.toArray v) (fun _ _ => True).
Proof.
  intros s Hs. unfold Heap.toArray.
  destruct v as [ | | | | | | l]; try now split.
  destruct (Heap.store s !! l) as [[ | | | ]|]; now split.
Qed.

Lemma builds_performance_now :
  builds s0 root Heap.performance_now (fun _ _ => True).
Proof. intros s Hs. now split. Qed.

Lemma grown_alloc (s : Heap.State) (o : Heap.Obj) :
  Forall (clean s0 root) (held o) -> grown s0 root s ->
  grown s0 root (Heap.with_store (Heap.store s ++ [o]) s).
Proof.
  intros Ho (Hkept & Hsame & Hnew). split; [|split].
  - intros l o' Hl. cbn. apply lookup_app_l_Some. now apply Hkept.
  - exact Hsame.
  - intros l o' Hl. cbn. intros Hlookup.
    apply lookup_app_Some in Hlookup as [Hin | [_ Hlast]]; [now apply (Hnew l)|].
    destruct (l - length (Heap.store s)) as [|n]; [|discriminate].
    now injection Hlast as <-.
Qed.

Lemma builds_alloc (o : Heap.Obj) :
  Forall (clean s0 root) (held o) ->
  builds s0 root (Heap.alloc o) (fun v _ => own s0 v).
Proof.
  intros Ho s Hs. split; [now apply grown_alloc|].
  intros v [= <-]. exists (length (Heap.store s)). split; [reflexivity|].
  apply objectsKept_length, Hs.
Qed.

Lemma builds_alloc_object (props : list (string * Heap.Val)) :
  Forall (clean s0 root) (map snd props) ->
  builds s0 root (Heap.alloc (Heap.OObject props)) (fun v s => isNewObject s0 s v).
Proof.
  intros Ho s Hs. split; [now apply grown_alloc|].
  intros v [= <-]. exists (length (Heap.store s)), props. split; [reflexivity|].
  split; [apply objectsKept_length, Hs|].
  cbn. now rewrite lookup_app_r, Nat.sub_diag by lia.
Qed.

Lemma isNewObject_own (s : Heap.State) (v : Heap.Val) : isNewObject s0 s v -> own s0 v.
Proof. intros (l & props & -> & Hl & _). now exists l. Qed.

Lemma builds_cell_own (m : Heap.H Heap.Val) :
  builds s0 root m (fun v s => isNewObject s0 s v) -> builds s0 root m (fun v _ => own s0 v).
Proof.
  intros Hm. eapply builds_conseq; [exact Hm|].
  intros v s. apply isNewObject_own.
Qed.

Lemma builds_setField (target : Heap.Val) (key : string) (v : Heap.Val) :
  own s0 target -> clean s0 root v ->
  builds s0 root (Heap.setField target key v) (fun _ _ => True).
Proof.
  intros (l & -> & Hl) Hv s Hs. unfold Heap.setField.
  destruct (Heap.store s !! l) as [[props | | | ]|] eqn:Ho; try now split.
  split; [|easy]. cbn [snd]. destruct Hs as (Hkept & Hsame & Hnew). split; [|split].
  - intros l' o' Hl'. cbn.
    rewrite list_lookup_insert_ne; [now apply Hkept|].
    apply lookup_lt_Some in Hl'. lia.
  - exact Hsame.
  - intros l' o' Hl'. cbn. intros Hlookup.
    apply list_lookup_insert_Some in Hlookup as [(<- & <- & _) | [_ Hold]];
      [|now apply (Hnew l')].
    cbn. apply clean_setProp; [exact Hv|]. exact (Hnew l _ Hl Ho).
Qed.

Lemma builds_push (target v : Heap.Val) :
  own s0 target -> clean s0 root v ->
  builds s0 root (Heap.push target v) (fun _ _ => True).
Proof.
  intros (l & -> & Hl) Hv s Hs. unfold Heap.push.
  destruct (Heap.store s !! l) as [[ | elems | | ]|] eqn:Ho; try now split.
  split; [|easy]. cbn [snd]. destruct Hs as (Hkept & Hsame & Hnew). split; [|split].
  - intros l' o' Hl'. cbn.
    rewrite list_lookup_insert_ne; [now apply Hkept|].
    apply lookup_lt_Some in Hl'. lia.
  - exact Hsame.
  - intros l' o' Hl'. cbn. intros Hlookup.
    apply list_lookup_insert_Some in Hlookup as [(<- & <- & _) | [_ Hold]];
      [|now apply (Hnew l')].
    cbn. apply Forall_app. split; [exact (Hnew l _ Hl Ho)|]. now constructor.
Qed.

Lemma builds_spreadWith (base : Heap.Val) (entries : list (string * Heap.Val)) :
  clean s0 root base -> Forall (clean s0 root) (map snd entries) ->
  builds s0 root (Heap.spreadWith base entries) (fun v s => isNewObject s0 s v).
Proof.
  intros Hbase Hentries. unfold Heap.spreadWith.
  eapply builds_bind; [now apply builds_ownProps|]. intros props Hprops.
  apply builds_alloc_object. now apply clean_setProps.
Qed.

Lemma builds_forEach {A : Type} (elems : list Heap.Val)
    (callback : A -> Heap.Val -> Heap.H A) (acc : A) :
  (forall acc value, builds s0 root (callback acc value) (fun _ _ => True)) ->
  builds s0 root (Heap.forEach elems callback acc) (fun _ _ => True).
Proof.
  intros Hcallback. revert acc. induction elems as [|value rest IH]; intros acc; cbn.
  - now apply builds_ret.
  - eapply builds_bind; [apply Hcallback|]. intros acc' _. apply IH.
Qed.

Lemma builds_throw {A : Type} (error : string) (Q : A -> Heap.State -> Prop) :
  builds s0 root (Heap.call (Throw error)) Q.
Proof. intros s Hs. split; [exact Hs|discriminate]. Qed.

Lemma builds_any {A : Type} (m : Heap.H A) (Q : A -> Heap.State -> Prop) :
  builds s0 root m Q -> builds s0 root m (fun _ _ => True).
Proof. intros Hm. eapply builds_conseq; [exact Hm|]. now intros. Qed.

Lemma builds_tryCatch {A : Type} (body : Heap.H A) (handler : string -> Heap.H A)
    (Q : A -> Heap.State -> Prop) :
  builds s0 root body Q -> (forall error, builds s0 root (handler error) Q) ->
  builds s0 root (Heap.tryCatch body handler) Q.
Proof.
  intros Hbody Hhandler s Hs. unfold Heap.tryCatch.
  destruct (Hbody s Hs) as [Hs' HQ].
  destruct (body s) as [[a | e] s']; cbn [fst snd] in *.
  - split; [exact Hs'|]. intros a' [= <-]. now apply HQ.
  - now apply Hhandler.
Qed.

Lemma builds_logError (error : string) :
  builds s0 root (Heap.logError error) (fun _ _ => True).
Proof. intros s Hs. split; [exact Hs|easy]. Qed.

Lemma builds_getData : builds s0 root Heap.getData (fun _ _ => True).
Proof. intros s Hs. now split. Qed.

Lemma builds_cacheGet (col row : nat) :
  builds s0 root (Heap.cacheGet col row) (fun _ _ => True).
Proof. intros s Hs. now split. Qed.

(** The steps of a proof that a call builds: a bind whose first call
    allocates, reads or is a call proved to build. *)
Ltac cleanness :=
  cbn [held map snd fst];
  repeat match goal with
         | |- Forall _ (_ :: _) => constructor
         | |- Forall _ [] => constructor
         end;
  try exact I; try assumption; try (now apply own_clean).

Ltac build_step :=
  lazymatch goal with
  | |- builds _ _ (Heap.spreadWith _ _) _ => apply builds_spreadWith; cleanness
  | |- builds _ _ (Heap.alloc (Heap.OObject _)) _ => apply builds_alloc_object; cleanness
  | |- builds _ _ (Heap.call (Throw _)) _ => apply builds_throw
  | |- builds _ _ (Heap.bind _ _) _ =>
      eapply builds_bind;
      [ first [ apply builds_alloc; cleanness; fail
              | apply builds_getFieldOpt; cleanness; fail
              | apply builds_getField
              | apply builds_ownProps; cleanness; fail
              | apply builds_read
              | apply builds_call
              | apply builds_performance_now
              | apply builds_toArray ]
      | intros ? ? ]
  end.

Lemma builds_getCellTemplate (type : string) (readonly isIndex : bool) :
  builds s0 root (Heap.getCellTemplate type readonly isIndex)
    (fun v s => isNewObject s0 s v).
Proof.
  unfold Heap.getCellTemplate.
  repeat match goal with
         | |- context [String.eqb type ?c] => destruct (String.eqb type c)
         end;
    repeat build_step.
Qed.

Lemma builds_getEmptyCell :
  builds s0 root Heap.getEmptyCell (fun v s => isNewObject s0 s v).
Proof. unfold Heap.getEmptyCell. build_step. Qed.

Lemma builds_getErrorCell (errorMsg errorDetails : string) :
  builds s0 root (Heap.getErrorCell errorMsg errorDetails)
    (fun v s => isNewObject s0 s v).
Proof.
  unfold Heap.getErrorCell.
  eapply builds_bind; [apply builds_cell_own, builds_getCellTemplate|].
  intros template Htemplate. repeat build_step.
  repeat apply clean_setProp; cleanness.
Qed.

Lemma builds_applyPandasStylerCss (cell : Heap.Val) (cssId : string)
    (cssStyles : StyleSheet) :
  clean s0 root cell ->
  builds s0 root (Heap.applyPandasStylerCss cell cssId cssStyles)
    (fun v s => isNewObject s0 s v).
Proof.
  intros Hcell. unfold Heap.applyPandasStylerCss.
  build_step. build_step.
  eapply builds_bind with (P := fun _ => True).
  { destruct a0 as [fontColor|]; [|now apply builds_ret].
    destruct (String.eqb fontColor ""); [now apply builds_ret|].
    now apply builds_setField. }
  intros _ _. build_step.
  eapply builds_bind with (P := fun _ => True).
  { destruct a1 as [backgroundColor|]; [|now apply builds_ret].
    destruct (String.eqb backgroundColor ""); [now apply builds_ret|].
    now apply builds_setField. }
  intros _ _. build_step.
Qed.

Lemma builds_fillTextCell (cell data : Heap.Val) (displayData : string) :
  clean s0 root cell ->
  builds s0 root (Heap.fillTextCell cell data displayData)
    (fun v s => isNewObject s0 s v).
Proof.
  intros Hcell. unfold Heap.fillTextCell.
  eapply builds_bind; [apply builds_read|]. intros value Hvalue.
  build_step.
  destruct data as [ | | | | | | l];
    try (destruct (isString value || negb (notNullOrUndefined value)); exact I).
  specialize (Hvalue l eq_refl). cbv beta in Hvalue.
  destruct (isString value); [discriminate|].
  destruct (notNullOrUndefined value); [exact I|discriminate].
Qed.

Lemma builds_fillBooleanCell (cell data : Heap.Val) :
  clean s0 root cell ->
  builds s0 root (Heap.fillBooleanCell cell data) (fun v s => isNewObject s0 s v).
Proof.
  intros Hcell. unfold Heap.fillBooleanCell.
  eapply builds_bind; [apply builds_read|]. intros value Hvalue.
  destruct (_ && _) eqn:Hcond; [apply builds_getErrorCell|].
  build_step.
  destruct data as [ | | | | | | l]; try exact I.
  specialize (Hvalue l eq_refl). cbv beta in Hvalue.
  destruct (isString value); [discriminate|].
  destruct (notNullOrUndefined value); [|discriminate].
  destruct (isBoolean value); discriminate.
Qed.

Lemma builds_fillNumberCell (cell data : Heap.Val) (displayData : string) :
  clean s0 root cell ->
  builds s0 root (Heap.fillNumberCell cell data displayData)
    (fun v s => isNewObject s0 s v).
Proof.
  intros Hcell. unfold Heap.fillNumberCell.
  build_step. destruct (notNullOrUndefined a); [|build_step].
  cbv zeta. destruct (JsNumber.isNaN _); [apply builds_getErrorCell|build_step].
Qed.

Lemma builds_fillUrlCell (cell data : Heap.Val) :
  clean s0 root cell ->
  builds s0 root (Heap.fillUrlCell cell data) (fun v s => isNewObject s0 s v).
Proof. intros Hcell. unfold Heap.fillUrlCell. repeat build_step. Qed.

Lemma builds_fillImageCell (cell data : Heap.Val) :
  clean s0 root cell ->
  builds s0 root (Heap.fillImageCell cell data) (fun v s => isNewObject s0 s v).
Proof.
  intros Hcell. unfold Heap.fillImageCell. build_step.
  eapply builds_bind; [apply builds_alloc; destruct (notNullOrUndefined a); cleanness|].
  intros imageUrls Himage. build_step.
Qed.

Lemma builds_fillProgressCell (cell data : Heap.Val) :
  clean s0 root cell ->
  builds s0 root (Heap.fillProgressCell cell data) (fun v s => isNewObject s0 s v).
Proof.
  intros Hcell. unfold Heap.fillProgressCell. build_step.
  destruct (negb _); [apply builds_getEmptyCell|]. cbv zeta.
  destruct (_ || _); [apply builds_getErrorCell|].
  build_step. build_step. build_step.
  eapply builds_bind;
    [apply builds_alloc; cbn [held]; repeat apply clean_setProp; cleanness|].
  intros newData HnewData.
  apply builds_alloc_object. repeat apply clean_setProp; cleanness.
Qed.

Lemma builds_fillChartCell (cell data : Heap.Val) :
  clean s0 root cell ->
  builds s0 root (Heap.fillChartCell cell data) (fun v s => isNewObject s0 s v).
Proof.
  intros Hcell. unfold Heap.fillChartCell. build_step.
  destruct (negb _); [apply builds_getEmptyCell|].
  eapply builds_bind with (P := fun _ => True).
  { destruct a; try (now apply builds_ret).
    build_step. now apply builds_ret. }
  intros [chartData|] _; [|apply builds_getErrorCell].
  build_step. build_step.
  eapply builds_bind; [apply builds_elements|]. intros elems _.
  eapply builds_bind with (P := clean s0 root).
  { destruct elems as [|first rest]; [apply builds_ret; intros; now apply own_clean|].
    build_step.
    eapply builds_bind with (P := fun _ => True).
    { apply builds_forEach. intros [maxValue minValue] value.
      build_step. cbv zeta.
      destruct (JsNumber.isNaN _); [now apply builds_ret|].
      eapply builds_bind; [now apply builds_push|]. intros _ _.
      now apply builds_ret. }
    intros [maxValue minValue] _.
    destruct (_ || _); [|apply builds_ret; intros; now apply own_clean].
    eapply builds_bind; [apply builds_elements|]. intros converted _.
    eapply builds_conseq; [apply builds_alloc|intros v s; apply own_clean].
    cbn [held]. apply Forall_forall. intros v Hin.
    apply list_elem_of_In, in_map_iff in Hin as (c & <- & _). exact I. }
  intros normalizedChartData Hnormalized.
  build_step.
  eapply builds_bind; [apply builds_elements|]. intros converted _.
  build_step. build_step.
  eapply builds_bind;
    [apply builds_alloc; cbn [held]; repeat apply clean_setProp; cleanness|].
  intros newData HnewData.
  apply builds_alloc_object. repeat apply clean_setProp; cleanness.
Qed.

Lemma builds_allocAll (allocValue : JsValue -> Heap.H Heap.Val) (l : list JsValue) :
  Forall (fun v => builds s0 root (allocValue v) (fun w _ => clean s0 root w)) l ->
  builds s0 root (Heap.allocAll allocValue l)
    (fun ws _ => Forall (clean s0 root) ws).
Proof.
  intros Hall; induction Hall as [|v l Hv Hl IH]; cbn; [now apply builds_ret|].
  eapply builds_bind; [exact Hv|]. intros w Hw.
  eapply builds_bind; [exact IH|]. intros ws Hws.
  apply builds_ret. intros _. now constructor.
Qed.

Lemma builds_allocProps (allocValue : JsValue -> Heap.H Heap.Val)
    (props : list (string * JsValue)) :
  Forall (fun p => builds s0 root (allocValue (snd p)) (fun w _ => clean s0 root w))
    props ->
  builds s0 root (Heap.allocProps allocValue props)
    (fun ws _ => Forall (clean s0 root) (map snd ws)).
Proof.
  intros Hall; induction Hall as [|[k v] l Hv Hl IH]; cbn; [now apply builds_ret|].
  eapply builds_bind; [exact Hv|]. intros w Hw.
  eapply builds_bind; [exact IH|]. intros ws Hws.
  apply builds_ret. intros _. now constructor.
Qed.

Lemma builds_parsed (v : JsValue) :
  builds s0 root (Heap.parsed v) (fun w _ => clean s0 root w).
Proof.
  revert v. fix IH 1.
  assert (Hall : forall l,
             Forall (fun v => builds s0 root (Heap.parsed v)
                                (fun w _ => clean s0 root w)) l).
  { induction l as [|e l IHl]; constructor; [apply IH | exact IHl]. }
  intros [ | | b | x | s | z | l | l | a l r | props]; cbn [Heap.parsed];
    try (now apply builds_ret).
  - eapply builds_bind; [apply builds_allocAll, Hall|]. intros elems Helems.
    eapply builds_conseq; [now apply builds_alloc|]. intros w s'. apply own_clean.
  - eapply builds_conseq; [apply builds_alloc; constructor|].
    intros w s'. apply own_clean.
  - eapply builds_bind; [apply builds_allocAll, Hall|]. intros array Harray.
    eapply builds_bind; [now apply builds_alloc|]. intros arrayRef (n & -> & Hn).
    eapply builds_bind; [apply builds_allocAll, Hall|]. intros elems Helems.
    eapply builds_conseq; [apply builds_alloc|intros w s'; apply own_clean].
    cbn [held]. constructor; [now left|exact Helems].
  - eapply builds_bind.
    + apply builds_allocProps.
      induction props as [|[k e] props IHp]; constructor; [apply IH | exact IHp].
    + intros ps Hps.
      eapply builds_conseq; [now apply builds_alloc|]. intros w s'. apply own_clean.
Qed.

Lemma builds_fillListCell (cell data : Heap.Val) :
  clean s0 root cell ->
  builds s0 root (Heap.fillListCell cell data) (fun v s => isNewObject s0 s v).
Proof.
  intros Hcell. unfold Heap.fillListCell. build_step. build_step.
  eapply builds_bind with (P := clean s0 root).
  { destruct (notNullOrUndefined a0); [|apply builds_ret; intros; now apply own_clean].
    cbv zeta. eapply builds_bind; [apply builds_parsed|]. intros cellData HcellData.
    destruct (isArray _); [now apply builds_ret|].
    eapply builds_conseq; [apply builds_alloc; cleanness|].
    intros w s'. apply own_clean. }
  intros cellData HcellData. build_step.
Qed.

Lemma builds_cellKindOf (cell : Heap.Val) :
  builds s0 root (Heap.cellKindOf cell) (fun _ _ => True).
Proof.
  unfold Heap.cellKindOf.
  eapply builds_bind; [apply builds_getField|]. intros kind _.
  assert (Hread : forall v, builds s0 root (Heap.read v) (fun _ _ => True))
    by (intros v; eapply builds_any, builds_read).
  destruct kind; try apply Hread.
  destruct (String.eqb _ _); [|apply Hread].
  eapply builds_bind; [apply builds_getField|]. intros data _.
  eapply builds_bind; [apply builds_getFieldOpt_any|]. intros cellKind _.
  apply Hread.
Qed.

Lemma builds_getDisplayContent (format : JsValue -> JsValue -> string)
    (quiverCell : Heap.Val) :
  builds s0 root (Heap.getDisplayContent format quiverCell) (fun _ _ => True).
Proof.
  unfold Heap.getDisplayContent. repeat build_step. now apply builds_ret.
Qed.

Lemma builds_fillCellTemplate (format : JsValue -> JsValue -> string)
    (cellTemplate quiverCell : Heap.Val) (cssStyles : option StyleSheet) :
  clean s0 root cellTemplate ->
  builds s0 root (Heap.fillCellTemplate format cellTemplate quiverCell cssStyles)
    (fun v s => isNewObject s0 s v).
Proof.
  intros Hcell. unfold Heap.fillCellTemplate.
  eapply builds_bind; [apply builds_cellKindOf|]. intros cellKind _.
  destruct (negb _); [apply builds_getErrorCell|].
  eapply builds_bind with (P := clean s0 root).
  { assert (Hsame : builds s0 root (Heap.ret cellTemplate)
                      (fun v _ => clean s0 root v)) by now apply builds_ret.
    destruct cssStyles as [styles|]; [|exact Hsame].
    destruct (negb _); [|exact Hsame].
    build_step. build_step.
    destruct (truthy _); [|exact Hsame].
    eapply builds_conseq; [now apply builds_applyPandasStylerCss|].
    intros v s Hv. eapply own_clean, isNewObject_own, Hv. }
  intros styled Hstyled.
  repeat match goal with
         | |- context [if isCase cellKind ?k then _ else _] =>
             destruct (isCase cellKind k)
         end;
    try apply builds_getErrorCell; build_step.
  - eapply builds_bind; [apply builds_getDisplayContent|]. intros displayContent _.
    now apply builds_fillTextCell.
  - eapply builds_bind; [apply builds_getDisplayContent|]. intros displayContent _.
    now apply builds_fillNumberCell.
  - now apply builds_fillBooleanCell.
  - now apply builds_fillListCell.
  - now apply builds_fillUrlCell.
  - now apply builds_fillImageCell.
  - now apply builds_fillChartCell.
  - now apply builds_fillProgressCell.
Qed.

Lemma builds_updateCell (cell newValue : Heap.Val) (newDisplayValue : option string) :
  clean s0 root cell ->
  builds s0 root (Heap.updateCell cell newValue newDisplayValue)
    (fun v s => isNewObject s0 s v).
Proof.
  intros Hcell. unfold Heap.updateCell.
  eapply builds_bind; [apply builds_cellKindOf|]. intros cellKind _.
  destruct (negb _); [apply builds_getErrorCell|].
  build_step. cbv zeta.
  assert (Hupdated : forall updatedCell,
             builds s0 root updatedCell (fun v s => isNewObject s0 s v) ->
             builds s0 root
               (Heap.bind updatedCell
                  (fun updatedCell =>
                     Heap.bind Heap.performance_now
                       (fun now =>
                          Heap.spreadWith updatedCell
                            [("lastUpdated", Heap.VNumber now)])))
               (fun v s => isNewObject s0 s v)).
  { intros updatedCell Hupdated.
    eapply builds_bind; [apply builds_cell_own, Hupdated|]. intros updated Hown.
    build_step. build_step. }
  repeat match goal with
         | |- context [if isCase cellKind ?k then _ else _] =>
             destruct (isCase cellKind k)
         end;
    try apply builds_getErrorCell; apply Hupdated.
  - now apply builds_fillTextCell.
  - now apply builds_fillNumberCell.
  - now apply builds_fillBooleanCell.
  - now apply builds_fillUrlCell.
Qed.

Lemma builds_getCellContent (format : JsValue -> JsValue -> string)
    (columns : list GridColumnWithCellTemplate) (cell : nat * nat) :
  builds s0 root (Heap.getCellContent format columns cell) (fun _ _ => True).
Proof.
  destruct cell as [col row]. unfold Heap.getCellContent.
  eapply builds_bind; [apply builds_getData|]. intros data _.
  destruct (Heap.isEmpty data).
  { eapply builds_bind; [apply builds_cell_own, builds_getCellTemplate|].
    intros template Htemplate. eapply builds_any. build_step. }
  destruct (_ >? _)%Z; [eapply builds_any, builds_getCellTemplate|].
  eapply builds_bind; [apply builds_cacheGet|]. intros cached _.
  destruct (negb _); [now apply builds_ret|].
  destruct (columns !! col) as [column|]; [|apply builds_throw].
  eapply builds_bind; [apply builds_cell_own, builds_getCellTemplate|].
  intros cellTemplate Htemplate.
  destruct (_ >? _)%Z; [now apply builds_ret|].
  apply builds_tryCatch.
  - build_step. eapply builds_any, builds_fillCellTemplate. now apply own_clean.
  - intros error. eapply builds_bind; [apply builds_logError|]. intros _ _.
    now apply builds_ret.
Qed.

End Builds.

(** *** The calls return *)

Lemma returns_ret {A : Type} (a : A) : returns (Heap.ret a).
Proof. intros s. now exists a. Qed.

Lemma returns_bind {A B : Type} (m : Heap.H A) (f : A -> Heap.H B) :
  returns m -> (forall a, returns (f a)) -> returns (Heap.bind m f).
Proof.
  intros Hm Hf s. unfold Heap.bind. destruct (Hm s) as [a Ha].
  destruct (m s) as [[a' | e] s']; cbn in Ha; [|discriminate]. apply Hf.
Qed.

Lemma returns_alloc (o : Heap.Obj) : returns (Heap.alloc o).
Proof. intros s. now eexists. Qed.

Lemma returns_read (v : Heap.Val) : returns (Heap.read v).
Proof. intros s. now eexists. Qed.

Lemma returns_getFieldOpt (key : string) (v : Heap.Val) :
  returns (Heap.getFieldOpt key v).
Proof. intros s. now eexists. Qed.

(** A property of what is neither null nor undefined can be read. *)
Lemma returns_getField (key : string) (v : Heap.Val) :
  Heap.nullish v = false -> returns (Heap.getField key v).
Proof. intros Hv s. unfold Heap.getField. rewrite Hv. now eexists. Qed.

Lemma returns_ownProps (v : Heap.Val) : returns (Heap.ownProps v).
Proof. intros s. now eexists. Qed.

Lemma returns_elements (v : Heap.Val) : returns (Heap.elements v).
Proof. intros s. now eexists. Qed.

Lemma returns_spreadWith (base : Heap.Val) (entries : list (string * Heap.Val)) :
  returns (Heap.spreadWith base entries).
Proof.
  unfold Heap.spreadWith. apply returns_bind; [apply returns_ownProps|].
  intros props. apply returns_alloc.
Qed.

Ltac return_step :=
  lazymatch goal with
  | |- returns (Heap.bind _ _) => apply returns_bind; [|intros ?]
  | |- returns (Heap.ret _) => apply returns_ret
  | |- returns (Heap.alloc _) => apply returns_alloc
  | |- returns (Heap.read _) => apply returns_read
  | |- returns (Heap.getFieldOpt _ _) => apply returns_getFieldOpt
  | |- returns (Heap.ownProps _) => apply returns_ownProps
  | |- returns (Heap.elements _) => apply returns_elements
  | |- returns (Heap.spreadWith _ _) => apply returns_spreadWith
  end.

Lemma returns_getCellTemplate (type : string) (readonly isIndex : bool) :
  In type ColumnType.values -> returns (Heap.getCellTemplate type readonly isIndex).
Proof.
  intros Htype. unfold Heap.getCellTemplate.
  repeat match goal with
         | |- context [String.eqb type ?c] =>
             destruct (String.eqb_spec type c) as [E | ?];
             [clear Htype; repeat return_step|]
         end.
  cbn in Htype. intuition congruence.
Qed.

Lemma returns_getEmptyCell : returns Heap.getEmptyCell.
Proof. apply returns_alloc. Qed.

Lemma returns_getErrorCell (errorMsg errorDetails : string) :
  returns (Heap.getErrorCell errorMsg errorDetails).
Proof.
  unfold Heap.getErrorCell.
  apply returns_bind; [apply returns_getCellTemplate; now left|].
  intros template. repeat return_step.
Qed.

Lemma returns_allocAll (allocValue : JsValue -> Heap.H Heap.Val) (l : list JsValue) :
  Forall (fun v => returns (allocValue v)) l -> returns (Heap.allocAll allocValue l).
Proof.
  intros Hall. induction Hall as [|v l Hv Hl IH]; cbn; [apply returns_ret|].
  apply returns_bind; [exact Hv|]. intros w.
  apply returns_bind; [exact IH|]. intros ws. apply returns_ret.
Qed.

Lemma returns_allocProps (allocValue : JsValue -> Heap.H Heap.Val)
    (props : list (string * JsValue)) :
  Forall (fun p => returns (allocValue (snd p))) props ->
  returns (Heap.allocProps allocValue props).
Proof.
  intros Hall. induction Hall as [|[k v] l Hv Hl IH]; cbn; [apply returns_ret|].
  apply returns_bind; [exact Hv|]. intros w.
  apply returns_bind; [exact IH|]. intros ws. apply returns_ret.
Qed.

Lemma returns_parsed (v : JsValue) : returns (Heap.parsed v).
Proof.
  revert v. fix IH 1.
  assert (Hall : forall l, Forall (fun v => returns (Heap.parsed v)) l).
  { induction l as [|e l IHl]; constructor; [apply IH | exact IHl]. }
  intros [ | | b | x | s | z | l | l | a l r | props]; cbn [Heap.parsed];
    try apply returns_ret.
  - apply returns_bind; [apply returns_allocAll, Hall|]. intros elems.
    apply returns_alloc.
  - apply returns_alloc.
  - apply returns_bind; [apply returns_allocAll, Hall|]. intros array.
    apply returns_bind; [apply returns_alloc|]. intros arrayRef.
    apply returns_bind; [apply returns_allocAll, Hall|]. intros elems.
    destruct arrayRef; try apply returns_ret. apply returns_alloc.
  - apply returns_bind; [|intros ps; apply returns_alloc].
    apply returns_allocProps.
    induction props as [|[k e] props IHp]; constructor; [apply IH | exact IHp].
Qed.

Lemma returns_fillTextCell (cell data : Heap.Val) (displayData : string) :
  returns (Heap.fillTextCell cell data displayData).
Proof. unfold Heap.fillTextCell. repeat return_step. Qed.

Lemma returns_fillUrlCell (cell data : Heap.Val) : returns (Heap.fillUrlCell cell data).
Proof. unfold Heap.fillUrlCell. repeat return_step. Qed.

Lemma returns_fillImageCell (cell data : Heap.Val) :
  returns (Heap.fillImageCell cell data).
Proof. unfold Heap.fillImageCell. repeat return_step. Qed.

Lemma returns_fillBooleanCell (cell data : Heap.Val) :
  returns (Heap.fillBooleanCell cell data).
Proof.
  unfold Heap.fillBooleanCell. repeat return_step.
  destruct (_ && _); [apply returns_getErrorCell|return_step].
Qed.

Lemma returns_fillNumberCell (cell data : Heap.Val) (displayData : string) :
  returns (Heap.fillNumberCell cell data displayData).
Proof.
  unfold Heap.fillNumberCell. repeat return_step.
  destruct (notNullOrUndefined _); [|return_step]. cbv zeta.
  destruct (JsNumber.isNaN _); [apply returns_getErrorCell|return_step].
Qed.

Lemma returns_fillListCell (cell data : Heap.Val) :
  returns (Heap.fillListCell cell data).
Proof.
  unfold Heap.fillListCell. repeat return_step.
  destruct (notNullOrUndefined _); [|return_step]. cbv zeta.
  apply returns_bind; [apply returns_parsed|]. intros cellData.
  destruct (isArray _); return_step.
Qed.

Lemma returns_fillProgressCell (cell data : Heap.Val) :
  returns (Heap.fillProgressCell cell data).
Proof.
  unfold Heap.fillProgressCell. repeat return_step.
  destruct (negb _); [apply returns_getEmptyCell|]. cbv zeta.
  destruct (_ || _); [apply returns_getErrorCell|]. repeat return_step.
Qed.

(** A reference that reads as a vector is one to a vector. *)
Lemma valueAt_vector (store : list Heap.Obj) (v : Heap.Val) (a l : list JsValue)
    (r : string) :
  Heap.valueAt store v = JVector a l r ->
  exists n array elems, v = Heap.VRef n /\ store !! n = Some (Heap.OVector array elems r).
Proof.
  unfold Heap.valueAt.
  destruct (length store) as [|fuel]; destruct v as [ | | | | | | n]; try discriminate.
  cbn.
  destruct (store !! n) as [[ | | | array elems repr]|] eqn:Hn; try discriminate.
  intros [= _ _ <-]. now exists n, array, elems.
Qed.

(** A loop that pushes on an array, and does nothing else that could
    throw, returns and leaves an array where the array was. *)
Lemma forEach_pushes {A : Type} (c : nat) (callback : A -> Heap.Val -> Heap.H A)
    (elems : list Heap.Val) :
  (forall acc value s arr,
      Heap.store s !! c = Some (Heap.OArray arr) ->
      exists acc' s' arr',
        callback acc value s = (Ok acc', s')
        /\ Heap.store s' !! c = Some (Heap.OArray arr')) ->
  forall acc s arr,
    Heap.store s !! c = Some (Heap.OArray arr) ->
    exists acc' s' arr',
      Heap.forEach elems callback acc s = (Ok acc', s')
      /\ Heap.store s' !! c = Some (Heap.OArray arr').
Proof.
  intros Hcallback. induction elems as [|value rest IH]; intros acc s arr Hc; cbn.
  - now exists acc, s, arr.
  - unfold Heap.bind.
    destruct (Hcallback acc value s arr Hc) as (acc' & s' & arr' & -> & Hc').
    exact (IH acc' s' arr' Hc').
Qed.

Lemma bind_Ok {A B : Type} (m : Heap.H A) (f : A -> Heap.H B) (s s' : Heap.State)
    (a : A) :
  m s = (Ok a, s') -> Heap.bind m f s = f a s'.
Proof. intros Hm. unfold Heap.bind. now rewrite Hm. Qed.

Lemma returns_run {A : Type} (m : Heap.H A) (s : Heap.State) :
  returns m -> exists a s', m s = (Ok a, s').
Proof.
  intros Hm. destruct (Hm s) as [a Ha]. exists a, (snd (m s)).
  destruct (m s) as [r s']. cbn in *. now subst.
Qed.

Lemma returns_after {A B : Type} (m : Heap.H A) (f : A -> Heap.H B) (s : Heap.State) :
  (exists a s', m s = (Ok a, s')) -> (forall a, returns (f a)) ->
  exists b, fst (Heap.bind m f s) = Ok b.
Proof. intros (a & s' & Hm) Hf. rewrite (bind_Ok _ _ _ _ _ Hm). apply Hf. Qed.

Lemma returns_fillChartCell (cell data : Heap.Val) :
  returns (Heap.fillChartCell cell data).
Proof.
  intros s. unfold Heap.fillChartCell.
  rewrite (bind_Ok (Heap.read data) _ s s _ eq_refl).
  destruct (negb _); [apply returns_getEmptyCell|].
  assert (Hchart : exists chartData,
             match Heap.valueAt (Heap.store s) data with
             | JArray _ => Heap.ret (Some data)
             | JVector _ _ _ =>
                 Heap.bind (Heap.toArray data) (fun chartData => Heap.ret (Some chartData))
             | _ => Heap.ret None
             end s = (Ok chartData, s)).
  { destruct (Heap.valueAt (Heap.store s) data) eqn:Hvalue; try (now eexists).
    apply valueAt_vector in Hvalue as (n & arr & elems' & -> & Hn).
    unfold Heap.bind, Heap.toArray. rewrite Hn. now eexists. }
  destruct Hchart as (chartData & Hchart).
  rewrite (bind_Ok _ _ s s _ Hchart). clear Hchart.
  destruct chartData as [chartData|]; [|apply returns_getErrorCell].
  rewrite (bind_Ok (Heap.alloc _) _ s _ _ eq_refl).
  rewrite (bind_Ok (Heap.alloc _) _ _ _ _ eq_refl).
  rewrite (bind_Ok (Heap.elements _) _ _ _ _ eq_refl).
  cbn [Heap.store Heap.with_store].
  set (s2 := Heap.with_store _ (Heap.with_store _ s)).
  assert (Hc : Heap.store s2 !! length (Heap.store s) = Some (Heap.OArray [])).
  { subst s2. cbn [Heap.store Heap.with_store].
    rewrite lookup_app_l by (rewrite length_app; cbn; lia).
    now rewrite lookup_app_r, Nat.sub_diag by lia. }
  apply returns_after; [|intros normalizedChartData; repeat return_step].
  generalize (Heap.elementsAt ((Heap.store s ++ [Heap.OArray []]) ++ [Heap.OArray []]) chartData). intros elems.
  destruct elems as [|first rest]; [(eexists _, _; reflexivity)|].
  rewrite (bind_Ok (Heap.read first) _ s2 s2 _ eq_refl).
  match goal with
  | |- context [Heap.bind (Heap.forEach ?es ?cb ?init) ?cont s2] =>
      destruct (forEach_pushes (length (Heap.store s)) cb es) with
        (acc := init) (s := s2) (arr := @nil Heap.Val)
        as (range & s3 & arr3 & Hloop & Hc3);
      [|exact Hc|rewrite (bind_Ok _ cont s2 s3 range Hloop)]
  end.
  - intros [maxValue minValue] value s' arr Hc'.
    rewrite (bind_Ok (Heap.read value) _ s' s' _ eq_refl). cbv zeta.
    destruct (JsNumber.isNaN _); [now eexists _, s', arr|].
    unfold Heap.bind, Heap.push. rewrite Hc'. cbn.
    eexists _, _, _. split; [reflexivity|]. cbn.
    apply list_lookup_insert_eq. eapply lookup_lt_Some, Hc'.
  - destruct range as [maxValue minValue].
    destruct (_ || _).
    + rewrite (bind_Ok (Heap.elements _) _ s3 s3 _ eq_refl). (eexists _, _; reflexivity).
    + (eexists _, _; reflexivity).
Qed.

(** *** Fresh cells *)

Lemma clean_root (s0 : Heap.State) (root : Heap.Val) : clean s0 root root.
Proof. destruct root; try exact I. right. now apply reaches_ref. Qed.

Lemma grown_sharesOnlyWith (s0 s : Heap.State) (root : Heap.Val) :
  grown s0 root s -> sharesOnlyWith s0 s root.
Proof.
  intros (_ & _ & Hnew) l o l' Hl Ho Hin.
  pose proof (Hnew l o Hl Ho) as Hheld. rewrite Forall_forall in Hheld.
  apply (Hheld (Heap.VRef l')). now apply list_elem_of_In.
Qed.

Lemma builds_fresh (cell : Heap.Val) (build : Heap.H Heap.Val) :
  (forall s0, builds s0 cell build (fun v s => isNewObject s0 s v)) ->
  buildsFreshCell cell build.
Proof.
  intros Hbuild s. destruct (Hbuild s s (grown_refl s cell)) as [Hgrown Hnew].
  split; [apply Hgrown|]. split; [apply Hgrown|].
  split; [now apply grown_sharesOnlyWith|exact Hnew].
Qed.

Lemma returns_cellKindOf (cell : Heap.Val) :
  Heap.nullish cell = false -> returns (Heap.cellKindOf cell).
Proof.
  intros Hcell. unfold Heap.cellKindOf. return_step; [now apply returns_getField|].
  destruct a; try return_step. destruct (String.eqb _ _); [|return_step].
  return_step; [now apply returns_getField|]. repeat return_step.
Qed.

Lemma returns_getDisplayContent (format : JsValue -> JsValue -> string)
    (quiverCell : Heap.Val) :
  Heap.nullish quiverCell = false ->
  returns (Heap.getDisplayContent format quiverCell).
Proof.
  intros Hcell. unfold Heap.getDisplayContent.
  repeat (return_step; [now apply returns_getField || return_step|]). return_step.
Qed.

(** [applyPandasStylerCss] writes into the object it has just built, and
    returns where the host compiles the two patterns. *)
Lemma returns_applyPandasStylerCss (cell : Heap.Val) (cssId : string)
    (cssStyles : StyleSheet) :
  compilesAll (Some cssStyles) ->
  returns (Heap.applyPandasStylerCss cell cssId cssStyles).
Proof.
  intros Hcompile s. unfold Heap.applyPandasStylerCss.
  destruct (Hcompile cssStyles cssId "color" eq_refl) as [fontColor Hcolor].
  destruct (Hcompile cssStyles cssId "background-color" eq_refl)
    as [backgroundColor Hbackground].
  rewrite (bind_Ok (Heap.alloc _) _ s _ _ eq_refl).
  unfold Heap.call. rewrite Hcolor.
  set (s1 := Heap.with_store _ s).
  assert (H1 : Heap.store s1 !! length (Heap.store s) = Some (Heap.OObject [])).
  { subst s1. cbn. now rewrite lookup_app_r, Nat.sub_diag by lia. }
  rewrite (bind_Ok (fun s => (Ok fontColor, s)) _ s1 s1 _ eq_refl).
  assert (Hset : forall key (color : option string) s1 props,
             Heap.store s1 !! length (Heap.store s) = Some (Heap.OObject props) ->
             exists s2 props',
               match color with
               | Some color =>
                   if String.eqb color "" then Heap.ret tt
                   else Heap.setField (Heap.VRef (length (Heap.store s))) key
                          (Heap.VString color)
               | None => Heap.ret tt
               end s1 = (Ok tt, s2)
               /\ Heap.store s2 !! length (Heap.store s) = Some (Heap.OObject props')).
  { clear. intros key color s1 props Hprops.
    destruct color as [color|]; [|now exists s1, props].
    destruct (String.eqb color ""); [now exists s1, props|].
    unfold Heap.setField. rewrite Hprops. eexists _, _. split; [reflexivity|].
    cbn. apply list_lookup_insert_eq. eapply lookup_lt_Some, Hprops. }
  destruct (Hset "textDark" fontColor s1 [] H1) as (s2 & props2 & Hs2 & H2).
  rewrite (bind_Ok _ _ s1 s2 tt Hs2). rewrite Hbackground.
  rewrite (bind_Ok (fun s => (Ok backgroundColor, s)) _ s2 s2 _ eq_refl).
  destruct (Hset "bgCell" backgroundColor s2 props2 H2) as (s3 & props3 & Hs3 & H3).
  rewrite (bind_Ok _ _ s2 s3 tt Hs3). apply returns_spreadWith.
Qed.

Lemma returns_fillCellTemplate (format : JsValue -> JsValue -> string)
    (cellTemplate quiverCell : Heap.Val) (cssStyles : option StyleSheet) :
  Heap.nullish cellTemplate = false -> Heap.nullish quiverCell = false ->
  compilesAll cssStyles ->
  returns (Heap.fillCellTemplate format cellTemplate quiverCell cssStyles).
Proof.
  intros Htemplate Hcell Hcompile. unfold Heap.fillCellTemplate.
  apply returns_bind; [now apply returns_cellKindOf|]. intros cellKind.
  destruct (negb _); [apply returns_getErrorCell|].
  return_step.
  { destruct cssStyles as [styles|]; [|return_step].
    destruct (negb _); [|return_step].
    return_step; [now apply returns_getField|]. return_step; [return_step|].
    destruct (truthy _); [|return_step].
    now apply returns_applyPandasStylerCss. }
  repeat match goal with
         | |- context [if isCase cellKind ?k then _ else _] =>
             destruct (isCase cellKind k)
         end;
    try apply returns_getErrorCell;
    (return_step; [now apply returns_getField|]).
  - return_step; [now apply returns_getDisplayContent|]. apply returns_fillTextCell.
  - return_step; [now apply returns_getDisplayContent|]. apply returns_fillNumberCell.
  - apply returns_fillBooleanCell.
  - apply returns_fillListCell.
  - apply returns_fillUrlCell.
  - apply returns_fillImageCell.
  - apply returns_fillChartCell.
  - apply returns_fillProgressCell.
Qed.

Lemma objectsKept_trans (s1 s2 s3 : Heap.State) :
  objectsKept s1 s2 -> objectsKept s2 s3 -> objectsKept s1 s3.
Proof. intros H12 H23 l o Hl. now apply H23, H12. Qed.

(** A write into an object that was there is seen: the objects are not
    kept. *)
Lemma objectsKept_sees_push :
  ~ objectsKept chartState (snd (Heap.push (Heap.VRef 0) (Heap.VNumber 7) chartState)).
Proof. intros Hkept. specialize (Hkept 0 _ eq_refl). discriminate Hkept. Qed.

(** The cell of the table filled into the template of a line chart: the
    five objects of the store are where and what they were, five objects
    are new, and the new cell holds the values scaled to the range of 0
    to 1 and shares the axis with its template. *)
Lemma fillChartCell_sample :
  let run := Heap.fillCellTemplate (fun v _ => ToString v) (Heap.VRef 4) (Heap.VRef 1)
               None chartState in
  fst run = Ok (Heap.VRef 9)
  /\ Heap.store (snd run)
     = chartStore
         ++ [ Heap.OArray [Heap.VNumber 1; Heap.VNumber 5; Heap.VNumber 3];
              Heap.OArray [];
              Heap.OArray [Heap.VNumber 0; Heap.VNumber 1; Heap.VNumber 0.5];
              Heap.OObject [("kind", Heap.VString "sparkline-cell");
                            ("yAxis", Heap.VRef 2); ("values", Heap.VRef 7);
                            ("displayValues", Heap.VRef 5)];
              Heap.OObject [("kind", Heap.VString "custom"); ("data", Heap.VRef 8);
                            ("copyData", Heap.VString "[1,5,3]")] ].
Proof. vm_compute. split; reflexivity. Qed.

Lemma getCellContent_grown (format : JsValue -> JsValue -> string)
    (columns : list GridColumnWithCellTemplate) (cell : nat * nat) (s : Heap.State) :
  grown s Heap.VUndefined (snd (Heap.getCellContent format columns cell s)).
Proof. apply (builds_getCellContent s Heap.VUndefined format columns cell s), grown_refl. Qed.

Lemma onCellEdited_keeps (format : JsValue -> JsValue -> string)
    (columns : list GridColumnWithCellTemplate) (isEditableGridCell : JsValue -> bool)
    (getOriginalIndex : nat -> nat) (col row : nat) (newVal : Heap.Val)
    (s : Heap.State) :
  let s' := snd (Heap.onCellEdited format columns isEditableGridCell getOriginalIndex
                   (col, row) newVal s) in
  objectsKept s s' /\ Heap.source s' = Heap.source s
  /\ (Heap.editingCache s' = Heap.editingCache s
      \/ exists value,
          isNewObject s s' value
          /\ Heap.editingCache s'
             = Heap.EditingCache.set (Heap.editingCache s) col (getOriginalIndex row)
                 value).
Proof.
  cbv zeta.
  match goal with |- context [snd ?r] => remember r as run eqn:Hrun end.
  unfold Heap.onCellEdited, Heap.getCellContentSorted in Hrun.
  pose proof (getCellContent_grown format columns (col, getOriginalIndex row) s)
    as (Hkept1 & (Hsource1 & Hcache1 & _) & _).
  unfold Heap.bind at 1 in Hrun.
  destruct (Heap.getCellContent format columns (col, getOriginalIndex row) s)
    as [[currentCell | e] s1]; cbn [snd] in *; [|subst run; cbn; tauto].
  rewrite (bind_Ok (Heap.read newVal) _ s1 s1 _ eq_refl) in Hrun.
  rewrite (bind_Ok (Heap.read currentCell) _ s1 s1 _ eq_refl) in Hrun.
  match type of Hrun with
  | context [if ?c then _ else _] => destruct c; [subst run; cbn; tauto|]
  end.
  unfold Heap.bind at 1, Heap.getField at 1 in Hrun.
  destruct (Heap.nullish newVal); [subst run; cbn; tauto|].
  rewrite (bind_Ok (Heap.read _) _ s1 s1 _ eq_refl) in Hrun.
  match type of Hrun with
  | context [if ?c then _ else _] => destruct c; [|subst run; cbn; tauto]
  end.
  match type of Hrun with
  | context [Heap.updateCell currentCell ?newData None] =>
      destruct (builds_updateCell s1 currentCell currentCell newData None
                  (clean_root s1 currentCell) s1 (grown_refl s1 currentCell))
        as [(Hkept2 & (Hsource2 & Hcache2 & _) & _) Hnew];
      unfold Heap.bind in Hrun;
      destruct (Heap.updateCell currentCell newData None s1) as [[updated | e] s2]
  end; subst run; cbn [fst snd] in *.
  - split; [now apply (objectsKept_trans s s1 s2)|]. split; [cbn; congruence|].
    right. exists updated. split; [|cbn; now rewrite Hcache2, Hcache1].
    destruct (Hnew updated eq_refl) as (l & props & -> & Hl & Hprops).
    exists l, props. split; [reflexivity|]. split; [|exact Hprops].
    pose proof (objectsKept_length s s1 Hkept1). lia.
  - split; [now apply (objectsKept_trans s s1 s2)|]. split; [congruence|].
    left. congruence.
Qed.

(** C8: formatting for display and editing leave the source table as it
    is.  The cells of the table and what they hold are objects of the
    store.  Each of the eight fill functions, from every template and
    value, returns, and the cell it returns is a new object; every
    object there was before the call is afterwards where and what it
    was, the cell of the table and its content among them; and what the
    call built holds references to what it built and to what the
    template reaches, and to no other object there was, so that the new
    cell shares nothing with the table.  [fillCellTemplate] does the
    same with its template and the cell of the table, and returns where
    the host compiles the patterns of the styles.  [getCellContent]
    keeps every object there was, the table and the cache.
    [onCellEdited] keeps every object there was and the table, and
    either leaves the cache as it is or sets one entry of it, under the
    edited column and the row of the table the edited row stands for, to
    a new object. *)
Theorem source_table_never_mutated (format : JsValue -> JsValue -> string) :
  (forall displayData,
      fillsFresh (fun cell data => Heap.fillTextCell cell data displayData)
      /\ fillsFresh (fun cell data => Heap.fillNumberCell cell data displayData))
  /\ fillsFresh Heap.fillBooleanCell
  /\ fillsFresh Heap.fillListCell
  /\ fillsFresh Heap.fillUrlCell
  /\ fillsFresh Heap.fillImageCell
  /\ fillsFresh Heap.fillChartCell
  /\ fillsFresh Heap.fillProgressCell
  /\ (forall cellTemplate quiverCell cssStyles,
        buildsFreshCell cellTemplate
          (Heap.fillCellTemplate format cellTemplate quiverCell cssStyles)
        /\ (Heap.nullish cellTemplate = false -> Heap.nullish quiverCell = false ->
            compilesAll cssStyles ->
            returns (Heap.fillCellTemplate format cellTemplate quiverCell cssStyles)))
  /\ (forall columns cell s,
        let s' := snd (Heap.getCellContent format columns cell s) in
        objectsKept s s' /\ sameTableCacheClock s s')
  /\ (forall columns isEditableGridCell getOriginalIndex col row newVal s,
        let s' := snd (Heap.onCellEdited format columns isEditableGridCell
                         getOriginalIndex (col, row) newVal s) in
        objectsKept s s' /\ Heap.source s' = Heap.source s
        /\ (Heap.editingCache s' = Heap.editingCache s
            \/ exists value,
                isNewObject s s' value
                /\ Heap.editingCache s'
                   = Heap.EditingCache.set (Heap.editingCache s) col
                       (getOriginalIndex row) value)).
Proof.
  repeat match goal with |- _ /\ _ => split end.
  - intros displayData. split; intros cell data; split.
    + apply builds_fresh. intros s0. apply builds_fillTextCell, clean_root.
    + apply returns_fillTextCell.
    + apply builds_fresh. intros s0. apply builds_fillNumberCell, clean_root.
    + apply returns_fillNumberCell.
  - intros cell data. split; [|apply returns_fillBooleanCell].
    apply builds_fresh. intros s0. apply builds_fillBooleanCell, clean_root.
  - intros cell data. split; [|apply returns_fillListCell].
    apply builds_fresh. intros s0. apply builds_fillListCell, clean_root.
  - intros cell data. split; [|apply returns_fillUrlCell].
    apply builds_fresh. intros s0. apply builds_fillUrlCell, clean_root.
  - intros cell data. split; [|apply returns_fillImageCell].
    apply builds_fresh. intros s0. apply builds_fillImageCell, clean_root.
  - intros cell data. split; [|apply returns_fillChartCell].
    apply builds_fresh. intros s0. apply builds_fillChartCell, clean_root.
  - intros cell data. split; [|apply returns_fillProgressCell].
    apply builds_fresh. intros s0. apply builds_fillProgressCell, clean_root.
  - intros cellTemplate quiverCell cssStyles. split.
    + apply builds_fresh. intros s0. apply builds_fillCellTemplate, clean_root.
    + apply returns_fillCellTemplate.
  - intros columns cell s.
    destruct (getCellContent_grown format columns cell s) as (Hkept & Hsame & _).
    now split.
  - intros columns isEditableGridCell getOriginalIndex col row newVal s.
    apply onCellEdited_keeps.
Qed.

(** *** The two embeddings on samples *)

(** The two embeddings agree on the samples: for the template of every
    column type and every sample content, without styles, under the red
    sheet and under the sheet whose pattern does not compile, the cell
    built in the store reads as the cell built as a value, and where one
    throws the other throws the same. *)
Lemma embeddings_agree_samples :
  Forall (fun type =>
            Forall (fun content =>
                      agreeAt type content None None
                      /\ agreeAt type content (Some "T_row0_col0") (Some redSheet)
                      /\ agreeAt type content (Some "a(") (Some unbalancedSheet))
              sampleContents)
    ColumnType.values.
Proof.
  unfold ColumnType.values, sampleContents.
  repeat match goal with
         | |- Forall _ (_ :: _) => constructor
         | |- Forall _ [] => constructor
         end;
    (split; [|split]); vm_compute; repeat split.
Qed.

(** The same for [updateCell]. *)
Lemma embeddings_agree_updates :
  Forall (fun type =>
            Forall (fun newValue =>
                      match updatedInStore type newValue, updatedAsValue type newValue with
                      | Ok v, Ok cell => agrees v cell
                      | _, _ => False
                      end)
              sampleContents)
    ColumnType.values.
Proof.
  unfold ColumnType.values, sampleContents.
  repeat match goal with
         | |- Forall _ (_ :: _) => constructor
         | |- Forall _ [] => constructor
         end;
    vm_compute; repeat split.
Qed.

(** What [fillCellTemplate] and the reader throw does not pass
    [getCellContent]: with columns of the nine types, every read returns
    a cell. *)
Lemma getCellContent_returns (columns : list GridColumnWithCellTemplate)
    (col row : nat) (s : State) :
  Forall (fun column => In (columnType column) ColumnType.values) columns ->
  exists cell, fst (getCellContent columns (col, row) s) = Ok cell.
Proof.
  intros Htypes. unfold getCellContent, bind, getData, cacheGet, ret, call.
  cbv beta iota.
  destruct (isEmpty (source s)); [now eexists|].
  destruct (Z.gtb_spec (Z.of_nat col) (Z.of_nat (length columns) - 1)) as [Hcol | Hcol];
    [now eexists|].
  destruct (EditingCache.get _ col row) as [cached|]; [now eexists|].
  destruct (columns !! col) as [column|] eqn:Hcolumn.
  - rewrite Forall_forall in Htypes.
    assert (Hin : In (columnType column) ColumnType.values).
    { apply Htypes. eapply list_elem_of_lookup_2. eassumption. }
    destruct (getCellTemplate_returns (columnType column) (negb (isEditable column))
                (isIndex column) Hin) as [cellTemplate ->].
    destruct (_ >? _)%Z; [now eexists|].
    unfold tryCatch, logError.
    destruct (getCell _ _ _) as [quiverCell|]; [|now eexists].
    destruct (fillCellTemplate _ quiverCell _); now eexists.
  - apply lookup_ge_None in Hcolumn. lia.
Qed.

(** ** The render boundary *)

Lemma styledCell_plain (cellTemplate : GridCell) (quiverCell : DataFrameCell)
    (cssStyles : option StyleSheet) :
  isStyled quiverCell cssStyles = false ->
  styledCell cellTemplate quiverCell cssStyles = Ok cellTemplate.
Proof.
  unfold isStyled, styledCell.
  destruct cssStyles as [styles|]; [|reflexivity].
  destruct (cssId quiverCell) as [id|]; [|reflexivity].
  now intros ->.
Qed.

Lemma styledCell_returns (cellTemplate : GridCell) (quiverCell : DataFrameCell)
    (cssStyles : option StyleSheet) :
  stylesCompile quiverCell cssStyles ->
  exists cell, styledCell cellTemplate quiverCell cssStyles = Ok cell.
Proof.
  unfold stylesCompile, styledCell. intros Hcompile.
  destruct cssStyles as [styles|]; [|now eexists].
  destruct (cssId quiverCell) as [id|]; [|now eexists].
  destruct (_ && _); [|now eexists].
  unfold applyPandasStylerCss.
  destruct (Hcompile styles id "color" eq_refl eq_refl) as [fontColor ->];
    [now left|].
  destruct (Hcompile styles id "background-color" eq_refl eq_refl)
    as [backgroundColor ->]; [now right; left|].
  now eexists.
Qed.

Lemma styledCell_throws (cellTemplate : GridCell) (quiverCell : DataFrameCell)
    (cssStyles : option StyleSheet) (error : string) :
  styledCell cellTemplate quiverCell cssStyles = Throw error ->
  isStyled quiverCell cssStyles = true
  /\ exists styles id property,
      cssStyles = Some styles /\ cssId quiverCell = Some id
      /\ In property ["color"; "background-color"]
      /\ extractCssProperty id property styles = Throw error.
Proof.
  unfold isStyled, styledCell.
  destruct cssStyles as [styles|]; [|discriminate].
  destruct (cssId quiverCell) as [id|]; [|discriminate].
  destruct (_ && _); [|discriminate].
  unfold applyPandasStylerCss. intros Hthrow. split; [reflexivity|].
  exists styles, id.
  destruct (extractCssProperty id "color" styles) as [fontColor|e] eqn:Hcolor.
  - destruct (extractCssProperty id "background-color" styles)
      as [backgroundColor|e] eqn:Hbackground; [discriminate|].
    exists "background-color". injection Hthrow as <-.
    repeat split; [now right; left|exact Hbackground].
  - exists "color". injection Hthrow as <-.
    repeat split; [now left|exact Hcolor].
Qed.

(** C5, as the specification has it, fails twice.  A cell whose css id
    has an opening parenthesis, under a style sheet: the pattern built
    from the id is no regular expression, and [fillCellTemplate] throws
    the error of the constructor where the specification has it return a
    cell.  A custom template whose data carries the empty string as its
    kind: the kind is there and is none of the supported kinds, and the
    error cell says "Unable to determine cell type.", not "Unsupported
    cell kind". *)
Lemma fillCellTemplate_not_as_specified :
  fillCellTemplate numberTemplate unbalancedCell (Some unbalancedSheet)
  = Throw "SyntaxError: Invalid regular expression: Unterminated group"
  /\ ~ returnsAsSpecified numberTemplate unbalancedCell (Some unbalancedSheet)
  /\ fillCellTemplate emptyKindTemplate threeCell None
     = Ok (getErrorCell "Unable to determine cell type." "")
  /\ ~ returnsAsSpecified emptyKindTemplate threeCell None.
Proof.
  split; [reflexivity|]. split; [|split; [reflexivity|]].
  - intros [[cell Hcell] _]. discriminate Hcell.
  - intros (_ & Hkind & _).
    specialize (Hkind ltac:(discriminate) eq_refl). discriminate Hkind.
Qed.

(** C5: [fillCellTemplate] returns a cell where the cell of the table has
    no styles to apply (no style sheet or an empty one, no css id or an
    empty one) and where the host compiles the two patterns built from
    the css id; what it throws otherwise is what [extractCssProperty]
    throws on one of the two patterns, for a template with a kind.  A
    template whose kind (for a custom cell, the kind of its data) is
    truthy and has no case yields, where a cell is returned, the error
    cell "Unsupported cell kind: " followed by the kind; a template whose
    kind the code takes as absent (missing, or the empty string), in
    particular a custom template whose data carries no kind, yields the
    error cell "Unable to determine cell type." whatever the styles.
    What [fillCellTemplate] throws stays inside [getCellContent]: with
    columns of the nine types every read returns a cell. *)
Theorem fillCellTemplate_returns (cellTemplate : GridCell) (quiverCell : DataFrameCell)
    (cssStyles : option StyleSheet) :
  (isStyled quiverCell cssStyles = false \/ stylesCompile quiverCell cssStyles ->
   exists cell, fillCellTemplate cellTemplate quiverCell cssStyles = Ok cell)
  /\ (forall error,
        fillCellTemplate cellTemplate quiverCell cssStyles = Throw error ->
        truthy (cellKindOf cellTemplate) = true
        /\ isStyled quiverCell cssStyles = true
        /\ exists styles id property,
            cssStyles = Some styles /\ cssId quiverCell = Some id
            /\ In property ["color"; "background-color"]
            /\ extractCssProperty id property styles = Throw error)
  /\ (truthy (cellKindOf cellTemplate) = true ->
      isSupportedKind (cellKindOf cellTemplate) = false ->
      (forall cell,
          fillCellTemplate cellTemplate quiverCell cssStyles = Ok cell ->
          cell = getErrorCell
                   ("Unsupported cell kind: " +:+ ToString (cellKindOf cellTemplate)) "")
      /\ (isStyled quiverCell cssStyles = false ->
          fillCellTemplate cellTemplate quiverCell cssStyles
          = Ok (getErrorCell
                  ("Unsupported cell kind: " +:+ ToString (cellKindOf cellTemplate)) "")))
  /\ (truthy (cellKindOf cellTemplate) = false ->
      fillCellTemplate cellTemplate quiverCell cssStyles
      = Ok (getErrorCell "Unable to determine cell type." ""))
  /\ (kind cellTemplate = GridCellKind.Custom ->
      getProp "kind" (data cellTemplate) = JUndefined ->
      fillCellTemplate cellTemplate quiverCell cssStyles
      = Ok (getErrorCell "Unable to determine cell type." ""))
  /\ (forall columns col row s,
        Forall (fun column => In (columnType column) ColumnType.values) columns ->
        exists cell, fst (getCellContent columns (col, row) s) = Ok cell).
Proof.
  unfold fillCellTemplate. cbv zeta. fold (styledCell cellTemplate quiverCell cssStyles).
  split; [|split; [|split; [|split; [|split]]]].
  - intros Hstyles. destruct (negb _); [now eexists|].
    destruct Hstyles as [Hplain | Hcompile].
    + rewrite (styledCell_plain _ _ _ Hplain). now eexists.
    + destruct (styledCell_returns cellTemplate _ _ Hcompile) as [cell ->].
      now eexists.
  - intros error. destruct (truthy (cellKindOf cellTemplate)); [|discriminate].
    cbn [negb].
    destruct (styledCell cellTemplate quiverCell cssStyles) as [cell|e] eqn:Hstyled;
      [discriminate|].
    intros [= ->]. split; [reflexivity|]. eapply styledCell_throws. eassumption.
  - intros -> Hsup. cbn [negb]. unfold isSupportedKind, supportedKinds in Hsup.
    cbn [existsb] in Hsup. repeat (apply orb_false_elim in Hsup as [?H Hsup]).
    cbn [GridCellKind.value].
    repeat match goal with H : isCase _ _ = false |- _ => rewrite H; clear H end.
    split.
    + intros cell. destruct (styledCell _ _ _); [|discriminate]. now intros [= <-].
    + intros Hplain. now rewrite (styledCell_plain _ _ _ Hplain).
  - now intros ->.
  - intros Hk Hp. now rewrite (cellKindOf_no_kind _ Hk Hp).
  - intros columns col row s. apply getCellContent_returns.
Qed.

(** A custom cell of kind "star-cell", one without a kind, and the cell
    with the unbalanced id read through [getCellContent]. *)
Lemma fillCellTemplate_returns_witness :
  fillCellTemplate starTemplate threeCell None
  = Ok (getErrorCell "Unsupported cell kind: star-cell" "")
  /\ fillCellTemplate noKindTemplate unbalancedCell (Some unbalancedSheet)
     = Ok (getErrorCell "Unable to determine cell type." "")
  /\ exists cell, fst (getCellContent [nameColumn] (0, 0) unbalancedState) = Ok cell.
Proof.
  split; [|split].
  - exact (proj2 (proj1 (proj2 (proj2 (fillCellTemplate_returns starTemplate threeCell
                                         None)))
                    eq_refl eq_refl) eq_refl).
  - exact (proj1 (proj2 (proj2 (proj2 (proj2
             (fillCellTemplate_returns noKindTemplate unbalancedCell
                (Some unbalancedSheet))))))
             eq_refl eq_refl).
  - apply (proj2 (proj2 (proj2 (proj2 (proj2
             (fillCellTemplate_returns starTemplate threeCell None)))))
             [nameColumn] 0 0 unbalancedState).
    repeat constructor.
Defined.

(** * Further properties *)

(** ** The editing cache as a map *)

(** [set] puts the value under the row in the map of the column, the
    empty map when the column has none yet. *)
Lemma EditingCache_set_insert (cachedContent : EditingCache.t) (col row : nat)
    (value : GridCell) :
  EditingCache.set cachedContent col row value
  = <[col := <[row := value]> (default ∅ (cachedContent !! col))]> cachedContent.
Proof.
  unfold EditingCache.set.
  destruct (cachedContent !! col) as [rowCache|] eqn:Hcol.
  - now rewrite Hcol.
  - rewrite lookup_insert_eq. cbn. now rewrite insert_insert_eq.
Qed.

(** X1: The cache agrees with a map from coordinates to cells: the empty
    cache has no entry, a second [set] at a coordinate replaces the
    first, and two [set] at different coordinates can be swapped. *)
Theorem EditingCache_set_laws :
  (forall col row, EditingCache.get EditingCache.empty col row = None)
  /\ (forall (cachedContent : EditingCache.t) col row value1 value2,
        EditingCache.set (EditingCache.set cachedContent col row value1) col row value2
        = EditingCache.set cachedContent col row value2)
  /\ (forall (cachedContent : EditingCache.t) col row col' row' value value',
        (col, row) <> (col', row') ->
        EditingCache.set (EditingCache.set cachedContent col row value) col' row' value'
        = EditingCache.set (EditingCache.set cachedContent col' row' value') col row value).
Proof.
  split; [|split].
  - intros col row. unfold EditingCache.get, EditingCache.empty.
    now rewrite lookup_empty.
  - intros c col row v1 v2. rewrite !EditingCache_set_insert.
    rewrite lookup_insert_eq. cbn. now rewrite !insert_insert_eq.
  - intros c col row col' row' v v' Hne. rewrite !EditingCache_set_insert.
    destruct (decide (col = col')) as [<- | Hcol].
    + assert (Hrow : row <> row') by congruence.
      rewrite !lookup_insert_eq. cbn. rewrite !insert_insert_eq.
      f_equal. now apply insert_insert_ne.
    + rewrite !lookup_insert_ne by congruence.
      now apply insert_insert_ne.
Qed.

Lemma EditingCache_set_laws_witness :
  EditingCache.set (EditingCache.set EditingCache.empty 0 0 editedCell) 1 2 booleanTemplate
  = EditingCache.set (EditingCache.set EditingCache.empty 1 2 booleanTemplate) 0 0 editedCell.
Proof.
  refine (proj2 (proj2 EditingCache_set_laws) _ 0%nat 0%nat 1%nat 2%nat _ _ _).
  discriminate.
Defined.

(** ** Display content *)

Lemma isLineBreak_space : isLineBreak " " = false.
Proof. reflexivity. Qed.

Lemma replaceLineBreaks_step (s : string) :
  (hasLineBreak (JsString.replaceLineBreaks s) = false
   /\ (hasLineBreak s = false -> JsString.replaceLineBreaks s = s)
   /\ String.length (JsString.replaceLineBreaks s) <= String.length s)
  /\ forall c,
      hasLineBreak (JsString.replaceLineBreaks (String c s)) = false
      /\ (hasLineBreak (String c s) = false ->
          JsString.replaceLineBreaks (String c s) = String c s)
      /\ String.length (JsString.replaceLineBreaks (String c s)) <= S (String.length s).
Proof.
  induction s as [|d s [IHs IHc]].
  - split; [repeat split; auto|]. intros c.
    cbn [JsString.replaceLineBreaks hasLineBreak]. unfold isLineBreak.
    destruct (JsString.code c =? 13)%Z eqn:H13, (JsString.code c =? 10)%Z eqn:H10;
      cbn [hasLineBreak orb String.length]; unfold isLineBreak;
      rewrite ?H13, ?H10; repeat split; auto; discriminate.
  - split; [apply IHc|]. intros c.
    destruct (IHc d) as (Hclean & Hid & Hlen).
    destruct IHs as (Hclean' & Hid' & Hlen').
    change (JsString.replaceLineBreaks (String c (String d s)))
      with (if (JsString.code c =? 13)%Z then
              if (JsString.code d =? 10)%Z
              then String " " (JsString.replaceLineBreaks s)
              else String " " (JsString.replaceLineBreaks (String d s))
            else if (JsString.code c =? 10)%Z
                 then String " " (JsString.replaceLineBreaks (String d s))
                 else String c (JsString.replaceLineBreaks (String d s))).
    change (hasLineBreak (String c (String d s)))
      with (isLineBreak c || hasLineBreak (String d s)).
    unfold isLineBreak at 1.
    destruct (JsString.code c =? 13)%Z eqn:H13;
      [destruct (JsString.code d =? 10)%Z eqn:Hd|
       destruct (JsString.code c =? 10)%Z eqn:H10];
      cbn [hasLineBreak String.length orb]; rewrite ?isLineBreak_space, ?orb_true_r;
      cbn [orb].
    + rewrite Hclean'. repeat split; [discriminate | lia].
    + rewrite Hclean. repeat split; [discriminate | cbn [String.length] in Hlen; lia].
    + rewrite Hclean. repeat split; [discriminate | cbn [String.length] in Hlen; lia].
    + unfold isLineBreak at 1. rewrite H10, H13, Hclean. cbn [orb].
      repeat split; [|cbn [String.length] in Hlen; lia].
      intros H. now rewrite Hid.
Qed.

(** X2: [getDisplayContent] returns a single line: no line feed and no
    carriage return is left in it, it is no longer than the text it was
    made from, and a text that has no line break is returned as it is. *)
Theorem getDisplayContent_single_line (quiverCell : DataFrameCell) :
  hasLineBreak (getDisplayContent quiverCell) = false
  /\ String.length (getDisplayContent quiverCell)
     <= String.length (shownContent quiverCell)
  /\ (hasLineBreak (shownContent quiverCell) = false ->
      getDisplayContent quiverCell = shownContent quiverCell).
Proof.
  unfold getDisplayContent. fold (shownContent quiverCell).
  destruct (replaceLineBreaks_step (shownContent quiverCell)) as [(H1 & H2 & H3) _].
  auto.
Qed.

(** A cell whose formatted content is two lines separated by a carriage
    return and a line feed, and one shown as "3". *)
Lemma getDisplayContent_single_line_witness :
  getDisplayContent
    {| content := JNull; contentType := None; displayContent := None; cssId := None;
       formatted := String "a" (String "013" (String "010" (String "b" EmptyString))) |}
  = "a b"
  /\ getDisplayContent threeCell = "3".
Proof.
  split; [reflexivity|].
  exact (proj2 (proj2 (getDisplayContent_single_line threeCell)) eq_refl).
Defined.

(** ** Number cells *)

(** X3: [fillNumberCell] never puts NaN into a cell.  [null] and [undefined]
    give a cell without a number; a value whose number is NaN gives the
    error cell "Incompatible number value"; every other value gives a
    cell carrying its number; and the result is an error cell exactly in
    the second case.  The number of a value is read off the string it
    converts to, which is taken to be of the ASCII range. *)
Theorem fillNumberCell_error_iff (cell : GridCell) (raw : JsValue) (displayData : string) :
  (notNullOrUndefined raw = false ->
   fillNumberCell cell raw displayData
   = with_displayData (JString displayData) (with_data JUndefined cell))
  /\ (JsString.isAscii (ToString raw) = true ->
      notNullOrUndefined raw = true -> JsNumber.isNaN (numberOf raw) = false ->
      fillNumberCell cell raw displayData
      = with_displayData (JString displayData) (with_data (JNumber (numberOf raw)) cell))
  /\ (JsString.isAscii (ToString raw) = true ->
      notNullOrUndefined raw = true -> JsNumber.isNaN (numberOf raw) = true ->
      fillNumberCell cell raw displayData
      = getErrorCell ("Incompatible number value: " +:+ ToString raw) "")
  /\ (JsString.isAscii (ToString raw) = true ->
      (isErrorCell (fillNumberCell cell raw displayData)
       <-> notNullOrUndefined raw = true /\ JsNumber.isNaN (numberOf raw) = true))
  /\ data (fillNumberCell cell raw displayData) <> JNumber nan.
Proof.
  assert (Hfill : fillNumberCell cell raw displayData
                  = if notNullOrUndefined raw then
                      if JsNumber.isNaN (numberOf raw)
                      then getErrorCell ("Incompatible number value: " +:+ ToString raw) ""
                      else with_displayData (JString displayData)
                             (with_data (JNumber (numberOf raw)) cell)
                    else with_displayData (JString displayData)
                           (with_data JUndefined cell)).
  { unfold fillNumberCell, numberOf.
    destruct raw as [ | | | | | | | [|z l] | | ]; reflexivity. }
  rewrite Hfill. split; [|split; [|split; [|split]]].
  - now intros ->.
  - now intros _ -> ->.
  - now intros _ -> ->.
  - intros _.
    destruct (notNullOrUndefined raw), (JsNumber.isNaN (numberOf raw)); split; intros H;
      try (apply getErrorCell_isErrorCell); try tauto;
      try (apply isErrorCell_data in H; discriminate);
      destruct H; discriminate.
  - destruct (notNullOrUndefined raw); [|discriminate].
    destruct (JsNumber.isNaN (numberOf raw)) eqn:Hnan; [discriminate|].
    cbn [data with_data with_displayData]. intros [= Heq].
    rewrite Heq in Hnan. discriminate.
Qed.

(** The string "12", a typed array holding 7, and a word. *)
Lemma fillNumberCell_error_iff_witness :
  fillNumberCell numberTemplate (JString "12") "12"
  = with_displayData (JString "12") (with_data (JNumber 12) numberTemplate)
  /\ fillNumberCell numberTemplate (JInt32Array [7%Z]) "7"
     = with_displayData (JString "7") (with_data (JNumber 7) numberTemplate)
  /\ fillNumberCell numberTemplate (JString "twelve") "twelve"
     = getErrorCell "Incompatible number value: twelve" "".
Proof.
  split; [|split].
  - exact (proj1 (proj2 (fillNumberCell_error_iff numberTemplate (JString "12") "12"))
             eq_refl eq_refl eq_refl).
  - exact (proj1 (proj2 (fillNumberCell_error_iff numberTemplate (JInt32Array [7%Z]) "7"))
             eq_refl eq_refl eq_refl).
  - exact (proj1 (proj2 (proj2
             (fillNumberCell_error_iff numberTemplate (JString "twelve") "twelve")))
             eq_refl eq_refl eq_refl).
Defined.

(** ** List cells *)

(** Induction on a value, with the property at hand for the elements of
    an array or a vector and for the values of an object. *)
Lemma JsValue_nested_ind (P : JsValue -> Prop) :
  P JUndefined -> P JNull -> (forall b, P (JBool b)) -> (forall x, P (JNumber x)) ->
  (forall s, P (JString s)) -> (forall z, P (JBigInt z)) ->
  (forall l, Forall P l -> P (JArray l)) ->
  (forall l, P (JInt32Array l)) ->
  (forall a l r, Forall P l -> P (JVector a l r)) ->
  (forall props, Forall (fun p => P (snd p)) props -> P (JObject props)) ->
  forall v, P v.
Proof.
  intros Hu Hn Hb Hx Hs Hz Ha Hi Hv Ho.
  fix IH 1.
  intros [ | | b | x | s | z | l | l | a l r | props];
    [exact Hu | exact Hn | apply Hb | apply Hx | apply Hs | apply Hz | | apply Hi | | ].
  - apply Ha. induction l as [|e l IHl]; constructor; [apply IH | exact IHl].
  - apply Hv. induction l as [|e l IHl]; constructor; [apply IH | exact IHl].
  - apply Ho. induction props as [|[k e] props IHp]; constructor;
      [apply IH | exact IHp].
Qed.

Lemma JSON_number_isJson (x : float) : isJson (JSON.number x) = true.
Proof. unfold JSON.number. now destruct (is_finite x). Qed.

Lemma indexedFrom_isJson {A : Type} (f : A -> JsValue) (l : list A) (i : nat) :
  (forall a, isJson (f a) = true) ->
  forallb (fun p => let '(_, e) := p in isJson e) (indexedFrom f i l) = true.
Proof.
  intros Hf. revert i. induction l as [|a l IH]; intros i; cbn; [reflexivity|].
  now rewrite Hf, IH.
Qed.

(** What [JSON.parse(JSON.stringify(v, replacer))] returns for a value
    that is not [undefined] is plain JSON data. *)
Lemma JSON_roundtrip_isJson (v : JsValue) :
  v <> JUndefined -> isJson (JSON.roundtrip v) = true.
Proof.
  induction v as [ | | b | x | s | z | l IH | l | a l r IH | props IH]
    using JsValue_nested_ind; intros Hv; try reflexivity; try congruence.
  - apply JSON_number_isJson.
  - apply JSON_number_isJson.
  - clear Hv. cbn [JSON.roundtrip isJson].
    induction IH as [|e l He _ IHl]; [reflexivity|].
    cbn [map forallb]. rewrite IHl, andb_true_r.
    destruct e; try (apply He; discriminate). reflexivity.
  - cbn [JSON.roundtrip isJson ownProps]. now apply indexedFrom_isJson.
  - clear Hv. cbn [JSON.roundtrip isJson].
    induction IH as [|e l He _ IHl]; [reflexivity|].
    cbn [map forallb]. rewrite IHl, andb_true_r.
    destruct e; try (apply He; discriminate). reflexivity.
  - clear Hv. cbn [JSON.roundtrip isJson].
    induction IH as [|[k e] props He _ IHp]; [reflexivity|].
    cbn [flat_map]. rewrite forallb_app, IHp, andb_true_r. cbn [snd] in He.
    destruct e; try (cbn [forallb]; rewrite andb_true_r; apply He; discriminate).
    reflexivity.
Qed.

(** X4: The data of a list cell is always an array of plain JSON data, so in
    particular free of bigint values, and [fillListCell] never returns an
    error cell; an array keeps its length, a value that is neither an
    array nor a vector becomes an array of one string, and [null] and
    [undefined] become the empty array. *)
Theorem fillListCell_array (cell : GridCell) (raw : JsValue) :
  isArray (data (fillListCell cell raw)) = true
  /\ isJson (data (fillListCell cell raw)) = true
  /\ ~ isErrorCell (fillListCell cell raw)
  /\ (forall l, raw = JArray l ->
      exists l', data (fillListCell cell raw) = JArray l' /\ length l' = length l)
  /\ (notNullOrUndefined raw = false -> data (fillListCell cell raw) = JArray []).
Proof.
  unfold fillListCell. cbn [data with_data].
  assert (Harr : isArray (if notNullOrUndefined raw
                          then if isArray (JSON.roundtrip raw) then JSON.roundtrip raw
                               else JArray [JString (ToString (JSON.roundtrip raw))]
                          else JArray []) = true).
  { destruct (notNullOrUndefined raw); [|reflexivity].
    now destruct (isArray (JSON.roundtrip raw)) eqn:H. }
  split; [exact Harr|]. split; [|split; [|split]].
  - destruct (notNullOrUndefined raw) eqn:Hraw; [|reflexivity].
    destruct (isArray (JSON.roundtrip raw)); [|reflexivity].
    apply JSON_roundtrip_isJson. now destruct raw.
  - intros H. apply isErrorCell_data in H. cbn [data with_data] in H.
    destruct (if notNullOrUndefined raw then _ else _); discriminate.
  - intros l ->. cbn. eexists. split; [reflexivity|]. apply length_map.
  - now intros ->.
Qed.

(** An array holding a bigint and [undefined], and a single string. *)
Lemma fillListCell_array_witness :
  data (fillListCell booleanTemplate (JArray [JBigInt 5; JUndefined; JString "a"]))
  = JArray [JNumber 5; JNull; JString "a"]
  /\ data (fillListCell booleanTemplate (JString "a")) = JArray [JString "a"]
  /\ data (fillListCell booleanTemplate JNull) = JArray [].
Proof.
  split; [reflexivity|]. split; [reflexivity|].
  exact (proj2 (proj2 (proj2 (proj2 (fillListCell_array booleanTemplate JNull)))) eq_refl).
Defined.

(** ** Editing a cell *)




(** ** Templates and their fill functions *)

(** X6: Every template [getCellTemplate] builds is one [fillCellTemplate]
    has a case for: filling the template of a column type is the fill
    function of that type, never the error of an unsupported or a missing
    kind. *)
Theorem fillCellTemplate_of_template (type : ColumnType) (readonly isIndex : bool)
    (cell : GridCell) (quiverCell : DataFrameCell) :
  getCellTemplate type readonly isIndex = Ok cell ->
  fillCellTemplate cell quiverCell None = Ok (fillByType type cell quiverCell).
Proof.
  unfold getCellTemplate.
  repeat match goal with
         | |- context [String.eqb type ?c] =>
             destruct (String.eqb_spec type c) as [E | _];
             [subst type; intros [= <-]; reflexivity|]
         end.
  discriminate.
Qed.

(** The template of a Number column filled from the cell showing 3. *)
Lemma fillCellTemplate_of_template_witness :
  fillCellTemplate numberTemplate threeCell None
  = Ok (with_displayData (JString "3") (with_data (JNumber 3) numberTemplate)).
Proof.
  rewrite (fillCellTemplate_of_template ColumnType.Number false false numberTemplate
             threeCell eq_refl).
  reflexivity.
Defined.

(** ** Styles *)

Lemma fillTextCell_handsOnTheme (data : JsValue) (displayData : string) :
  handsOnTheme (fun cell => fillTextCell cell data displayData).
Proof. intros theme cell. now left. Qed.

Lemma fillNumberCell_handsOnTheme (data : JsValue) (displayData : string) :
  handsOnTheme (fun cell => fillNumberCell cell data displayData).
Proof.
  intros theme cell. unfold fillNumberCell. cbv zeta.
  destruct (notNullOrUndefined data); [|now left].
  destruct (JsNumber.isNaN _); [|now left].
  right. split; [reflexivity|]. left. apply getErrorCell_isErrorCell.
Qed.

Lemma fillBooleanCell_handsOnTheme (data : JsValue) :
  handsOnTheme (fun cell => fillBooleanCell cell data).
Proof.
  intros theme cell. unfold fillBooleanCell.
  destruct (_ && _); [|now left].
  right. split; [reflexivity|]. left. apply getErrorCell_isErrorCell.
Qed.

Lemma fillListCell_handsOnTheme (data : JsValue) :
  handsOnTheme (fun cell => fillListCell cell data).
Proof. intros theme cell. now left. Qed.

Lemma fillUrlCell_handsOnTheme (data : JsValue) :
  handsOnTheme (fun cell => fillUrlCell cell data).
Proof. intros theme cell. now left. Qed.

Lemma fillImageCell_handsOnTheme (data : JsValue) :
  handsOnTheme (fun cell => fillImageCell cell data).
Proof. intros theme cell. now left. Qed.

Lemma fillChartCell_handsOnTheme (data : JsValue) :
  handsOnTheme (fun cell => fillChartCell cell data).
Proof.
  intros theme cell. unfold fillChartCell.
  destruct (negb _); [right; split; [reflexivity|now right]|].
  assert (Herr : forall m d,
             getErrorCell m d = with_themeOverride theme (getErrorCell m d)
             \/ getErrorCell m d = getErrorCell m d
                /\ (isErrorCell (getErrorCell m d) \/ getErrorCell m d = getEmptyCell)).
  { intros m d. right. split; [reflexivity|]. left. apply getErrorCell_isErrorCell. }
  destruct data as [ | | | | | | l | | l j r | ]; try apply Herr.
  - destruct l as [|first l]; [now left|].
    destruct (fold_left _ _ _) as [[maxValue minValue] convertedChartData].
    destruct (_ || _); now left.
  - destruct l as [|first l]; [now left|].
    destruct (fold_left _ _ _) as [[maxValue minValue] convertedChartData].
    destruct (_ || _); now left.
Qed.

Lemma fillProgressCell_handsOnTheme (data : JsValue) :
  handsOnTheme (fun cell => fillProgressCell cell data).
Proof.
  intros theme cell. unfold fillProgressCell. cbv zeta.
  destruct (negb _); [right; split; [reflexivity|now right]|].
  destruct (_ || _); [|now left].
  right. split; [reflexivity|]. left. apply getErrorCell_isErrorCell.
Qed.

Lemma getErrorCell_handsOnTheme (errorMsg errorDetails : string) :
  handsOnTheme (fun _ => getErrorCell errorMsg errorDetails).
Proof.
  intros theme cell. right. split; [reflexivity|]. left.
  apply getErrorCell_isErrorCell.
Qed.

(** [fillCellTemplate] picks the fill function by the kind of the
    template as it was passed, and runs it on the styled cell; without a
    kind it does not look at the styles. *)
Lemma fillCellTemplate_fill (cellTemplate : GridCell) (quiverCell : DataFrameCell) :
  exists fill, handsOnTheme fill
    /\ (truthy (cellKindOf cellTemplate) = false -> forall cell, isErrorCell (fill cell))
    /\ forall cssStyles,
        fillCellTemplate cellTemplate quiverCell cssStyles
        = if truthy (cellKindOf cellTemplate)
          then filledAs fill (styledCell cellTemplate quiverCell cssStyles)
          else Ok (fill cellTemplate).
Proof.
  unfold fillCellTemplate, filledAs. cbv zeta.
  destruct (truthy (cellKindOf cellTemplate)); cbn [negb];
    [|exists (fun _ => getErrorCell "Unable to determine cell type." "");
      split; [apply getErrorCell_handsOnTheme|];
      split; [intros _ cell; apply getErrorCell_isErrorCell|reflexivity]].
  repeat match goal with
         | |- context [if isCase ?v ?k then _ else _] => destruct (isCase v k)
         end.
  - exists (fun cell => fillTextCell cell (content quiverCell) (getDisplayContent quiverCell)).
    split; [apply fillTextCell_handsOnTheme|now split].
  - exists (fun cell => fillNumberCell cell (content quiverCell) (getDisplayContent quiverCell)).
    split; [apply fillNumberCell_handsOnTheme|now split].
  - exists (fun cell => fillBooleanCell cell (content quiverCell)).
    split; [apply fillBooleanCell_handsOnTheme|now split].
  - exists (fun cell => fillListCell cell (content quiverCell)).
    split; [apply fillListCell_handsOnTheme|now split].
  - exists (fun cell => fillUrlCell cell (content quiverCell)).
    split; [apply fillUrlCell_handsOnTheme|now split].
  - exists (fun cell => fillImageCell cell (content quiverCell)).
    split; [apply fillImageCell_handsOnTheme|now split].
  - exists (fun cell => fillChartCell cell (content quiverCell)).
    split; [apply fillChartCell_handsOnTheme|now split].
  - exists (fun cell => fillProgressCell cell (content quiverCell)).
    split; [apply fillProgressCell_handsOnTheme|now split].
  - exists (fun _ => getErrorCell
                        ("Unsupported cell kind: " +:+ ToString (cellKindOf cellTemplate)) "").
    split; [apply getErrorCell_handsOnTheme|now split].
Qed.

Lemma styledCell_sheet (cellTemplate : GridCell) (quiverCell : DataFrameCell)
    (styles : StyleSheet) :
  (exists id, cssId quiverCell = Some id /\ css_text styles <> "" /\ id <> ""
              /\ styledCell cellTemplate quiverCell (Some styles)
                 = applyPandasStylerCss cellTemplate id styles)
  \/ ((cssId quiverCell = None \/ css_text styles = "" \/ cssId quiverCell = Some "")
      /\ styledCell cellTemplate quiverCell (Some styles) = Ok cellTemplate).
Proof.
  unfold styledCell. destruct (cssId quiverCell) as [id|]; [|right; tauto].
  destruct (String.eqb_spec (css_text styles) "") as [Htext | Htext];
    [right; tauto|].
  destruct (String.eqb_spec id "") as [-> | Hid]; [right; tauto|].
  left. now exists id.
Qed.

Lemma applyPandasStylerCss_themed (cell : GridCell) (id : string) (styles : StyleSheet)
    (themed : GridCell) :
  applyPandasStylerCss cell id styles = Ok themed ->
  exists theme, themed = with_themeOverride theme cell.
Proof.
  unfold applyPandasStylerCss.
  destruct (extractCssProperty id "color" styles); [|discriminate].
  destruct (extractCssProperty id "background-color" styles); [|discriminate].
  intros [= <-]. now eexists.
Qed.

(** X7: The styles of a table touch the theme override of a filled cell and
    nothing else: without a style sheet [fillCellTemplate] returns a
    cell, and the cell it returns with a style sheet agrees with that one
    on every other field.  A cell without a css id is filled as if there
    were no style sheet.  Where the sheet is not empty and the cell has
    an id, a cell that is filled with its value (neither an error cell
    nor the empty cell) carries the override [applyPandasStylerCss]
    builds; an error cell keeps the theme of errors.  With a style sheet
    [fillCellTemplate] returns when the host compiles the patterns of the
    cell, and throws nothing but what [extractCssProperty] throws at the
    id of the cell. *)
Theorem styles_change_theme_only (cellTemplate : GridCell) (quiverCell : DataFrameCell)
    (styles : StyleSheet) :
  exists plain,
    fillCellTemplate cellTemplate quiverCell None = Ok plain
    /\ (forall styled,
          fillCellTemplate cellTemplate quiverCell (Some styles) = Ok styled ->
          sameButTheme styled plain)
    /\ (cssId quiverCell = None ->
        fillCellTemplate cellTemplate quiverCell (Some styles) = Ok plain)
    /\ (forall id styled,
          cssId quiverCell = Some id -> css_text styles <> "" -> id <> "" ->
          fillCellTemplate cellTemplate quiverCell (Some styles) = Ok styled ->
          ~ isErrorCell styled -> styled <> getEmptyCell ->
          exists themed,
            applyPandasStylerCss cellTemplate id styles = Ok themed
            /\ themeOverride styled = themeOverride themed)
    /\ (stylesCompile quiverCell (Some styles) ->
        exists styled, fillCellTemplate cellTemplate quiverCell (Some styles) = Ok styled)
    /\ (forall error,
          fillCellTemplate cellTemplate quiverCell (Some styles) = Throw error ->
          exists id property,
            cssId quiverCell = Some id
            /\ extractCssProperty id property styles = Throw error).
Proof.
  destruct (fillCellTemplate_fill cellTemplate quiverCell) as (fill & Hfill & Herr & E).
  exists (fill cellTemplate). rewrite !E.
  split; [now destruct (truthy _)|].
  destruct (truthy (cellKindOf cellTemplate)).
  2: { split; [intros styled [= <-]; now repeat split|]. split; [reflexivity|].
       split; [|split; [now eexists|discriminate]].
       intros id styled _ _ _ [= <-] He. contradiction He. now apply Herr. }
  unfold filledAs.
  assert (Hthemed : forall theme,
             sameButTheme (fill (with_themeOverride theme cellTemplate))
               (fill cellTemplate)).
  { intros theme. destruct (Hfill theme cellTemplate) as [-> | [-> _]];
      now repeat split. }
  split; [|split; [|split; [|split]]].
  - intros styled.
    destruct (styledCell_sheet cellTemplate quiverCell styles)
      as [(id & _ & _ & _ & ->) | [_ ->]].
    + destruct (applyPandasStylerCss cellTemplate id styles) as [themed|] eqn:Hthemed';
        [|discriminate].
      destruct (applyPandasStylerCss_themed _ _ _ _ Hthemed') as [theme ->].
      intros [= <-]. apply Hthemed.
    + intros [= <-]. now repeat split.
  - intros Hid. unfold styledCell. now rewrite Hid.
  - intros id styled Hid Htext Hne. unfold styledCell. rewrite Hid.
    destruct (String.eqb_spec (css_text styles) ""); [contradiction|].
    destruct (String.eqb_spec id ""); [contradiction|]. cbn [negb andb].
    destruct (applyPandasStylerCss cellTemplate id styles) as [themed|] eqn:Hthemed';
      [|discriminate].
    destruct (applyPandasStylerCss_themed _ _ _ _ Hthemed') as [theme ->].
    intros [= <-] Herror Hempty. eexists. split; [reflexivity|].
    destruct (Hfill theme cellTemplate) as [-> | [E' [He | He]]].
    + reflexivity.
    + rewrite E' in Herror. contradiction.
    + rewrite E' in Hempty. contradiction.
  - intros Hcompile.
    destruct (styledCell_returns cellTemplate _ _ Hcompile) as [cell ->].
    now eexists.
  - intros error.
    destruct (styledCell cellTemplate quiverCell (Some styles)) as [cell|e] eqn:Hstyled;
      [discriminate|].
    intros [= ->].
    destruct (styledCell_throws _ _ _ _ Hstyled)
      as (_ & styles' & id & property & [= <-] & Hid & _ & Hthrow).
    now exists id, property.
Qed.

(** A missing value under the red sheet, in a Number column: the cell is
    filled, and its text is red. *)
Lemma styles_change_theme_only_witness :
  exists styled,
    fillCellTemplate numberTemplate missingCell (Some redSheet) = Ok styled
    /\ themeOverride styled = Some {| textDark := Some "red"; bgCell := None |}.
Proof.
  destruct (styles_change_theme_only numberTemplate missingCell redSheet)
    as (plain & _ & _ & _ & Htheme & _).
  eexists. split; [reflexivity|].
  destruct (Htheme "T_row0_col0" _ eq_refl ltac:(discriminate) ltac:(discriminate)
              eq_refl) as (themed & Hthemed & E).
  - intros He. apply isErrorCell_kind in He. discriminate He.
  - discriminate.
  - injection Hthemed as <-. exact E.
Defined.

(** ** Missing values *)

(** X8: A missing value (null or undefined) is never an error: the
    template of a column type is filled from it wherever the styles of
    the cell compile, and is filled whenever there are none to apply;
    the template of a chart column becomes the empty cell, and the
    template of every other column type keeps its kind and holds the
    missing value itself or the empty data of the template. *)
Theorem missing_value_no_error (type : ColumnType) (readonly isIndex : bool)
    (cell : GridCell) (quiverCell : DataFrameCell) (cssStyles : option StyleSheet) :
  getCellTemplate type readonly isIndex = Ok cell ->
  notNullOrUndefined (content quiverCell) = false ->
  (isStyled quiverCell cssStyles = false \/ stylesCompile quiverCell cssStyles ->
   exists filled, fillCellTemplate cell quiverCell cssStyles = Ok filled)
  /\ forall filled,
      fillCellTemplate cell quiverCell cssStyles = Ok filled ->
      ~ isErrorCell filled
      /\ (isChartType type = true -> filled = getEmptyCell)
      /\ (isChartType type = false ->
          kind filled = kind cell
          /\ (data filled = content quiverCell \/ data filled = data cell)).
Proof.
  intros Hcell Hmissing.
  assert (Hfill : fillCellTemplate cell quiverCell cssStyles
                  = filledAs (fun styled => fillByType type styled quiverCell)
                      (styledCell cell quiverCell cssStyles)).
  { revert Hcell. unfold getCellTemplate.
    repeat match goal with
           | |- context [String.eqb type ?c] =>
               destruct (String.eqb_spec type c) as [E | _];
               [subst type; intros [= <-]; reflexivity|]
           end.
    discriminate. }
  rewrite Hfill. clear Hfill. split.
  { intros [Hplain | Hcompile].
    - rewrite (styledCell_plain _ _ _ Hplain). now eexists.
    - destruct (styledCell_returns cell _ _ Hcompile) as [styled ->]. now eexists. }
  intros filled.
  destruct (styledCell cell quiverCell cssStyles) as [styled|] eqn:Hstyled;
    [|discriminate].
  intros [= <-].
  assert (Hkind : kind styled = kind cell /\ data styled = data cell).
  { revert Hstyled. unfold styledCell.
    destruct cssStyles as [styles|]; [|now intros [= <-]].
    destruct (cssId quiverCell) as [id|]; [|now intros [= <-]].
    destruct (_ && _); [|now intros [= <-]].
    intros Hthemed. now destruct (applyPandasStylerCss_themed _ _ _ _ Hthemed) as [theme ->]. }
  clear Hstyled. destruct Hkind as [Hkind Hdata]. revert Hcell.
  unfold getCellTemplate, fillByType, isChartType, includes.
  cbn [existsb].
  repeat match goal with
         | |- context [String.eqb type ?t] =>
             destruct (String.eqb_spec type t) as [E | _];
             [subst type; intros [= Hc];
              cbv [ColumnType.Text ColumnType.Number ColumnType.Boolean
                     ColumnType.List ColumnType.Url ColumnType.Image
                     ColumnType.BarChart ColumnType.LineChart
                     ColumnType.ProgressChart];
              cbn [String.eqb Ascii.eqb Bool.eqb orb];
              subst cell; cbn [kind data] in *|]
         end; try discriminate.
  - unfold fillTextCell. rewrite Hmissing, orb_true_r.
    split; [|split]; [|discriminate|now split; [|left]].
    intros He. apply isErrorCell_data in He. cbn in He.
    destruct (content quiverCell); discriminate.
  - unfold fillBooleanCell. rewrite Hmissing.
    split; [|split]; [|discriminate|now split; [|left]].
    intros He. apply isErrorCell_kind in He. cbn in He. congruence.
  - unfold fillNumberCell. rewrite Hmissing.
    split; [|split]; [|discriminate|now split; [|right]].
    intros He. apply isErrorCell_data in He. discriminate He.
  - unfold fillListCell. rewrite Hmissing.
    split; [|split]; [|discriminate|now split; [|right]].
    intros He. apply isErrorCell_data in He. discriminate He.
  - unfold fillUrlCell. rewrite Hmissing.
    split; [|split]; [|discriminate|now split; [|right]].
    intros He. apply isErrorCell_kind in He. cbn in He. congruence.
  - unfold fillImageCell. rewrite Hmissing.
    split; [|split]; [|discriminate|now split; [|right]].
    intros He. apply isErrorCell_data in He. discriminate He.
  - unfold fillChartCell. rewrite Hmissing.
    split; [|split]; [|reflexivity|discriminate].
    intros He. apply isErrorCell_kind in He. discriminate He.
  - unfold fillChartCell. rewrite Hmissing.
    split; [|split]; [|reflexivity|discriminate].
    intros He. apply isErrorCell_kind in He. discriminate He.
  - unfold fillProgressCell. rewrite Hmissing.
    split; [|split]; [|reflexivity|discriminate].
    intros He. apply isErrorCell_kind in He. discriminate He.
Qed.

(** A missing value under the red sheet: number and chart columns. *)
Lemma missing_value_no_error_witness :
  (exists filled,
      fillCellTemplate numberTemplate missingCell (Some redSheet) = Ok filled
      /\ ~ isErrorCell filled)
  /\ fillCellTemplate lineChartTemplate missingCell (Some redSheet) = Ok getEmptyCell.
Proof.
  split.
  - eexists. split; [reflexivity|].
    exact (proj1 (proj2 (missing_value_no_error ColumnType.Number false false
                           numberTemplate missingCell (Some redSheet) eq_refl eq_refl)
                    _ eq_refl)).
  - rewrite <- (proj1 (proj2 (proj2 (missing_value_no_error ColumnType.LineChart true
                                        false lineChartTemplate missingCell
                                        (Some redSheet) eq_refl eq_refl)
                                 _ eq_refl)) eq_refl).
    reflexivity.
Defined.

(** ** Columns *)

Lemma getColumnTypeFromQuiver_values (quiverType : QuiverType) :
  In (getColumnTypeFromQuiver quiverType) ColumnType.values.
Proof.
  destruct (typeName quiverType) as [name|] eqn:Hname.
  - rewrite (getColumnTypeFromQuiver_table _ _ Hname). apply quiverColumnType_closed.
  - unfold getColumnTypeFromQuiver. rewrite Hname. cbv; tauto.
Qed.

Lemma getColumnTypeFromConfig_values (typeName : option string) :
  In (getColumnTypeFromConfig typeName) ColumnType.values.
Proof.
  unfold getColumnTypeFromConfig. destruct typeName as [name|]; [|cbv; tauto].
  destruct (String.eqb name ""); [cbv; tauto|]. cbv zeta.
  destruct (existsb _ _) eqn:E; [|cbv; tauto].
  apply existsb_exists in E as (x & Hx & Heq).
  apply String.eqb_eq in Heq. now subst.
Qed.

Lemma applyColumnConfig_identity (column updated : GridColumnWithCellTemplate)
    (columnsConfig : option (gmap (nat + string) ColumnConfigProps)) :
  applyColumnConfig column columnsConfig = Some updated ->
  sameColumnIdentity updated column
  /\ (In (columnType column) ColumnType.values ->
      In (columnType updated) ColumnType.values).
Proof.
  unfold applyColumnConfig, sameColumnIdentity.
  destruct columnsConfig as [columnsConfig|]; [|now intros [= <-]].
  destruct (match columnsConfig !! _ with Some c => Some c | None => _ end)
    as [columnConfig|]; [|now intros [= <-]].
  destruct (bool_decide _); [discriminate|]. intros [= <-].
  split; [now repeat split|]. cbn [columnType]. intros Hin.
  destruct (cfg_type columnConfig) as [t|];
    [exact (getColumnTypeFromConfig_values (Some t)) | exact Hin].
Qed.

(** X9: [applyColumnConfig] by cases.  Without a configuration, or with none
    found for the column, the column is returned as it is.  The column is
    dropped exactly when the configuration found for it hides it.  The
    entry under the column's index is the one that counts: the entry
    under its title is read only when there is none under the index.
    A column that is returned keeps its id, index, index flag, hidden
    flag, quiver type and menu flag, and its type is one of the nine when
    it was. *)
Theorem applyColumnConfig_cases (column : GridColumnWithCellTemplate)
    (columnsConfig : gmap (nat + string) ColumnConfigProps) :
  applyColumnConfig column None = Some column
  /\ (configOf column columnsConfig = None ->
      applyColumnConfig column (Some columnsConfig) = Some column)
  /\ (applyColumnConfig column (Some columnsConfig) = None
      <-> exists columnConfig,
            configOf column columnsConfig = Some columnConfig
            /\ cfg_hide columnConfig = Some true)
  /\ (forall byIndex byTitle,
        columnsConfig !! (inl (columnIndex column) : nat + string) = Some byIndex ->
        applyColumnConfig column
          (Some (<[(inr (title column) : nat + string) := byTitle]> columnsConfig))
        = applyColumnConfig column (Some columnsConfig))
  /\ (forall updated,
        applyColumnConfig column (Some columnsConfig) = Some updated ->
        sameColumnIdentity updated column
        /\ (In (columnType column) ColumnType.values ->
            In (columnType updated) ColumnType.values)).
Proof.
  split; [reflexivity|]. split; [|split; [|split]].
  - unfold applyColumnConfig. fold (configOf column columnsConfig). now intros ->.
  - unfold applyColumnConfig. fold (configOf column columnsConfig).
    destruct (configOf column columnsConfig) as [columnConfig|].
    + destruct (bool_decide_reflect (cfg_hide columnConfig = Some true)) as [Hh | Hh].
      * split; [|reflexivity]. intros _. now exists columnConfig.
      * split; [discriminate|]. intros (c & [= <-] & Hc). contradiction.
    + split; [discriminate|]. now intros (c & Hc & _).
  - intros byIndex byTitle Hidx. unfold applyColumnConfig.
    rewrite lookup_insert_ne by discriminate. now rewrite Hidx.
  - intros updated. apply applyColumnConfig_identity.
Qed.

(** The column "name" under a configuration that hides it. *)
Lemma applyColumnConfig_cases_witness :
  applyColumnConfig nameColumn (Some {[ (inr "name" : nat + string) := hidden ]}) = None
  /\ applyColumnConfig nameColumn (Some hideAge) = Some nameColumn.
Proof.
  split.
  - apply (proj1 (proj2 (proj2 (applyColumnConfig_cases nameColumn _)))).
    exists hidden. split; reflexivity.
  - apply (proj1 (proj2 (applyColumnConfig_cases nameColumn hideAge))).
    reflexivity.
Defined.

Lemma indexLoop_columns (columnsConfig : gmap (nat + string) ColumnConfigProps)
    (types : list QuiverType) (i : nat) :
  Forall (fun column => In (columnType column) ColumnType.values
                        /\ isIndex column = true
                        /\ i <= columnIndex column < i + length types)
    (indexLoop columnsConfig i types)
  /\ map columnIndex (indexLoop columnsConfig i types) `sublist_of` seq i (length types).
Proof.
  revert i. induction types as [|quiverType rest IH]; intros i; cbn [indexLoop].
  { split; constructor. }
  destruct (IH (S i)) as [Hall Hsub]. cbv zeta.
  assert (Hrest : Forall (fun column => In (columnType column) ColumnType.values
                                        /\ isIndex column = true
                                        /\ i <= columnIndex column
                                           < i + length (quiverType :: rest))
                    (indexLoop columnsConfig (S i) rest)).
  { eapply Forall_impl; [exact Hall|]. cbn [length].
    intros column (? & ? & ?). repeat split; try assumption; lia. }
  destruct (applyColumnConfig _ _) as [updated|] eqn:Happly.
  - apply applyColumnConfig_identity in Happly as [(_ & Hidx & Hisidx & _) Htype].
    cbn in Hidx, Hisidx, Htype. split.
    + constructor; [|exact Hrest]. split; [|split].
      * apply Htype, getColumnTypeFromQuiver_values.
      * exact Hisidx.
      * rewrite Hidx. cbn [length]. lia.
    + cbn [map length seq]. rewrite Hidx. now apply sublist_skip.
  - split; [exact Hrest|]. cbn [length seq]. now apply sublist_cons.
Qed.

Lemma columnLoop_columns (columnsConfig : gmap (nat + string) ColumnConfigProps)
    (numIndices : nat) (columns : list (string * QuiverType)) (i : nat) :
  Forall (fun column => In (columnType column) ColumnType.values
                        /\ isIndex column = false
                        /\ i + numIndices <= columnIndex column
                           < i + numIndices + length columns)
    (columnLoop columnsConfig numIndices i columns)
  /\ map columnIndex (columnLoop columnsConfig numIndices i columns)
     `sublist_of` seq (i + numIndices) (length columns).
Proof.
  revert i. induction columns as [|[columnTitle quiverType] rest IH]; intros i;
    cbn [columnLoop].
  { split; constructor. }
  destruct (IH (S i)) as [Hall Hsub]. cbv zeta.
  assert (Hrest : Forall (fun column => In (columnType column) ColumnType.values
                                        /\ isIndex column = false
                                        /\ i + numIndices <= columnIndex column
                                           < i + numIndices
                                             + length ((columnTitle, quiverType) :: rest))
                    (columnLoop columnsConfig numIndices (S i) rest)).
  { eapply Forall_impl; [exact Hall|]. cbn [length].
    intros column (? & ? & ?). repeat split; try assumption; lia. }
  destruct (applyColumnConfig _ _) as [updated|] eqn:Happly.
  - apply applyColumnConfig_identity in Happly as [(_ & Hidx & Hisidx & _) Htype].
    cbn in Hidx, Hisidx, Htype. split.
    + constructor; [|exact Hrest]. split; [|split].
      * apply Htype, getColumnTypeFromQuiver_values.
      * exact Hisidx.
      * rewrite Hidx. cbn [length]. lia.
    + cbn [map length seq]. rewrite Hidx. now apply sublist_skip.
  - split; [exact Hrest|]. cbn [length seq]. now apply sublist_cons.
Qed.

Lemma indexLoop_no_config (types : list QuiverType) (i : nat) :
  map columnIndex (indexLoop ∅ i types) = seq i (length types).
Proof.
  revert i. induction types as [|quiverType rest IH]; intros i; [reflexivity|].
  cbn [indexLoop]. unfold applyColumnConfig. cbn [columnIndex title].
  rewrite !lookup_empty. cbn. now rewrite IH.
Qed.

Lemma columnLoop_no_config (numIndices : nat) (columns : list (string * QuiverType))
    (i : nat) :
  map columnIndex (columnLoop ∅ numIndices i columns)
  = seq (i + numIndices) (length columns).
Proof.
  revert i. induction columns as [|[columnTitle quiverType] rest IH]; intros i;
    [reflexivity|].
  cbn [columnLoop]. unfold applyColumnConfig. cbn [columnIndex title].
  rewrite !lookup_empty. cbn. now rewrite IH.
Qed.

Lemma applyColumnConfig_None (column : GridColumnWithCellTemplate)
    (columnsConfig : gmap (nat + string) ColumnConfigProps) :
  applyColumnConfig column (Some columnsConfig) = None
  <-> exists columnConfig,
        configOf column columnsConfig = Some columnConfig
        /\ cfg_hide columnConfig = Some true.
Proof.
  unfold applyColumnConfig. fold (configOf column columnsConfig).
  destruct (configOf column columnsConfig) as [columnConfig|].
  - destruct (bool_decide_reflect (cfg_hide columnConfig = Some true)) as [Hh | Hh].
    + split; [|reflexivity]. intros _. now exists columnConfig.
    + split; [discriminate|]. intros (c & [= <-] & Hc). contradiction.
  - split; [discriminate|]. now intros (c & Hc & _).
Qed.

(** The loops of [getColumns] apply the configuration to the columns they
    build without one, and drop the hidden ones. *)
Lemma indexLoop_omap (columnsConfig : gmap (nat + string) ColumnConfigProps)
    (types : list QuiverType) (i : nat) :
  indexLoop columnsConfig i types
  = omap (fun column => applyColumnConfig column (Some columnsConfig))
      (indexLoop ∅ i types).
Proof.
  revert i. induction types as [|quiverType rest IH]; intros i; [reflexivity|].
  cbn [indexLoop]. cbv zeta.
  set (column := {| id := _; title := _ |}).
  assert (Hnone : applyColumnConfig column (Some ∅) = Some column).
  { unfold applyColumnConfig. now rewrite !lookup_empty. }
  rewrite Hnone. cbn [omap list_omap]. rewrite <- IH.
  now destruct (applyColumnConfig column (Some columnsConfig)).
Qed.

Lemma columnLoop_omap (columnsConfig : gmap (nat + string) ColumnConfigProps)
    (numIndices : nat) (columns : list (string * QuiverType)) (i : nat) :
  columnLoop columnsConfig numIndices i columns
  = omap (fun column => applyColumnConfig column (Some columnsConfig))
      (columnLoop ∅ numIndices i columns).
Proof.
  revert i. induction columns as [|[columnTitle quiverType] rest IH]; intros i;
    [reflexivity|].
  cbn [columnLoop]. cbv zeta.
  set (column := {| id := _; title := _ |}).
  assert (Hnone : applyColumnConfig column (Some ∅) = Some column).
  { unfold applyColumnConfig. now rewrite !lookup_empty. }
  rewrite Hnone. cbn [omap list_omap]. rewrite <- IH.
  now destruct (applyColumnConfig column (Some columnsConfig)).
Qed.

Lemma getColumns_omap (data : Table)
    (columnsConfig : gmap (nat + string) ColumnConfigProps) :
  isEmpty (quiver data) = false ->
  getColumns data columnsConfig
  = omap (fun column => applyColumnConfig column (Some columnsConfig))
      (getColumns data ∅).
Proof.
  intros Hempty. unfold getColumns. rewrite Hempty. cbv zeta.
  rewrite omap_app. f_equal; [apply indexLoop_omap | apply columnLoop_omap].
Qed.

Lemma getColumns_no_config (data : Table) :
  isEmpty (quiver data) = false ->
  map columnIndex (getColumns data ∅) = seq 0 (numAllColumns data).
Proof.
  intros Hempty. unfold getColumns, numAllColumns. rewrite Hempty. cbv zeta.
  now rewrite map_app, seq_app, indexLoop_no_config, columnLoop_no_config.
Qed.

Lemma getColumns_values (data : Table)
    (columnsConfig : gmap (nat + string) ColumnConfigProps) :
  Forall (fun column => In (columnType column) ColumnType.values)
    (getColumns data columnsConfig).
Proof.
  unfold getColumns.
  destruct (isEmpty (quiver data)); [constructor; [cbv; tauto|constructor]|].
  cbv zeta. apply Forall_app. split.
  - eapply Forall_impl; [apply indexLoop_columns|]. now intros column (? & _).
  - eapply Forall_impl; [apply columnLoop_columns|]. now intros column (? & _).
Qed.

(** X10: The columns [getColumns] builds.  Every one has a type of the nine.
    For a table that is not empty, the column indices are a selection, in
    order and without repetition, of 0, ..., n-1, with n the number of
    columns of the table, index columns first: a column is an index
    column exactly when its index is below the number of index columns.
    Hidden columns are left out without renumbering the others; with no
    configuration, no index is left out.  The columns are those built
    without a configuration, each with the configuration applied, and a
    column is left out exactly when the configuration found for it hides
    it; under a configuration keyed by titles only, as the loader builds
    it, that is the entry under the title of the column.  A
    configuration that hides every column leaves no column at all,
    whereas an empty table gives one placeholder column. *)
Theorem getColumns_columns (data : Table)
    (columnsConfig : gmap (nat + string) ColumnConfigProps) :
  Forall (fun column => In (columnType column) ColumnType.values)
    (getColumns data columnsConfig)
  /\ (isEmpty (quiver data) = true -> length (getColumns data columnsConfig) = 1)
  /\ (isEmpty (quiver data) = false ->
      map columnIndex (getColumns data columnsConfig)
        `sublist_of` seq 0 (numAllColumns data)
      /\ map columnIndex (getColumns data ∅) = seq 0 (numAllColumns data)
      /\ Forall (fun column =>
                   isIndex column = true
                   <-> columnIndex column < length (indexTypes data))
           (getColumns data columnsConfig)
      /\ getColumns data columnsConfig
         = omap (fun column => applyColumnConfig column (Some columnsConfig))
             (getColumns data ∅)
      /\ (forall column,
            column ∈ getColumns data ∅ ->
            ((exists columnConfig,
                 configOf column columnsConfig = Some columnConfig
                 /\ cfg_hide columnConfig = Some true)
             <-> columnIndex column ∉ map columnIndex (getColumns data columnsConfig))
            /\ ((forall k, columnsConfig !! (inl k : nat + string) = None) ->
                configOf column columnsConfig
                = columnsConfig !! (inr (title column) : nat + string)))
      /\ ((forall column,
             column ∈ getColumns data ∅ ->
             exists columnConfig,
               configOf column columnsConfig = Some columnConfig
               /\ cfg_hide columnConfig = Some true) ->
          getColumns data columnsConfig = [])).
Proof.
  split; [apply getColumns_values|].
  destruct (isEmpty (quiver data)) eqn:Hempty.
  { unfold getColumns. rewrite Hempty. split; [reflexivity|discriminate]. }
  split; [discriminate|]. intros _.
  pose proof (getColumns_omap data columnsConfig Hempty) as Homap.
  pose proof (getColumns_no_config data Hempty) as Hseq.
  split; [|split; [|split; [|split; [|split]]]].
  - unfold getColumns, numAllColumns. rewrite Hempty. cbv zeta.
    rewrite map_app, seq_app. apply sublist_app.
    + apply indexLoop_columns.
    + apply (columnLoop_columns columnsConfig (length (indexTypes data))
               (dataColumns data) 0).
  - exact Hseq.
  - unfold getColumns. rewrite Hempty. cbv zeta. apply Forall_app. split.
    + eapply Forall_impl; [apply indexLoop_columns|]. intros column (_ & -> & Hidx).
      split; [lia|reflexivity].
    + eapply Forall_impl; [apply (columnLoop_columns columnsConfig
                                    (length (indexTypes data)) (dataColumns data) 0)|].
      intros column (_ & -> & Hidx). split; [discriminate|lia].
  - exact Homap.
  - intros column Hin. split.
    + rewrite <- applyColumnConfig_None, Homap. split.
      * intros Hnone (updated & Hidx & Hupdated)%list_elem_of_fmap.
        apply list_elem_of_omap in Hupdated as (column' & Hin' & Happly).
        pose proof (applyColumnConfig_identity _ _ _ Happly) as [(_ & Hsame & _) _].
        assert (column' = column); [|congruence].
        apply list_elem_of_lookup in Hin as [i Hi].
        apply list_elem_of_lookup in Hin' as [i' Hi'].
        assert (i' = i); [|congruence].
        apply (NoDup_lookup (map columnIndex (getColumns data ∅)) i' i
                 (columnIndex column)).
        -- rewrite Hseq. apply NoDup_seq.
        -- rewrite list_lookup_fmap, Hi'. cbn. congruence.
        -- now rewrite list_lookup_fmap, Hi.
      * intros Hout.
        destruct (applyColumnConfig column (Some columnsConfig)) as [updated|] eqn:Happly;
          [|reflexivity].
        destruct Hout. apply list_elem_of_fmap. exists updated. split.
        -- pose proof (applyColumnConfig_identity _ _ _ Happly) as [(_ & Hsame & _) _].
           congruence.
        -- apply list_elem_of_omap. now exists column.
    + intros Hkeys. unfold configOf. now rewrite Hkeys.
  - intros Hhide. rewrite Homap. clear Homap Hseq.
    induction (getColumns data ∅) as [|column rest IH]; [reflexivity|].
    cbn [omap list_omap].
    rewrite (proj2 (applyColumnConfig_None column columnsConfig))
      by (apply Hhide; now left).
    apply IH. intros column' Hin. apply Hhide. now right.
Qed.

(** The table of people with the column "age" hidden: the columns left
    are those of index 0 and 1; with every title hidden, none is left. *)
Lemma getColumns_columns_witness :
  map columnIndex (getColumns peopleTable hideAge) = [0; 1]
  /\ map columnIndex (getColumns peopleTable hideAge) `sublist_of` seq 0 3
  /\ getColumns peopleTable hideAll = [].
Proof.
  split; [reflexivity|]. split.
  - exact (proj1 (proj2 (proj2 (getColumns_columns peopleTable hideAge)) eq_refl)).
  - apply (proj2 (proj2 (getColumns_columns peopleTable hideAll)) eq_refl).
    intros column Hin. exists hidden.
    apply list_elem_of_lookup in Hin as [[|[|[|i]]] Hi]; try discriminate Hi;
      injection Hi as <-; split; reflexivity.
Defined.

(** ** Headers and widths *)

Lemma updateSortingHeader_sameButTitle (columns : list GridColumnWithCellTemplate)
    (sort : option ColumnSortConfig) :
  Forall2 sameButTitle (updateSortingHeader columns sort) columns.
Proof.
  destruct sort as [sort|]; cbn [updateSortingHeader].
  - induction columns as [|column rest IH]; cbn [map]; constructor; [|exact IH].
    unfold sameButTitle.
    repeat destruct (bool_decide _); try reflexivity; now destruct column.
  - induction columns as [|column rest IH]; constructor; [now destruct column|exact IH].
Qed.

(** X11: [updateSortingHeader] changes titles only, and only of the columns
    with the id of the sorted column: such a column gets an arrow before
    its title, up when the direction is "asc" and down for every other
    direction, a missing one too; every other column, and every column
    when nothing is sorted, is returned as it is. *)
Theorem updateSortingHeader_titles (columns : list GridColumnWithCellTemplate) :
  updateSortingHeader columns None = columns
  /\ (forall sort, Forall2 sameButTitle (updateSortingHeader columns sort) columns)
  /\ (forall sort i column,
        columns !! i = Some column ->
        (id column <> id (sort_column sort) ->
         updateSortingHeader columns (Some sort) !! i = Some column)
        /\ (id column = id (sort_column sort) ->
            updateSortingHeader columns (Some sort) !! i
            = Some (with_title (sortArrow sort +:+ title column) column))).
Proof.
  split; [reflexivity|]. split.
  - intros sort. apply updateSortingHeader_sameButTitle.
  - intros sort i column Hi. cbn [updateSortingHeader].
    rewrite list_lookup_fmap, Hi. cbn [fmap option_fmap option_map]. split.
    + intros Hid. now rewrite bool_decide_eq_false_2.
    + intros Hid. rewrite bool_decide_eq_true_2 by assumption.
      unfold sortArrow. now destruct (bool_decide _).
Qed.

(** The columns "name" and "age" sorted by "age", ascending. *)
Lemma updateSortingHeader_titles_witness :
  updateSortingHeader [nameColumn; ageColumn] (Some sortedByAge) !! 0 = Some nameColumn
  /\ updateSortingHeader [nameColumn; ageColumn] (Some sortedByAge) !! 1
     = Some (with_title "↑ age" ageColumn).
Proof.
  pose proof (proj2 (proj2 (updateSortingHeader_titles [nameColumn; ageColumn]))
                sortedByAge) as H.
  split.
  - apply (proj1 (H 0 nameColumn eq_refl)). discriminate.
  - apply (proj2 (H 1 ageColumn eq_refl)). reflexivity.
Defined.

Lemma updateSortingHeader_lookup (columns : list GridColumnWithCellTemplate)
    (sort : ColumnSortConfig) (index : nat) (column : GridColumnWithCellTemplate) :
  columns !! index = Some column -> id column = id (sort_column sort) ->
  updateSortingHeader columns (Some sort) !! index
  = Some (with_title (sortArrow sort +:+ title column) column).
Proof.
  intros Hindex Hid. cbn [updateSortingHeader].
  rewrite list_lookup_fmap, Hindex. cbn [fmap option_fmap option_map].
  rewrite bool_decide_eq_true_2 by assumption.
  unfold sortArrow. now destruct (bool_decide _).
Qed.

(** X12: Clicks on one header go round: from no sorting to ascending, from
    ascending to descending, from descending back to no sorting.  Which
    column is the sorted one is told by its id alone: the clicked column
    is taken from the columns with the arrow in the title, as the
    component passes them, and is found sorted all the same.  A click on
    the header of another column than the sorted one starts with
    ascending.  The mode is "smart" for Number and ProgressChart columns
    and "default" for all others.  A click where there is no column
    throws. *)
Theorem onHeaderClick_cycle (columns : list GridColumnWithCellTemplate) (index : nat) :
  (forall clickedColumn,
      columns !! index = Some clickedColumn ->
      onHeaderClick None columns index = Ok (Some (sortedBy clickedColumn "asc"))
      /\ (forall sort,
            id (sort_column sort) = id clickedColumn ->
            sort_direction sort = Some "asc" ->
            onHeaderClick (Some sort) columns index
            = Ok (Some (sortedBy clickedColumn "desc")))
      /\ (forall sort,
            id (sort_column sort) = id clickedColumn ->
            sort_direction sort <> Some "asc" ->
            onHeaderClick (Some sort) columns index = Ok None)
      /\ (forall sort,
            id (sort_column sort) <> id clickedColumn ->
            onHeaderClick (Some sort) columns index
            = Ok (Some (sortedBy clickedColumn "asc")))
      /\ (sort_mode (sortedBy clickedColumn "asc") = Some "smart"
          <-> columnType clickedColumn = ColumnType.Number
              \/ columnType clickedColumn = ColumnType.ProgressChart)
      /\ (sort_mode (sortedBy clickedColumn "asc") = Some "smart"
          \/ sort_mode (sortedBy clickedColumn "asc") = Some "default"))
  /\ (forall column,
        columns !! index = Some column ->
        exists first second,
          onHeaderClick None (updateSortingHeader columns None) index = Ok (Some first)
          /\ sort_direction first = Some "asc"
          /\ onHeaderClick (Some first) (updateSortingHeader columns (Some first)) index
             = Ok (Some second)
          /\ sort_direction second = Some "desc"
          /\ id (sort_column second) = id column
          /\ title (sort_column second) = "↑ " +:+ title column
          /\ onHeaderClick (Some second) (updateSortingHeader columns (Some second)) index
             = Ok None)
  /\ (length columns <= index ->
      forall sort, exists error, onHeaderClick sort columns index = Throw error).
Proof.
  assert (Hclick : forall shown clickedColumn,
             shown !! index = Some clickedColumn ->
             onHeaderClick None shown index = Ok (Some (sortedBy clickedColumn "asc"))
             /\ (forall sort,
                   id (sort_column sort) = id clickedColumn ->
                   sort_direction sort = Some "asc" ->
                   onHeaderClick (Some sort) shown index
                   = Ok (Some (sortedBy clickedColumn "desc")))
             /\ (forall sort,
                   id (sort_column sort) = id clickedColumn ->
                   sort_direction sort <> Some "asc" ->
                   onHeaderClick (Some sort) shown index = Ok None)
             /\ (forall sort,
                   id (sort_column sort) <> id clickedColumn ->
                   onHeaderClick (Some sort) shown index
                   = Ok (Some (sortedBy clickedColumn "asc")))).
  { intros shown clickedColumn Hclicked. unfold onHeaderClick. rewrite Hclicked.
    split; [reflexivity|]. split; [|split].
    - intros sort Hid Hasc. now rewrite !bool_decide_eq_true_2.
    - intros sort Hid Hasc.
      now rewrite bool_decide_eq_true_2, bool_decide_eq_false_2.
    - intros sort Hid. now rewrite bool_decide_eq_false_2. }
  split; [|split].
  - intros clickedColumn Hclicked.
    destruct (Hclick columns clickedColumn Hclicked) as (H1 & H2 & H3 & H4).
    split; [exact H1|]. split; [exact H2|]. split; [exact H3|]. split; [exact H4|].
    cbn [sortedBy sort_mode]. unfold getColumnSortMode. split.
    + destruct (String.eqb_spec (columnType clickedColumn) ColumnType.Number) as [E | E].
      * cbn. split; [now left | reflexivity].
      * destruct (String.eqb_spec (columnType clickedColumn) ColumnType.ProgressChart)
          as [E' | E'].
        -- cbn. split; [now right | reflexivity].
        -- cbn. split; [discriminate|]. now intros [? | ?].
    + destruct (_ || _); [now left | now right].
  - intros column Hcolumn.
    exists (sortedBy column "asc"),
      (sortedBy (with_title ("↑ " +:+ title column) column) "desc").
    split; [apply (Hclick columns column Hcolumn)|]. split; [reflexivity|].
    pose proof (updateSortingHeader_lookup columns (sortedBy column "asc") index column
                  Hcolumn eq_refl) as Hfirst.
    pose proof (updateSortingHeader_lookup columns
                  (sortedBy (with_title ("↑ " +:+ title column) column) "desc")
                  index column Hcolumn eq_refl) as Hsecond.
    split; [|split; [reflexivity|split; [reflexivity|split; [reflexivity|]]]].
    + now apply (proj1 (proj2 (Hclick _ _ Hfirst))).
    + now apply (proj1 (proj2 (proj2 (Hclick _ _ Hsecond)))).
  - intros Hlen sort. unfold onHeaderClick.
    rewrite (proj2 (lookup_ge_None columns index)) by lia. now eexists.
Qed.

(** Three clicks on the header of "age", each on the columns as they are
    shown after the click before. *)
Lemma onHeaderClick_cycle_witness :
  exists first second,
    onHeaderClick None [nameColumn; ageColumn] 1 = Ok (Some first)
    /\ onHeaderClick (Some first)
         (updateSortingHeader [nameColumn; ageColumn] (Some first)) 1
       = Ok (Some second)
    /\ title (sort_column second) = "↑ age"
    /\ onHeaderClick (Some second)
         (updateSortingHeader [nameColumn; ageColumn] (Some second)) 1
       = Ok None.
Proof.
  destruct (proj1 (proj2 (onHeaderClick_cycle [nameColumn; ageColumn] 1))
              ageColumn eq_refl)
    as (first & second & H1 & _ & H2 & _ & _ & H3 & H4).
  exists first, second. split; [exact H1|]. split; [exact H2|].
  split; [exact H3|exact H4].
Defined.

Lemma applyColumnSizes_sameButWidth (columnSizes : gmap string float)
    (columns : list GridColumnWithCellTemplate) :
  Forall2 sameButWidth (applyColumnSizes columnSizes columns) columns.
Proof.
  unfold applyColumnSizes.
  induction columns as [|c rest IH]; cbn [map]; constructor; [|exact IH].
  unfold sameButWidth.
  destruct (id c) as [i|] eqn:Hid; [|now repeat split].
  destruct (String.eqb i ""); [now repeat split|].
  destruct (columnSizes !! i); now repeat split.
Qed.

(** X13: The widths the user set.  [applyColumnSizes] changes widths only.  A
    column that was resized has, from then on, the new size as its width,
    as it was given: the bounds of a column width are not applied to it.
    The columns of every other id are as they were before the resize,
    and resizing a column without an id changes nothing. *)
Theorem onColumnResize_applied (columnSizes : gmap string float)
    (columns : list GridColumnWithCellTemplate) (column : GridColumnWithCellTemplate)
    (newSize : float) :
  applyColumnSizes ∅ columns = columns
  /\ Forall2 sameButWidth (applyColumnSizes columnSizes columns) columns
  /\ (forall i, id column = Some i -> i <> "" ->
      forall k c, columns !! k = Some c ->
        (id c = Some i ->
         applyColumnSizes (onColumnResize columnSizes column newSize) columns !! k
         = Some (with_width newSize c))
        /\ (id c <> Some i ->
            applyColumnSizes (onColumnResize columnSizes column newSize) columns !! k
            = applyColumnSizes columnSizes columns !! k))
  /\ (id column = None \/ id column = Some "" ->
      onColumnResize columnSizes column newSize = columnSizes).
Proof.
  split; [|split; [|split]].
  - unfold applyColumnSizes. induction columns as [|c rest IH]; [reflexivity|].
    cbn [map]. rewrite IH. f_equal.
    destruct (id c) as [i|]; [|reflexivity].
    destruct (String.eqb i ""); [reflexivity|]. now rewrite lookup_empty.
  - apply applyColumnSizes_sameButWidth.
  - intros i Hid Hne k c Hk. unfold onColumnResize, applyColumnSizes.
    rewrite Hid, !list_lookup_fmap, Hk.
    destruct (String.eqb_spec i "") as [? | _]; [contradiction|].
    cbn [fmap option_fmap option_map]. split.
    + intros ->. destruct (String.eqb_spec i "") as [? | _]; [contradiction|].
      now rewrite lookup_insert_eq.
    + intros Hc. destruct (id c) as [j|]; [|reflexivity].
      destruct (String.eqb j ""); [reflexivity|].
      rewrite lookup_insert_ne by congruence. reflexivity.
  - unfold onColumnResize. now intros [-> | ->].
Qed.

(** The column "age" dragged to a width of 1000. *)
Lemma onColumnResize_applied_witness :
  applyColumnSizes (onColumnResize ∅ ageColumn 1000) [nameColumn; ageColumn] !! 1
  = Some (with_width 1000 ageColumn)
  /\ applyColumnSizes (onColumnResize ∅ ageColumn 1000) [nameColumn; ageColumn] !! 0
     = Some nameColumn.
Proof.
  pose proof (proj1 (proj2 (proj2 (onColumnResize_applied ∅ [nameColumn; ageColumn]
                                     ageColumn 1000)))
                "column-age-1" eq_refl) as H.
  split.
  - apply (H ltac:(discriminate) 1 ageColumn eq_refl). reflexivity.
  - rewrite (proj2 (H ltac:(discriminate) 0 nameColumn eq_refl)); [reflexivity|].
    discriminate.
Defined.

(** ** Reads *)

Lemma Forall2_compose {A : Type} (P Q R : A -> A -> Prop) (l1 l2 l3 : list A) :
  (forall x y z, P x y -> Q y z -> R x z) ->
  Forall2 P l1 l2 -> Forall2 Q l2 l3 -> Forall2 R l1 l3.
Proof.
  intros H H12. revert l3.
  induction H12 as [|x y l1 l2 Hxy _ IH]; intros l3 H23;
    inversion H23; subst; constructor; eauto.
Qed.

Lemma getCellContent_sameForReads (columns columns' : list GridColumnWithCellTemplate)
    (cell : nat * nat) (s : State) :
  Forall2 sameForReads columns columns' ->
  getCellContent columns cell s = getCellContent columns' cell s.
Proof.
  intros Hsame. destruct cell as [col row].
  unfold getCellContent, bind, getData, cacheGet, ret, call. cbv beta iota.
  destruct (isEmpty (source s)); [reflexivity|].
  rewrite (Forall2_length _ _ _ Hsame).
  destruct (_ >? _)%Z; [reflexivity|].
  destruct (EditingCache.get _ col row) as [cached|]; [reflexivity|].
  destruct (columns !! col) as [column|] eqn:Hcolumn.
  - destruct (Forall2_lookup_l _ _ _ _ _ Hsame Hcolumn)
      as (column' & -> & Htype & Hedit & Hidx & Hcol).
    now rewrite Htype, Hedit, Hidx, Hcol.
  - apply lookup_ge_None in Hcolumn. rewrite (Forall2_length _ _ _ Hsame) in Hcolumn.
    apply lookup_ge_None in Hcolumn. now rewrite Hcolumn.
Qed.

(** X14: What a read returns and leaves does not depend on the titles and
    the widths of the columns: with the arrows of [updateSortingHeader]
    in the titles and the widths the user set applied, [getCellContent]
    is the same computation.  On the columns [useDataLoader] builds from
    a table, configured, resized and sorted in any way, no read
    throws. *)
Theorem reads_ignore_titles_and_widths :
  (forall columns columnSizes sort cell s,
      getCellContent (updateSortingHeader (applyColumnSizes columnSizes columns) sort)
        cell s
      = getCellContent columns cell s)
  /\ (forall data columnsConfig columnSizes sort col row s,
        exists cell,
          fst (getCellContent
                 (updateSortingHeader (loaderColumns data columnsConfig columnSizes) sort)
                 (col, row) s)
          = Ok cell).
Proof.
  assert (Hsame : forall columns columnSizes sort,
             Forall2 sameForReads
               (updateSortingHeader (applyColumnSizes columnSizes columns) sort)
               columns).
  { intros columns columnSizes sort.
    eapply Forall2_compose;
      [|apply updateSortingHeader_sameButTitle|apply applyColumnSizes_sameButWidth].
    intros c1 c2 c3 <- H. unfold sameButWidth in H. unfold sameForReads. cbn. tauto. }
  split.
  - intros columns columnSizes sort cell s.
    apply getCellContent_sameForReads, Hsame.
  - intros data columnsConfig columnSizes sort col row s. unfold loaderColumns.
    rewrite (getCellContent_sameForReads _ _ _ s (Hsame _ columnSizes sort)).
    apply getCellContent_returns, getColumns_values.
Qed.

(** ** Edits *)

Lemma getCellContent_sameButLog (columns : list GridColumnWithCellTemplate)
    (cell : nat * nat) :
  keeps sameButLog (getCellContent columns cell).
Proof.
  assert (Hrefl : forall s, sameButLog s s) by now repeat split.
  assert (Htrans : forall s1 s2 s3,
             sameButLog s1 s2 -> sameButLog s2 s3 -> sameButLog s1 s3).
  { intros s1 s2 s3 (H1 & H2 & H3) (H4 & H5 & H6). repeat split; congruence. }
  destruct cell as [col row]. unfold getCellContent.
  apply keeps_bind; [assumption | now apply keeps_getData |]. intros data.
  destruct (isEmpty data); [now apply keeps_ret|].
  destruct (_ >? _)%Z; [now apply keeps_call|].
  apply keeps_bind; [assumption | now apply keeps_cacheGet |]. intros [cached|].
  { now apply keeps_ret. }
  destruct (columns !! col) as [column|]; [|now apply keeps_call].
  apply keeps_bind; [assumption | now apply keeps_call |]. intros cellTemplate.
  destruct (_ >? _)%Z; [now apply keeps_ret|].
  apply keeps_tryCatch; [assumption | |].
  - apply keeps_bind; [assumption | now apply keeps_call |]. intros quiverCell.
    now apply keeps_call.
  - intros e. apply keeps_bind; [assumption | | intros; now apply keeps_ret].
    intros s. now repeat split.
Qed.

(** What a read returns depends on the table and on the entry of the
    cache at the cell that is read, and on nothing else of the state. *)
Lemma getCellContent_reads (columns : list GridColumnWithCellTemplate) (col row : nat)
    (s1 s2 : State) :
  source s1 = source s2 ->
  EditingCache.get (editingCache s1) col row = EditingCache.get (editingCache s2) col row ->
  fst (getCellContent columns (col, row) s1) = fst (getCellContent columns (col, row) s2).
Proof.
  intros Hsource Hcache.
  unfold getCellContent, bind, getData, cacheGet, ret, call. cbv beta iota.
  rewrite Hsource.
  destruct (isEmpty (source s2)); [reflexivity|].
  destruct (_ >? _)%Z; [reflexivity|].
  cbv beta. rewrite Hcache. clear Hcache.
  destruct (EditingCache.get (editingCache s2) col row) as [cached|]; [reflexivity|].
  destruct (columns !! col) as [column|]; [|reflexivity].
  destruct (getCellTemplate _ _ _) as [cellTemplate|e]; [|reflexivity].
  destruct (_ >? _)%Z; [reflexivity|].
  unfold tryCatch, logError.
  destruct (getCell _ _ _) as [quiverCell|]; [|reflexivity].
  now destruct (fillCellTemplate _ quiverCell _).
Qed.

Lemma getCellContent_cached (columns : list GridColumnWithCellTemplate) (col row : nat)
    (s : State) (cell : GridCell) :
  isEmpty (source s) = false -> col < length columns ->
  EditingCache.get (editingCache s) col row = Some cell ->
  fst (getCellContent columns (col, row) s) = Ok cell.
Proof.
  intros Hempty Hcol Hcache.
  unfold getCellContent, bind, getData, cacheGet, ret, call. cbv beta iota.
  rewrite Hempty.
  destruct (Z.gtb_spec (Z.of_nat col) (Z.of_nat (length columns) - 1)); [lia|].
  cbv beta. now rewrite Hcache.
Qed.

(** X15: An edit is read back.  When [onCellEdited] accepts an edit of a cell
    of a table that is not empty (both cells are editable for the grid,
    and the new data is a string, a number or a boolean), the next read
    of the same cell returns the current cell updated with the new data
    and stamped with the time of the edit, and the read of every cell at
    another column, or at another row of the table, returns what it
    returned before. *)
Theorem edit_then_read (columns : list GridColumnWithCellTemplate)
    (isEditableGridCell : GridCell -> bool) (getOriginalIndex : nat -> nat)
    (col row : nat) (newVal currentCell : GridCell) (s : State) :
  isEmpty (source s) = false -> col < length columns ->
  fst (getCellContentSorted columns getOriginalIndex (col, row) s) = Ok currentCell ->
  isEditableGridCell newVal = true -> isEditableGridCell currentCell = true ->
  isString (data newVal) || isNumber (data newVal) || isBoolean (data newVal) = true ->
  let s' := snd (onCellEdited columns isEditableGridCell getOriginalIndex
                   (col, row) newVal s) in
  fst (getCellContentSorted columns getOriginalIndex (col, row) s')
  = Ok (updateCell (clock s) currentCell (data newVal) None)
  /\ (forall col' row',
        (col', getOriginalIndex row') <> (col, getOriginalIndex row) ->
        fst (getCellContentSorted columns getOriginalIndex (col', row') s')
        = fst (getCellContentSorted columns getOriginalIndex (col', row') s)).
Proof.
  intros Hempty Hcol Hcurrent HnewVal Hcur Hdata. cbv zeta.
  unfold onCellEdited, getCellContentSorted in *. unfold bind.
  pose proof (getCellContent_sameButLog columns (col, getOriginalIndex row) s)
    as (Hsource & Hcache & Hclock).
  destruct (getCellContent columns (col, getOriginalIndex row) s)
    as [[cell | e] s1]; cbn [fst snd] in *; [|discriminate].
  injection Hcurrent as ->. rewrite HnewVal, Hcur, Hdata. cbn [negb orb].
  unfold performance_now, cacheSet. cbn [snd]. split.
  - apply getCellContent_cached; cbn [source editingCache]; [congruence|assumption|].
    rewrite Hclock. apply EditingCache_get_set_eq.
  - intros col' row' Hne. apply getCellContent_reads; cbn [source editingCache].
    + exact Hsource.
    + rewrite Hcache. apply EditingCache_get_set_ne. congruence.
Qed.

(** The first cell of the column "name" edited to "Ada". *)
Lemma edit_then_read_witness :
  let newVal := with_data (JString "Ada") editedCell in
  let s' := snd (onCellEdited [nameColumn] (fun _ => true) (fun row => row)
                   (0, 0) newVal freshState) in
  exists cell,
    fst (getCellContentSorted [nameColumn] (fun row => row) (0, 0) s') = Ok cell
    /\ data cell = JString "Ada" /\ lastUpdated cell = Some 0%float.
Proof.
  cbv zeta. eexists. split; [|split].
  - apply (proj1 (edit_then_read [nameColumn] (fun _ => true) (fun row => row) 0 0
                    (with_data (JString "Ada") editedCell) _ freshState
                    eq_refl ltac:(cbn; lia) eq_refl eq_refl eq_refl eq_refl)).
  - reflexivity.
  - reflexivity.
Defined.

(** ** Charts *)





(** ** Reads that fall back *)

(** X17: Where [getCellContent] has no value to show, it falls back to a
    cell without one and does not throw.  Of an empty table every read
    returns the read-only text cell showing "empty", whatever the cache
    holds.  Beyond the last column a read returns the read-only text
    template.  For a cell of a column that is not cached: beyond the last
    row the read returns the template of the column; when the reader of
    the table throws, or [fillCellTemplate] on the cell that was read,
    the read returns the template of the column and logs the error,
    once; no other read logs anything, and a cell that is filled is
    returned as it was filled. *)
Theorem getCellContent_fallbacks (columns : list GridColumnWithCellTemplate)
    (col row : nat) (s : State) :
  (isEmpty (source s) = true ->
   getCellContent columns (col, row) s
   = (Ok (with_displayData (JString "empty")
            (returned (getCellTemplate ColumnType.Text true true))), s))
  /\ (isEmpty (source s) = false -> length columns <= col ->
      getCellContent columns (col, row) s
      = (getCellTemplate ColumnType.Text true false, s))
  /\ (forall column cellTemplate,
        isEmpty (source s) = false ->
        columns !! col = Some column ->
        EditingCache.get (editingCache s) col row = None ->
        getCellTemplate (columnType column) (negb (isEditable column)) (isIndex column)
        = Ok cellTemplate ->
        ((numRows (source s) - 1 < Z.of_nat row)%Z ->
         getCellContent columns (col, row) s = (Ok cellTemplate, s))
        /\ (forall error,
              (Z.of_nat row <= numRows (source s) - 1)%Z ->
              getCell (source s) (row + 1) (columnIndex column) = Throw error ->
              fst (getCellContent columns (col, row) s) = Ok cellTemplate
              /\ logged (snd (getCellContent columns (col, row) s))
                 = logged s ++ [error])
        /\ (forall quiverCell error,
              (Z.of_nat row <= numRows (source s) - 1)%Z ->
              getCell (source s) (row + 1) (columnIndex column) = Ok quiverCell ->
              fillCellTemplate cellTemplate quiverCell (cssStyles (source s))
              = Throw error ->
              fst (getCellContent columns (col, row) s) = Ok cellTemplate
              /\ logged (snd (getCellContent columns (col, row) s))
                 = logged s ++ [error])
        /\ (forall quiverCell cell,
              (Z.of_nat row <= numRows (source s) - 1)%Z ->
              getCell (source s) (row + 1) (columnIndex column) = Ok quiverCell ->
              fillCellTemplate cellTemplate quiverCell (cssStyles (source s)) = Ok cell ->
              getCellContent columns (col, row) s = (Ok cell, s))).
Proof.
  unfold getCellContent, bind, getData, cacheGet, ret, call. cbv beta iota.
  split; [|split].
  - now intros ->.
  - intros -> Hcol.
    destruct (Z.gtb_spec (Z.of_nat col) (Z.of_nat (length columns) - 1)); [reflexivity|lia].
  - intros column cellTemplate -> Hcolumn Hcache Htemplate.
    assert (Hcol : col < length columns) by (eapply lookup_lt_Some; eassumption).
    destruct (Z.gtb_spec (Z.of_nat col) (Z.of_nat (length columns) - 1)); [lia|].
    cbv beta. rewrite Hcache, Hcolumn, Htemplate.
    split; [|split; [|split]].
    + intros Hrow.
      destruct (Z.gtb_spec (Z.of_nat row) (numRows (source s) - 1)); [reflexivity|lia].
    + intros error Hrow Hthrow.
      destruct (Z.gtb_spec (Z.of_nat row) (numRows (source s) - 1)); [lia|].
      unfold tryCatch, logError. now rewrite Hthrow.
    + intros quiverCell error Hrow Hcell Hthrow.
      destruct (Z.gtb_spec (Z.of_nat row) (numRows (source s) - 1)); [lia|].
      unfold tryCatch, logError. now rewrite Hcell, Hthrow.
    + intros quiverCell cell Hrow Hcell Hfill.
      destruct (Z.gtb_spec (Z.of_nat row) (numRows (source s) - 1)); [lia|].
      unfold tryCatch. now rewrite Hcell, Hfill.
Qed.

(** A table whose reader throws: the read gives the empty text cell of
    the column and logs the error.  A table whose cell has the
    unbalanced id: the read gives the empty text cell and logs the
    error of the regular expression. *)
Lemma getCellContent_fallbacks_witness :
  (fst (getCellContent [nameColumn] (0, 0) brokenState)
   = getCellTemplate ColumnType.Text true false
   /\ logged (snd (getCellContent [nameColumn] (0, 0) brokenState))
      = ["Row index is out of range."])
  /\ (fst (getCellContent [nameColumn] (0, 0) unbalancedState)
      = getCellTemplate ColumnType.Text true false
      /\ logged (snd (getCellContent [nameColumn] (0, 0) unbalancedState))
         = ["SyntaxError: Invalid regular expression: Unterminated group"]).
Proof.
  split.
  - exact (proj1 (proj2 (proj2 (proj2 (getCellContent_fallbacks [nameColumn] 0 0
                                         brokenState))
                           nameColumn _ eq_refl eq_refl eq_refl eq_refl))
             "Row index is out of range." ltac:(cbn; lia) eq_refl).
  - exact (proj1 (proj2 (proj2 (proj2 (proj2 (getCellContent_fallbacks [nameColumn] 0 0
                                                unbalancedState))
                                  nameColumn _ eq_refl eq_refl eq_refl eq_refl)))
             unbalancedCell
             "SyntaxError: Invalid regular expression: Unterminated group"
             ltac:(cbn; lia) eq_refl eq_refl).
Defined.

(** X18: [onCellEdited] caches nothing, and leaves the table as it is, when
    the grid does not take the new cell or the current cell for editable,
    and when the new data is neither a string nor a number nor a
    boolean. *)
Theorem onCellEdited_rejects (columns : list GridColumnWithCellTemplate)
    (isEditableGridCell : GridCell -> bool) (getOriginalIndex : nat -> nat)
    (col row : nat) (newVal : GridCell) (s : State) :
  let s' := snd (onCellEdited columns isEditableGridCell getOriginalIndex
                   (col, row) newVal s) in
  (isEditableGridCell newVal = false
   \/ (exists currentCell,
         fst (getCellContentSorted columns getOriginalIndex (col, row) s) = Ok currentCell
         /\ isEditableGridCell currentCell = false)
   \/ isString (data newVal) || isNumber (data newVal) || isBoolean (data newVal) = false) ->
  sameButLog s s'.
Proof.
  cbv zeta. intros Hreject.
  unfold onCellEdited, getCellContentSorted in *. unfold bind.
  pose proof (getCellContent_sameButLog columns (col, getOriginalIndex row) s) as Hread.
  destruct (getCellContent columns (col, getOriginalIndex row) s)
    as [[currentCell | e] s1]; cbn [fst snd] in *; [|exact Hread].
  destruct Hreject as [-> | [(cell & [= <-] & ->) | ->]].
  - exact Hread.
  - rewrite orb_true_r. exact Hread.
  - now destruct (_ || _).
Qed.

(** An edit to a list of values is not taken. *)
Lemma onCellEdited_rejects_witness :
  editingCache (snd (onCellEdited [nameColumn] (fun _ => true) (fun row => row) (0, 0)
                       (with_data (JArray [JString "Ada"]) editedCell) freshState))
  = EditingCache.empty.
Proof.
  apply (onCellEdited_rejects [nameColumn] (fun _ => true) (fun row => row) 0 0
           (with_data (JArray [JString "Ada"]) editedCell) freshState).
  right. right. reflexivity.
Defined.

(** ** Column types, again *)

(** X19: The two inferences of a column type, composed.  From the type of the
    reader only Text, Number, Boolean and List come; urls, images and
    charts are for the configuration to ask for.  A column type is its
    own configuration string: [getColumnTypeFromConfig] returns each of
    the nine values unchanged, so it is idempotent, and it returns the
    type inferred from the reader unchanged. *)
Theorem column_types_fixed (name : option string) (quiverType : QuiverType) :
  In (getColumnTypeFromQuiver quiverType)
    [ColumnType.Text; ColumnType.Number; ColumnType.Boolean; ColumnType.List]
  /\ (forall type, In type ColumnType.values ->
        getColumnTypeFromConfig (Some type) = type)
  /\ getColumnTypeFromConfig (Some (getColumnTypeFromConfig name))
     = getColumnTypeFromConfig name
  /\ getColumnTypeFromConfig (Some (getColumnTypeFromQuiver quiverType))
     = getColumnTypeFromQuiver quiverType.
Proof.
  assert (Hfixed : forall type, In type ColumnType.values ->
                     getColumnTypeFromConfig (Some type) = type).
  { intros type Hin. cbv [ColumnType.values In] in Hin.
    repeat destruct Hin as [<- | Hin]; try contradiction; vm_compute; reflexivity. }
  split; [|split; [exact Hfixed|split]].
  - destruct (typeName quiverType) as [n|] eqn:Hname.
    + rewrite (getColumnTypeFromQuiver_table _ _ Hname). unfold quiverColumnType.
      destruct (String.eqb _ "bool"); [cbv; tauto|].
      destruct (includes _ _); [cbv; tauto|].
      destruct (JsString.startsWith _ "list"); cbv; tauto.
    + unfold getColumnTypeFromQuiver. rewrite Hname. cbv; tauto.
  - apply Hfixed, getColumnTypeFromConfig_values.
  - apply Hfixed, getColumnTypeFromQuiver_values.
Qed.

(** ** Positions and ids of the columns *)

Lemma sublist_seq_lookup (l : list nat) (n i k x : nat) :
  l `sublist_of` seq i n -> l !! k = Some x -> i + k <= x < i + n.
Proof.
  revert l i k. induction n as [|n IH]; intros l i k; cbn [seq].
  - intros Hsub%sublist_nil_r. now subst.
  - intros [Hsub | (l' & -> & Hsub)]%sublist_cons_r Hk.
    + specialize (IH _ _ _ Hsub Hk). lia.
    + destruct k as [|k]; cbn in Hk.
      * injection Hk as <-. lia.
      * specialize (IH _ _ _ Hsub Hk). lia.
Qed.

Lemma sublist_seq_increasing (l : list nat) (n i k k' x x' : nat) :
  l `sublist_of` seq i n -> k < k' -> l !! k = Some x -> l !! k' = Some x' -> x < x'.
Proof.
  revert l i k k'. induction n as [|n IH]; intros l i k k'; cbn [seq].
  - intros Hsub%sublist_nil_r. now subst.
  - intros [Hsub | (l' & -> & Hsub)]%sublist_cons_r Hlt Hk Hk'.
    + exact (IH _ _ _ _ Hsub Hlt Hk Hk').
    + destruct k' as [|k']; [lia|]. cbn in Hk'. destruct k as [|k]; cbn in Hk.
      * injection Hk as <-. pose proof (sublist_seq_lookup _ _ _ _ _ Hsub Hk'). lia.
      * assert (Hlt' : k < k') by lia. exact (IH _ _ _ _ Hsub Hlt' Hk Hk').
Qed.

Lemma getColumns_indices (data : Table)
    (columnsConfig : gmap (nat + string) ColumnConfigProps) :
  isEmpty (quiver data) = false ->
  map columnIndex (getColumns data columnsConfig) `sublist_of` seq 0 (numAllColumns data).
Proof.
  intros Hempty. unfold getColumns, numAllColumns. rewrite Hempty. cbv zeta.
  rewrite map_app, seq_app. apply sublist_app.
  - apply indexLoop_columns.
  - apply (columnLoop_columns columnsConfig (length (indexTypes data))
             (dataColumns data) 0).
Qed.

(** X20: The position of a column in the grid and its index in the table.
    Hidden columns shift the columns after them to the left: the column
    at position [col] of the grid is a column of the table of an index
    that is [col] at least, and [col] itself when nothing is configured;
    from left to right the indices increase strictly. *)
Theorem getColumns_positions (data : Table)
    (columnsConfig : gmap (nat + string) ColumnConfigProps)
    (col : nat) (column : GridColumnWithCellTemplate) :
  isEmpty (quiver data) = false ->
  getColumns data columnsConfig !! col = Some column ->
  col <= columnIndex column < numAllColumns data
  /\ (forall col' column',
        col < col' -> getColumns data columnsConfig !! col' = Some column' ->
        columnIndex column < columnIndex column')
  /\ (forall column', getColumns data ∅ !! col = Some column' ->
                      columnIndex column' = col).
Proof.
  intros Hempty Hcol.
  pose proof (getColumns_indices data columnsConfig Hempty) as Hsub.
  assert (Hidx : forall k c, getColumns data columnsConfig !! k = Some c ->
                             map columnIndex (getColumns data columnsConfig) !! k
                             = Some (columnIndex c)).
  { intros k c Hk. now rewrite list_lookup_fmap, Hk. }
  split; [|split].
  - pose proof (sublist_seq_lookup _ _ _ _ _ Hsub (Hidx _ _ Hcol)). lia.
  - intros col' column' Hlt Hcol'.
    exact (sublist_seq_increasing _ _ _ _ _ _ _ Hsub Hlt (Hidx _ _ Hcol) (Hidx _ _ Hcol')).
  - intros column' Hcol'.
    pose proof (getColumns_no_config data Hempty) as Hseq.
    assert (Hk : map columnIndex (getColumns data ∅) !! col = Some (columnIndex column'))
      by now rewrite list_lookup_fmap, Hcol'.
    rewrite Hseq in Hk. apply lookup_seq in Hk. lia.
Qed.

(** The column at position 1 of the table of people without "name". *)
Lemma getColumns_positions_witness :
  exists column,
    getColumns peopleTable {[ (inr "name" : nat + string) := hidden ]} !! 1 = Some column
    /\ 1 <= columnIndex column < 3.
Proof.
  eexists. split; [reflexivity|].
  refine (proj1 (getColumns_positions peopleTable
                   {[ (inr "name" : nat + string) := hidden ]} 1 _ eq_refl _)).
  reflexivity.
Defined.

Lemma decimal_inj (i j : nat) :
  JsNumber.decimal (Z.of_nat i) = JsNumber.decimal (Z.of_nat j) -> i = j.
Proof.
  unfold JsNumber.decimal. intros Heq.
  assert (Hnonnil : forall n, N.to_uint n <> Decimal.Nil).
  { intros [|p]; [discriminate | apply DecimalPos.Unsigned.to_uint_nonnil]. }
  assert (Hsome : Some (N.to_uint (Z.to_N (Z.of_nat i)))
                  = Some (N.to_uint (Z.to_N (Z.of_nat j)))).
  { rewrite <- !NilZero.usu by apply Hnonnil. now rewrite Heq. }
  injection Hsome as Huint. apply DecimalN.Unsigned.to_uint_inj in Huint. lia.
Qed.

Lemma decimal_no_dash (z : Z) :
  ~ In "-"%char (list_ascii_of_string (JsNumber.decimal z)).
Proof.
  unfold JsNumber.decimal. generalize (N.to_uint (Z.to_N z)) as d. intros d.
  assert (Hdigits : forall d, ~ In "-"%char
                                (list_ascii_of_string (NilEmpty.string_of_uint d))).
  { clear. induction d; cbn; [tauto|..]; intros [H | H]; try discriminate H; tauto. }
  destruct d; try apply Hdigits. cbn. intros [H | []]. discriminate H.
Qed.

Lemma dash_in_append (a b : string) :
  In "-"%char (list_ascii_of_string (a +:+ String "-" b)).
Proof. induction a as [|c a IH]; cbn; [now left | now right]. Qed.

(** A string is cut at its last "-" in one way. *)
Lemma append_dash_inj (t t' d d' : string) :
  ~ In "-"%char (list_ascii_of_string d) ->
  ~ In "-"%char (list_ascii_of_string d') ->
  t +:+ String "-" d = t' +:+ String "-" d' -> d = d'.
Proof.
  intros Hd Hd'. revert t'. induction t as [|c t IH]; intros [|c' t']; cbn.
  - now intros [= ->].
  - intros [= <- ->]. destruct Hd. apply dash_in_append.
  - intros [= -> <-]. destruct Hd'. apply dash_in_append.
  - intros [= <- Heq]. now apply IH with t'.
Qed.

Lemma indexLoop_ids (columnsConfig : gmap (nat + string) ColumnConfigProps)
    (types : list QuiverType) (i : nat) :
  Forall (fun column =>
            id column = Some ("index-" +:+ JsNumber.decimal (Z.of_nat (columnIndex column))))
    (indexLoop columnsConfig i types).
Proof.
  revert i. induction types as [|quiverType rest IH]; intros i; cbn [indexLoop].
  { constructor. }
  cbv zeta. destruct (applyColumnConfig _ _) as [updated|] eqn:Happly; [|apply IH].
  apply applyColumnConfig_identity in Happly as [(Hid & Hidx & _) _].
  constructor; [|apply IH]. now rewrite Hid, Hidx.
Qed.

Lemma columnLoop_ids (columnsConfig : gmap (nat + string) ColumnConfigProps)
    (numIndices : nat) (columns : list (string * QuiverType)) (i : nat) :
  Forall (fun column =>
            numIndices <= columnIndex column
            /\ exists columnTitle,
                 id column
                 = Some ("column-" +:+ columnTitle +:+ "-"
                           +:+ JsNumber.decimal
                                 (Z.of_nat (columnIndex column - numIndices))))
    (columnLoop columnsConfig numIndices i columns).
Proof.
  revert i. induction columns as [|[columnTitle quiverType] rest IH]; intros i;
    cbn [columnLoop].
  { constructor. }
  cbv zeta. destruct (applyColumnConfig _ _) as [updated|] eqn:Happly; [|apply IH].
  apply applyColumnConfig_identity in Happly as [(Hid & Hidx & _) _].
  constructor; [|apply IH]. rewrite Hid, Hidx. cbn [id columnIndex].
  split; [lia|]. exists columnTitle. repeat f_equal. lia.
Qed.

Lemma NoDup_map_by {A B C : Type} (f : A -> B) (g : A -> C) (l : list A) :
  (forall x y, x ∈ l -> y ∈ l -> g x = g y -> f x = f y) ->
  NoDup (map f l) -> NoDup (map g l).
Proof.
  induction l as [|a l IH]; intros Hfg; cbn [map]; [constructor|].
  rewrite !NoDup_cons. intros [Hnotin Hnodup]. split.
  - intros (y & Hy & Hin)%list_elem_of_fmap. apply Hnotin.
    apply list_elem_of_fmap. exists y. split; [|exact Hin].
    apply Hfg; [left | now right | exact Hy].
  - apply IH; [|exact Hnodup]. intros x y Hx Hy. apply Hfg; now right.
Qed.

(** X21: The ids of the columns.  Every column of [getColumns] has an id that
    is not empty, so that every resize of a column is kept, and no two
    columns have the same id: an id stands for one column of the table,
    whatever the titles are, and the header of one column at most shows
    the arrow of the sorting. *)
Theorem getColumns_ids (data : Table)
    (columnsConfig : gmap (nat + string) ColumnConfigProps) :
  NoDup (map id (getColumns data columnsConfig))
  /\ Forall (fun column => exists i, id column = Some i /\ i <> "")
       (getColumns data columnsConfig)
  /\ (forall col col' column column',
        getColumns data columnsConfig !! col = Some column ->
        getColumns data columnsConfig !! col' = Some column' ->
        id column = id column' -> col = col').
Proof.
  assert (Hnodup : NoDup (map id (getColumns data columnsConfig))).
  { destruct (isEmpty (quiver data)) eqn:Hempty.
    { unfold getColumns. rewrite Hempty. cbn. apply NoDup_singleton. }
    apply NoDup_map_by with (f := columnIndex).
    2:{ eapply sublist_NoDup; [apply NoDup_seq|].
        apply (getColumns_indices data columnsConfig Hempty). }
    unfold getColumns. rewrite Hempty. cbv zeta.
    pose proof (indexLoop_ids columnsConfig (indexTypes data) 0) as Hi.
    pose proof (columnLoop_ids columnsConfig (length (indexTypes data))
                  (dataColumns data) 0) as Hc.
    rewrite Forall_forall in Hi, Hc.
    intros x y [Hx | Hx]%elem_of_app [Hy | Hy]%elem_of_app Hid.
    - rewrite (Hi _ Hx), (Hi _ Hy) in Hid. injection Hid as Hid.
      now apply decimal_inj.
    - destruct (Hc _ Hy) as (_ & t & Ht). rewrite (Hi _ Hx), Ht in Hid.
      discriminate Hid.
    - destruct (Hc _ Hx) as (_ & t & Ht). rewrite (Hi _ Hy), Ht in Hid.
      discriminate Hid.
    - destruct (Hc _ Hx) as (Hge & t & Ht). destruct (Hc _ Hy) as (Hge' & t' & Ht').
      rewrite Ht, Ht' in Hid. injection Hid as Hid.
      apply append_dash_inj in Hid; try apply decimal_no_dash.
      apply decimal_inj in Hid. lia. }
  split; [exact Hnodup|]. split.
  - unfold getColumns. destruct (isEmpty (quiver data)).
    { constructor; [|constructor]. now eexists. }
    cbv zeta. apply Forall_app. split.
    + eapply Forall_impl; [apply indexLoop_ids|]. intros column ->. now eexists.
    + eapply Forall_impl; [apply columnLoop_ids|]. intros column (_ & t & ->).
      now eexists.
  - intros col col' column column' Hcol Hcol' Hid.
    apply (NoDup_lookup _ col col' (id column) Hnodup);
      rewrite list_lookup_fmap; [now rewrite Hcol | now rewrite Hcol', Hid].
Qed.

(** ** The order of numbers *)

Lemma SFcompare_swap (x y : spec_float) :
  SFcompare y x = match SFcompare x y with
                  | Some c => Some (CompOpp c)
                  | None => None
                  end.
Proof.
  destruct x as [s | s | | s m e], y as [s' | s' | | s' m' e']; cbn;
    try reflexivity; try (now destruct s); try (now destruct s');
    try (now destruct s, s').
  rewrite (Z.compare_antisym e e').
  change (Pos.compare_cont Eq m' m) with (m' ?= m)%positive.
  change (Pos.compare_cont Eq m m') with (m ?= m')%positive.
  rewrite (Pos.compare_antisym m m').
  destruct s, s', (e ?= e')%Z, (m ?= m')%positive; reflexivity.
Qed.

Lemma SFle_trans (x y z : spec_float) : SFle x y -> SFle y z -> SFle x z.
Proof.
  unfold SFle.
  destruct x as [s | s | | s m e], y as [s' | s' | | s' m' e'],
      z as [s'' | s'' | | s'' m'' e'']; cbn;
    try (intros [Hxy | Hxy] [Hyz | Hyz]; discriminate);
    try (destruct s; intros [Hxy | Hxy] [Hyz | Hyz]; (discriminate || tauto));
    try (destruct s'; intros [Hxy | Hxy] [Hyz | Hyz]; (discriminate || tauto));
    try (destruct s''; intros [Hxy | Hxy] [Hyz | Hyz]; (discriminate || tauto));
    try (destruct s, s'; intros [Hxy | Hxy] [Hyz | Hyz]; (discriminate || tauto));
    try (destruct s, s''; intros [Hxy | Hxy] [Hyz | Hyz]; (discriminate || tauto));
    try (destruct s', s''; intros [Hxy | Hxy] [Hyz | Hyz]; (discriminate || tauto));
    try (destruct s, s', s''; intros [Hxy | Hxy] [Hyz | Hyz]; (discriminate || tauto)).
  change (Pos.compare_cont Eq m m') with (m ?= m')%positive.
  change (Pos.compare_cont Eq m' m'') with (m' ?= m'')%positive.
  change (Pos.compare_cont Eq m m'') with (m ?= m'')%positive.
  destruct s, s', s'';
    try (intros [Hxy | Hxy] [Hyz | Hyz]; (discriminate || tauto));
    destruct (Z.compare_spec e e'), (Z.compare_spec e' e''), (Z.compare_spec e e'');
    try lia; cbn;
    try (intros [Hxy | Hxy] [Hyz | Hyz]; (discriminate || tauto));
    destruct (Pos.compare_spec m m'), (Pos.compare_spec m' m''),
      (Pos.compare_spec m m''); try lia; cbn;
    intros [Hxy | Hxy] [Hyz | Hyz]; (discriminate || tauto).
Qed.

Lemma numLe_SFle (x y : float) : numLe x y <-> SFle (Prim2SF x) (Prim2SF y).
Proof.
  unfold numLe, SFle. rewrite FloatAxioms.leb_spec. unfold SFleb.
  destruct (SFcompare _ _) as [[ | | ]|]; split;
    try reflexivity; try discriminate; try tauto;
    intros [H | H]; discriminate H.
Qed.

Lemma numLe_trans (x y z : float) : numLe x y -> numLe y z -> numLe x z.
Proof. rewrite !numLe_SFle. apply SFle_trans. Qed.

Lemma numLe_refl (x : float) : is_nan x = false -> numLe x x.
Proof.
  rewrite FloatFacts.is_nan_false, numLe_SFle. intros Hx. right.
  now apply FloatFacts.SFcompare_refl.
Qed.

Lemma ltb_numLe (x y : float) : (x <? y)%float = true -> numLe x y.
Proof.
  rewrite numLe_SFle, FloatAxioms.ltb_spec. unfold SFltb, SFle.
  destruct (SFcompare _ _) as [[ | | ]|]; try discriminate. now left.
Qed.

Lemma not_ltb_numLe (x y : float) :
  is_nan x = false -> is_nan y = false -> (x <? y)%float = false -> numLe y x.
Proof.
  rewrite !FloatFacts.is_nan_false, numLe_SFle, FloatAxioms.ltb_spec.
  unfold SFltb, SFle. intros Hx Hy. rewrite (SFcompare_swap (Prim2SF x) (Prim2SF y)).
  destruct (SFcompare (Prim2SF x) (Prim2SF y)) as [[ | | ]|] eqn:Hc;
    try discriminate; cbn; try tauto.
  destruct (Prim2SF x), (Prim2SF y); cbn in Hc; congruence.
Qed.

Lemma Math_max_cases (a b : float) :
  is_nan a = false -> is_nan b = false ->
  (JsNumber.Math_max a b = a /\ numLe b a) \/ (JsNumber.Math_max a b = b /\ numLe a b).
Proof.
  intros Ha Hb. unfold JsNumber.Math_max, JsNumber.gt. rewrite Ha, Hb. cbn [orb].
  destruct (b <? a)%float eqn:Hba; [left; split; [reflexivity | now apply ltb_numLe]|].
  destruct (a <? b)%float eqn:Hab; [right; split; [reflexivity | now apply ltb_numLe]|].
  destruct (classify a);
    first [left; split; [reflexivity | now apply not_ltb_numLe]
          |right; split; [reflexivity | now apply not_ltb_numLe]].
Qed.

Lemma Math_min_cases (a b : float) :
  is_nan a = false -> is_nan b = false ->
  (JsNumber.Math_min a b = a /\ numLe a b) \/ (JsNumber.Math_min a b = b /\ numLe b a).
Proof.
  intros Ha Hb. unfold JsNumber.Math_min, JsNumber.lt. rewrite Ha, Hb. cbn [orb].
  destruct (a <? b)%float eqn:Hab; [left; split; [reflexivity | now apply ltb_numLe]|].
  destruct (b <? a)%float eqn:Hba; [right; split; [reflexivity | now apply ltb_numLe]|].
  destruct (classify a);
    first [left; split; [reflexivity | now apply not_ltb_numLe]
          |right; split; [reflexivity | now apply not_ltb_numLe]].
Qed.

(** ** The heights of the table *)

(** X22: The heights handed to the container of the table are in order
    whenever the automatic height is a number: the minimal height of a
    table is at most the height, and the height is at most the maximal
    height.  Without a configured height the table is at most 400 high; a
    configured height is never cut: the height and the maximal height are
    at least what the user asked for. *)
Theorem tableHeights_bounds (numRows : Z) (propHeight : option float) :
  is_nan (autoHeight numRows) = false ->
  let height := fst (tableHeights numRows propHeight) in
  let maxHeight := snd (tableHeights numRows propHeight) in
  numLe MIN_TABLE_HEIGHT height /\ numLe height maxHeight
  /\ ((forall h, propHeight = Some h -> truthy (JNumber h) = false) ->
      numLe height 400)
  /\ (forall h, propHeight = Some h -> truthy (JNumber h) = true ->
                numLe h height /\ numLe h maxHeight).
Proof.
  intros Hauto. cbv zeta. unfold tableHeights.
  assert (Hmin : is_nan MIN_TABLE_HEIGHT = false) by reflexivity.
  assert (H400 : numLe MIN_TABLE_HEIGHT 400) by reflexivity.
  assert (Hmax : is_nan (JsNumber.Math_max (autoHeight numRows) MIN_TABLE_HEIGHT) = false
                 /\ numLe MIN_TABLE_HEIGHT
                      (JsNumber.Math_max (autoHeight numRows) MIN_TABLE_HEIGHT)).
  { destruct (Math_max_cases _ _ Hauto Hmin) as [[-> Hle] | [-> Hle]].
    - now split.
    - split; [assumption | now apply numLe_refl]. }
  destruct Hmax as [HmaxNan HmaxMin].
  set (maxHeight := JsNumber.Math_max (autoHeight numRows) MIN_TABLE_HEIGHT) in *.
  clearbody maxHeight.
  assert (Hauto' : numLe MIN_TABLE_HEIGHT (JsNumber.Math_min maxHeight 400)
                   /\ numLe (JsNumber.Math_min maxHeight 400) maxHeight
                   /\ numLe (JsNumber.Math_min maxHeight 400) 400).
  { destruct (Math_min_cases maxHeight 400 HmaxNan eq_refl) as [[-> Hle] | [-> Hle]].
    - split; [assumption|]. split; [now apply numLe_refl | assumption].
    - split; [assumption|]. split; [assumption | now apply numLe_refl]. }
  destruct propHeight as [h|]; [destruct (truthy (JNumber h)) eqn:Htruthy|];
    cbn [fst snd].
  - assert (Hh : is_nan h = false).
    { cbn in Htruthy. now destruct (is_nan h). }
    assert (Hset : forall P : Prop,
               (forall h', Some h = Some h' -> truthy (JNumber h') = false) -> P).
    { intros P Hf. specialize (Hf h eq_refl). congruence. }
    destruct (Math_max_cases h MIN_TABLE_HEIGHT Hh Hmin) as [[-> Hle] | [-> Hle]];
      destruct (Math_max_cases h maxHeight Hh HmaxNan) as [[-> Hle'] | [-> Hle']].
    + split; [assumption|]. split; [now apply numLe_refl|].
      split; [apply Hset|].
      intros h' [= <-] _. split; now apply numLe_refl.
    + split; [assumption|]. split; [assumption|].
      split; [apply Hset|].
      intros h' [= <-] _. split; [now apply numLe_refl | assumption].
    + split; [now apply numLe_refl|].
      split; [now apply numLe_trans with maxHeight|].
      split; [apply Hset|].
      intros h' [= <-] _. split; [assumption | now apply numLe_refl].
    + split; [now apply numLe_refl|]. split; [assumption|].
      split; [apply Hset|].
      intros h' [= <-] _. split; assumption.
  - destruct Hauto' as (H1 & H2 & H3). split; [assumption|]. split; [assumption|].
    split; [now intros _|]. intros h' [= <-] Ht. congruence.
  - destruct Hauto' as (H1 & H2 & H3). split; [assumption|]. split; [assumption|].
    split; [now intros _|]. discriminate.
Qed.

(** A table of nine rows: 353 pixels of 353 and, with a height of 1000
    configured, 1000 of 1000. *)
Lemma tableHeights_bounds_witness :
  tableHeights 9 None = (353, 353)%float
  /\ tableHeights 9 (Some 1000%float) = (1000, 1000)%float
  /\ numLe MIN_TABLE_HEIGHT (fst (tableHeights 9 (Some 1000%float)))
  /\ numLe 1000 (fst (tableHeights 9 (Some 1000%float))).
Proof.
  split; [reflexivity|]. split; [reflexivity|].
  pose proof (tableHeights_bounds 9 (Some 1000%float) eq_refl) as (H1 & _ & _ & H4).
  split; [exact H1|]. exact (proj1 (H4 1000%float eq_refl eq_refl)).
Defined.

(** ** Text, url and image cells *)

(** X23: What the text, url and image cells hold.  The display data of a text
    cell is the display string, and its data is the value itself when
    that is a string or missing, and the display string otherwise.  The
    data of a url cell is a string in every case, the empty one for a
    missing value.  An image cell has the same array as data and as
    display data, empty for a missing value and else of the one url the
    value converts to.  None of the three touches another field of the
    cell. *)
Theorem text_url_image_cells (cell : GridCell) (raw : JsValue) (shown : string) :
  (displayData (fillTextCell cell raw shown) = JString shown
   /\ (isString raw = true \/ notNullOrUndefined raw = false ->
       data (fillTextCell cell raw shown) = raw)
   /\ (isString raw = false -> notNullOrUndefined raw = true ->
       data (fillTextCell cell raw shown) = JString shown)
   /\ fillTextCell cell raw shown
      = with_displayData (JString shown)
          (with_data (data (fillTextCell cell raw shown)) cell))
  /\ (isString (data (fillUrlCell cell raw)) = true
      /\ (notNullOrUndefined raw = false -> data (fillUrlCell cell raw) = JString "")
      /\ fillUrlCell cell raw = with_data (data (fillUrlCell cell raw)) cell)
  /\ (displayData (fillImageCell cell raw) = data (fillImageCell cell raw)
      /\ (notNullOrUndefined raw = false -> data (fillImageCell cell raw) = JArray [])
      /\ (notNullOrUndefined raw = true ->
          data (fillImageCell cell raw) = JArray [JString (ToString raw)])
      /\ fillImageCell cell raw
         = with_displayData (data (fillImageCell cell raw))
             (with_data (data (fillImageCell cell raw)) cell)).
Proof.
  unfold fillTextCell, fillUrlCell, fillImageCell. split; [|split].
  - split; [reflexivity|]. split; [|split; [|reflexivity]].
    + intros [-> | ->]; [reflexivity|]. now rewrite orb_true_r.
    + now intros -> ->.
  - split; [now destruct (notNullOrUndefined raw)|]. split; [now intros ->|reflexivity].
  - split; [reflexivity|]. split; [now intros ->|]. split; [now intros ->|reflexivity].
Qed.

(** ** Edits after a refused edit *)


